(** * BuliMaps game viewer: player locomotion, animation switching and camera

    A shallow embedding of [Player.js], [GameCamera.js] and the frame loop of
    [game-preview.js].

    Numbers.  JavaScript numbers are modelled by exact rationals [Q]: every
    literal stands for its decimal value, [+ - * /] are exact, and the
    comparisons are the rational ones.  Rounding, NaN and the infinities of
    IEEE doubles are outside the model.

    three.js.  Vector and matrix routines with trigonometry inside
    ([normalize], [applyQuaternion], [setFromSphericalCoords],
    [applyAxisAngle], [Math.atan2], [lookAt]) are taken as an abstract
    interface [ThreeMath]; everything the repository itself computes is
    written out. *)

From Stdlib Require Import QArith Qround Qabs Lqa ZArith Lia List String Ascii Bool.
From stdpp Require Import base gmap strings.
Import ListNotations.

Local Open Scope Q_scope.

(** ** JavaScript arithmetic on rationals *)

Module Js.

(** [x < y] and [x > y] as booleans. *)
Definition ltb (x y : Q) : bool :=
  (Qnum x * QDen y <? Qnum y * QDen x)%Z.

Definition gtb (x y : Q) : bool := ltb y x.

(** Truncation toward zero, the integer part used by the remainder. *)
Definition trunc (x : Q) : Z := Z.quot (Qnum x) (QDen x).

(** [x % y]: the remainder has the sign of the dividend. *)
Definition rem (x y : Q) : Q := x - y * inject_Z (trunc (x / y)).

(** [Math.PI], the double nearest to pi, as the rational it denotes. *)
Definition Math_PI : Q := 884279719003555 # 281474976710656.

Definition Math_min (x y : Q) : Q := if ltb y x then y else x.

(** [Math.pow(x, 3)]. *)
Definition pow3 (x : Q) : Q := x * x * x.

End Js.

Infix "<?" := Js.ltb (at level 70, no associativity) : Q_scope.
Infix ">?" := Js.gtb (at level 70, no associativity) : Q_scope.

(** ** three.js values *)

Record Vector3 := mkVector3 { vx : Q; vy : Q; vz : Q }.

Record Quaternion := mkQuaternion { qx : Q; qy : Q; qz : Q; qw : Q }.

(** The part of an [Object3D] the game code reads and writes: its position
    and the Euler angles [rotation.x] and [rotation.y]. *)
Record Object3D := mkObject3D {
  position : Vector3;
  rotation_x : Q;
  rotation_y : Q
}.

Module Vec.

Definition zero : Vector3 := mkVector3 0 0 0.

Definition add (a b : Vector3) : Vector3 :=
  mkVector3 (vx a + vx b) (vy a + vy b) (vz a + vz b).

Definition multiplyScalar (s : Q) (a : Vector3) : Vector3 :=
  mkVector3 (vx a * s) (vy a * s) (vz a * s).

(** [a.lerp(b, alpha)]. *)
Definition lerp (a b : Vector3) (alpha : Q) : Vector3 :=
  mkVector3 (vx a + (vx b - vx a) * alpha)
            (vy a + (vy b - vy a) * alpha)
            (vz a + (vz b - vz a) * alpha).

(** [lerpVectors(v1, v2, alpha)]. *)
Definition lerpVectors (v1 v2 : Vector3) (alpha : Q) : Vector3 :=
  mkVector3 (vx v1 + (vx v2 - vx v1) * alpha)
            (vy v1 + (vy v2 - vy v1) * alpha)
            (vz v1 + (vz v2 - vz v1) * alpha).

Definition set_y (y : Q) (a : Vector3) : Vector3 := mkVector3 (vx a) y (vz a).

End Vec.

Module MathUtils.

(** [THREE.MathUtils.lerp(x, y, t)]. *)
Definition lerp (x y t : Q) : Q := (1 - t) * x + t * y.

(** [THREE.MathUtils.clamp(value, min, max)]. *)
Definition clamp (value lo hi : Q) : Q :=
  let m := if hi <? value then hi else value in
  if m <? lo then lo else m.

End MathUtils.

(** The three.js routines used by the game code whose results involve square
    roots or trigonometry. *)
Record ThreeMath := mkThreeMath {
  normalize : Vector3 -> Vector3;
  (** [v.applyQuaternion(obj.quaternion)], the quaternion being the one three.js
      keeps in step with the object's Euler angles *)
  applyQuaternion : Q -> Q -> Vector3 -> Vector3;
  setFromSphericalCoords : Q -> Q -> Q -> Vector3;
  applyAxisAngle : Vector3 -> Q -> Vector3 -> Vector3;
  atan2 : Q -> Q -> Q;
  (** orientation given to a camera at the first point looking at the second *)
  lookAt : Vector3 -> Vector3 -> Quaternion
}.

(** ** Controls (ControlsManager.js) *)

Record Controls := mkControls {
  forward : bool;
  backward : bool;
  left : bool;
  right : bool;
  jump : bool;
  mouseLookActive : bool
}.

Definition controlsState0 : Controls :=
  mkControls false false false false false false.

(** ** Player (Player.js) *)

Definition GRAVITY : Q := -15.
Definition JUMP_FORCE : Q := 8.
Definition RAYCAST_HEIGHT : Q := 5.0.
Definition GROUNDED_BUFFER_TIME : Q := 0.2.
Definition GROUND_TOLERANCE : Q := 0.1.
Definition SPAWN_ALTITUDE : Q := 240.
Definition SPAWN_INITIAL_VELOCITY : Q := -1.0.
Definition WALK_SPEED : Q := 2.5.
Definition SPRINT_SPEED : Q := 5.0.

Definition AIR_CONTROL_FACTOR : Q := 0.6.
Definition TERMINAL_VELOCITY : Q := -45.
Definition FALL_ANIM_DELAY : Q := 0.40.

(** [this.state] *)
Record Flags := mkFlags {
  idle : bool;
  walking : bool;
  sprinting : bool;
  jumping : bool;
  falling : bool
}.

Inductive LoopMode := LoopOnce | LoopRepeat | LoopPingPong.

(** What the game code sets on a [THREE.AnimationAction].  [active] says the
    action was started by [play()] and not stopped since. *)
Record AnimationAction := mkAction {
  active : bool;
  loop : LoopMode;
  repetitions : option Z;   (* [None] is [Infinity] *)
  clampWhenFinished : bool;
  timeScale : Q;
  weight : Q
}.

(** An action as [mixer.clipAction(clip)] creates it. *)
Definition clipAction : AnimationAction :=
  mkAction false LoopRepeat None false 1 1.

Module Action.

Definition stop (a : AnimationAction) : AnimationAction :=
  mkAction false (loop a) (repetitions a) (clampWhenFinished a)
           (timeScale a) (weight a).

(** [reset().setEffectiveTimeScale(1).setEffectiveWeight(1).play()] *)
Definition restart (a : AnimationAction) : AnimationAction :=
  mkAction true (loop a) (repetitions a) (clampWhenFinished a) 1 1.

(** [setLoop(THREE.LoopOnce, 1); clampWhenFinished = true] *)
Definition oneShot (a : AnimationAction) : AnimationAction :=
  mkAction (active a) LoopOnce (Some 1%Z) true (timeScale a) (weight a).

End Action.

Record Player := mkPlayer {
  model : option Object3D;
  mixer : bool;                         (* [this.mixer] is not null *)
  animations : gmap string AnimationAction;
  currentAnimation : option string;     (* [None] is [null] *)
  spawnPoint : Vector3;
  state : Flags;
  verticalVelocity : Q;
  walkToSprintTime : Q;
  timeSinceGrounded : Q;
  feetOffset : Q
}.

(** [new Player(scene)] *)
Definition Player_new : Player :=
  {| model := None;
     mixer := false;
     animations := ∅;
     currentAnimation := None;
     spawnPoint := Vec.zero;
     state := mkFlags false false false true true;
     verticalVelocity := SPAWN_INITIAL_VELOCITY;
     walkToSprintTime := 0;
     timeSinceGrounded := GROUNDED_BUFFER_TIME + 0.01;
     feetOffset := 0 |}.

(** Field assignments. *)
Definition set_model (m : option Object3D) (p : Player) : Player :=
  mkPlayer m (mixer p) (animations p) (currentAnimation p) (spawnPoint p)
           (state p) (verticalVelocity p) (walkToSprintTime p)
           (timeSinceGrounded p) (feetOffset p).

Definition set_animations (a : gmap string AnimationAction) (p : Player) : Player :=
  mkPlayer (model p) (mixer p) a (currentAnimation p) (spawnPoint p)
           (state p) (verticalVelocity p) (walkToSprintTime p)
           (timeSinceGrounded p) (feetOffset p).

Definition set_currentAnimation (c : option string) (p : Player) : Player :=
  mkPlayer (model p) (mixer p) (animations p) c (spawnPoint p)
           (state p) (verticalVelocity p) (walkToSprintTime p)
           (timeSinceGrounded p) (feetOffset p).

Definition set_state (s : Flags) (p : Player) : Player :=
  mkPlayer (model p) (mixer p) (animations p) (currentAnimation p) (spawnPoint p)
           s (verticalVelocity p) (walkToSprintTime p)
           (timeSinceGrounded p) (feetOffset p).

Definition set_verticalVelocity (v : Q) (p : Player) : Player :=
  mkPlayer (model p) (mixer p) (animations p) (currentAnimation p) (spawnPoint p)
           (state p) v (walkToSprintTime p)
           (timeSinceGrounded p) (feetOffset p).

Definition set_walkToSprintTime (t : Q) (p : Player) : Player :=
  mkPlayer (model p) (mixer p) (animations p) (currentAnimation p) (spawnPoint p)
           (state p) (verticalVelocity p) t
           (timeSinceGrounded p) (feetOffset p).

Definition set_timeSinceGrounded (t : Q) (p : Player) : Player :=
  mkPlayer (model p) (mixer p) (animations p) (currentAnimation p) (spawnPoint p)
           (state p) (verticalVelocity p) (walkToSprintTime p)
           t (feetOffset p).

(** Mutation of the object [this.model] points to, when there is one. *)
Definition on_model (f : Object3D -> Object3D) (p : Player) : Player :=
  set_model (option_map f (model p)) p.

Definition set_position (v : Vector3) (m : Object3D) : Object3D :=
  mkObject3D v (rotation_x m) (rotation_y m).

Definition set_rotation_x (r : Q) (m : Object3D) : Object3D :=
  mkObject3D (position m) r (rotation_y m).

Definition set_rotation_y (r : Q) (m : Object3D) : Object3D :=
  mkObject3D (position m) (rotation_x m) r.

(** [this.model.position.y], read where the model is known to be loaded. *)
Definition model_y (p : Player) : Q :=
  match model p with Some m => vy (position m) | None => 0 end.

(** *** Console output

    A method returns the new object together with the [console.warn] lines it
    printed, oldest first. *)
Definition Logged (A : Type) : Type := (A * list string)%type.

Definition quiet {A} (a : A) : Logged A := (a, []).

Definition andThen {A B} (x : Logged A) (f : A -> Logged B) : Logged B :=
  let '(a, w1) := x in
  let '(b, w2) := f a in
  (b, w1 ++ w2).

Notation "x >>= f" := (andThen x f) (at level 58, left associativity) : Q_scope.

(** [if (c) { body }] on a logged computation *)
Definition when (c : bool) (body : Player -> Logged Player) (p : Player)
  : Logged Player :=
  if c then body p else quiet p.

(** *** [_switchAnimation] *)

Definition not_found_warning (name : string) : string :=
  ("[Animation] '" ++ name ++ "' not found")%string.

(** The property key JavaScript uses for [this.animations[this.currentAnimation]]:
    [null] reads the key ["null"]. *)
Definition animation_key (c : option string) : string :=
  match c with Some n => n | None => "null"%string end.

(** [this.currentAnimation === name] *)
Definition current_is (name : string) (p : Player) : bool :=
  match currentAnimation p with
  | Some c => String.eqb c name
  | None => false
  end.

Definition _switchAnimation (name : string) (fade : Q) (p : Player)
  : Logged Player :=
  match animations p !! name with
  | None => (p, [not_found_warning name])
  | Some _ =>
      if current_is name p then quiet p
      else
        let previous := animation_key (currentAnimation p) in
        let stopped := alter Action.stop previous (animations p) in
        let started := alter Action.restart name stopped in
        let looped :=
          if String.eqb name "jump" then alter Action.oneShot name started
          else started in
        quiet (set_animations looped (set_currentAnimation (Some name) p))
  end.

(** *** Ray casts against the map

    [mapCollider] with the raycaster: [intersect origin] is the result of
    [raycaster.intersectObjects(mapCollider, true)] for the ray going straight
    down from [origin], nearest hit first.  The two other fields are the
    bounding box of the collider meshes as [load] computes it. *)
Record Intersection := mkIntersection { distance : Q; point : Vector3 }.

Record MapCollider := mkMapCollider {
  intersect : Vector3 -> list Intersection;
  worldBox_center : Vector3;
  worldBox_max_y : Q
}.

(** *** Loading *)

(** What [load] reads from the glTF file: the scene object, [bbox.min.y] of
    the scaled model, and the clip names in file order. *)
Record Gltf := mkGltf {
  gltf_scene : Object3D;
  gltf_bbox_min_y : Q;
  gltf_animations : list string
}.

Module Str.

(** [s.split(c)] for a one-character separator. *)
Fixpoint split (c : ascii) (s : string) : list string :=
  match s with
  | EmptyString => [EmptyString]
  | String a r =>
      if Ascii.eqb a c then EmptyString :: split c r
      else match split c r with
           | h :: t => String a h :: t
           | [] => [String a EmptyString]
           end
  end.

Definition lower_ascii (a : ascii) : ascii :=
  let n := nat_of_ascii a in
  if (Nat.leb 65 n && Nat.leb n 90)%bool then ascii_of_nat (n + 32) else a.

(** [s.toLowerCase()] on ASCII text. *)
Fixpoint toLowerCase (s : string) : string :=
  match s with
  | EmptyString => EmptyString
  | String a r => String (lower_ascii a) (toLowerCase r)
  end.

End Str.

(** [clip.name.split('|')[1]?.toLowerCase() || clip.name.toLowerCase()] *)
Definition clip_key (name : string) : string :=
  match nth_error (Str.split "|"%char name) 1 with
  | Some s =>
      let l := Str.toLowerCase s in
      if String.eqb l "" then Str.toLowerCase name else l
  | None => Str.toLowerCase name
  end.

(** The [forEach] over [gltf.animations]. *)
Fixpoint register_clips (names : list string) (a : gmap string AnimationAction)
  : gmap string AnimationAction :=
  match names with
  | [] => a
  | n :: rest =>
      let name := clip_key n in
      if String.eqb name "grounded" then register_clips rest a
      else register_clips rest (<[name := clipAction]> a)
  end.

Definition load (gltf : Gltf) (mapCollider : MapCollider) (p : Player)
  : Logged Player :=
  let spawn := mkVector3 (vx (worldBox_center mapCollider))
                         (worldBox_max_y mapCollider + SPAWN_ALTITUDE)
                         (vz (worldBox_center mapCollider)) in
  let scene := set_rotation_y Js.Math_PI (set_position spawn (gltf_scene gltf)) in
  let registered := register_clips (gltf_animations gltf) (animations p) in
  let p1 :=
    {| model := Some scene;
       mixer := true;
       animations := Action.stop <$> registered;
       currentAnimation := currentAnimation p;
       spawnPoint := spawn;
       state := state p;
       verticalVelocity := verticalVelocity p;
       walkToSprintTime := walkToSprintTime p;
       timeSinceGrounded := timeSinceGrounded p;
       feetOffset := - gltf_bbox_min_y gltf |} in
  _switchAnimation "jump" 0 p1.

(** *** [reset] *)

Definition reset (p : Player) : Logged Player :=
  match model p with
  | None => quiet p
  | Some _ =>
      let p1 := on_model (set_position (spawnPoint p)) p in
      let p2 := on_model (set_rotation_x 0) p1 in
      let p3 := on_model (set_rotation_y Js.Math_PI) p2 in
      let p4 := set_verticalVelocity SPAWN_INITIAL_VELOCITY p3 in
      let p5 := set_timeSinceGrounded (GROUNDED_BUFFER_TIME + 0.01) p4 in
      let p6 := set_state (mkFlags false false false true true) p5 in
      _switchAnimation "jump" 0.1 p6
  end.

(** *** [update], block by block *)

(** [hits.length > 0 && hits[0].distance < RAYCAST_HEIGHT + feetOffset + GROUND_TOLERANCE] *)
Definition ground_sensor (hits : list Intersection) (p : Player) : bool :=
  match hits with
  | [] => false
  | h :: _ => distance h <? RAYCAST_HEIGHT + feetOffset p + GROUND_TOLERANCE
  end.

(** [hits[0].point.y], read only when [grounded] holds *)
Definition hit_y (hits : list Intersection) : Q :=
  match hits with
  | [] => 0
  | h :: _ => vy (point h)
  end.

Definition ground_check (grounded : bool) (delta : Q) (p : Player) : Player :=
  if grounded then
    let p1 := set_timeSinceGrounded 0 p in
    if (falling (state p1) || jumping (state p1))%bool then
      let s := state p1 in
      let p2 := set_state (mkFlags (idle s) (walking s) (sprinting s) (jumping s) false) p1 in
      let s := state p2 in
      let p3 := set_state (mkFlags (idle s) (walking s) (sprinting s) false (falling s)) p2 in
      on_model (set_rotation_x 0) p3
    else p1
  else
    let p1 := set_timeSinceGrounded (timeSinceGrounded p + delta) p in
    if ((timeSinceGrounded p1 >? GROUNDED_BUFFER_TIME) && negb (jumping (state p1)))%bool then
      let s := state p1 in
      set_state (mkFlags (idle s) (walking s) (sprinting s) (jumping s) true) p1
    else p1.

Definition leave_ground (justLeftGround : bool) (p : Player) : Logged Player :=
  if justLeftGround then
    when (current_is "walk" p || current_is "sprint" p)%bool
         (_switchAnimation "idle" 0.15) p >>= fun p1 =>
    let s := state p1 in
    quiet (set_state (mkFlags (idle s) false (sprinting s) (jumping s) (falling s)) p1)
  else quiet p.

Definition jump_input (grounded : bool) (controls : Controls) (p : Player)
  : Logged Player :=
  if (grounded && jump controls)%bool then
    let p1 := set_verticalVelocity JUMP_FORCE p in
    _switchAnimation "jump" 0.1 p1 >>= fun p2 =>
    quiet (set_state (mkFlags false false (sprinting (state p2)) true false) p2)
  else quiet p.

(** [moving] after the two [if]s on forward and backward *)
Definition is_moving (controls : Controls) : bool :=
  (forward controls || backward controls)%bool.

(** [dir] after the two [if]s: backward wins when both are held. *)
Definition input_dir (controls : Controls) : Vector3 :=
  let z1 := if forward controls then 1 else 0 in
  let z2 := if backward controls then -1 else z1 in
  mkVector3 0 0 z2.

(** The two turning statements. *)
Definition turn (controls : Controls) (delta : Q) (p : Player) : Player :=
  let p1 := if left controls
            then on_model (fun m => set_rotation_y (rotation_y m + 3 * delta) m) p
            else p in
  if right controls
  then on_model (fun m => set_rotation_y (rotation_y m - 3 * delta) m) p1
  else p1.

(** [baseSpeed * speedFactor * delta] *)
Definition step_length (grounded : bool) (delta : Q) (p : Player) : Q :=
  let baseSpeed := if sprinting (state p) then SPRINT_SPEED else WALK_SPEED in
  let speedFactor := if grounded then 1.0 else AIR_CONTROL_FACTOR in
  baseSpeed * speedFactor * delta.

Section WithThree.

Context (three : ThreeMath).

(** The vector added to the position of [m] when moving. *)
Definition step_vector (grounded : bool) (controls : Controls) (delta : Q)
           (p : Player) (m : Object3D) : Vector3 :=
  Vec.multiplyScalar (step_length grounded delta p)
    (applyQuaternion three (rotation_x m) (rotation_y m)
       (normalize three (input_dir controls))).

Definition movement_input (grounded : bool) (controls : Controls) (delta : Q)
           (p : Player) : Player :=
  let p1 := turn controls delta p in
  if is_moving controls then
    on_model (fun m =>
      set_position (Vec.add (position m)
                            (step_vector grounded controls delta p1 m)) m) p1
  else p1.

End WithThree.

Definition vertical_physics (grounded : bool) (hits : list Intersection)
           (delta : Q) (p : Player) : Player :=
  let p1 := set_verticalVelocity (verticalVelocity p + GRAVITY * delta) p in
  let p2 := if verticalVelocity p1 <? TERMINAL_VELOCITY
            then set_verticalVelocity TERMINAL_VELOCITY p1 else p1 in
  let p3 := if (grounded && (verticalVelocity p2 <? 0))%bool
            then on_model (fun m =>
                   set_position (Vec.set_y (hit_y hits + feetOffset p2) (position m)) m)
                   (set_verticalVelocity 0 p2)
            else p2 in
  on_model (fun m =>
    set_position (Vec.set_y (vy (position m) + verticalVelocity p3 * delta)
                            (position m)) m) p3.

(** The ramp inside the moving branch. *)
Definition sprint_ramp (delta : Q) (p : Player) : Logged Player :=
  if negb (sprinting (state p)) then
    let p1 := set_walkToSprintTime (walkToSprintTime p + delta) p in
    if walkToSprintTime p1 >? 1.0 then
      let s := state p1 in
      _switchAnimation "sprint" 0.2
        (set_state (mkFlags (idle s) (walking s) true (jumping s) (falling s)) p1)
    else quiet p1
  else quiet p.

Definition desiredAnim (p : Player) : string :=
  if sprinting (state p) then "sprint"%string else "walk"%string.

Definition grounded_animation (moving : bool) (delta : Q) (p : Player)
  : Logged Player :=
  if moving then
    when (negb (current_is (desiredAnim p) p))
         (_switchAnimation (desiredAnim p) 0.15) p >>= fun p1 =>
    sprint_ramp delta p1 >>= fun p2 =>
    let s := state p2 in
    let p3 := set_state (mkFlags false (walking s) (sprinting s) (jumping s) (falling s)) p2 in
    let s := state p3 in
    quiet (set_state (mkFlags (idle s) (negb (sprinting s)) (sprinting s)
                              (jumping s) (falling s)) p3)
  else
    when (negb (current_is "idle" p)) (_switchAnimation "idle" 0.3) p >>= fun p1 =>
    let p2 := set_walkToSprintTime 0 p1 in
    let s := state p2 in
    quiet (set_state (mkFlags true false false (jumping s) (falling s)) p2).

Definition animation_state_machine (grounded moving : bool) (delta : Q)
           (p : Player) : Logged Player :=
  when (negb grounded && current_is "jump" p
        && (timeSinceGrounded p >? FALL_ANIM_DELAY)
        && (verticalVelocity p <? -0.1))%bool
       (_switchAnimation "idle" 0.25) p >>= fun p1 =>
  if grounded then grounded_animation moving delta p1 else quiet p1.

(** [this.mixer.update(delta)] advances playback inside three.js; none of the
    fields kept here changes. *)
Definition mixer_update (delta : Q) (p : Player) : Player := p.

Definition housekeeping (delta : Q) (p : Player) : Logged Player :=
  if model_y p <? -50 then reset p else quiet (mixer_update delta p).

(** The origin of the downward ray: [RAYCAST_HEIGHT] above the model. *)
Definition rayOrigin (m : Object3D) : Vector3 :=
  Vec.set_y (vy (position m) + RAYCAST_HEIGHT) (position m).

(** [grounded], the raw result of this frame's ray. *)
Definition sensed (mapCollider : MapCollider) (m : Object3D) (p : Player) : bool :=
  ground_sensor (intersect mapCollider (rayOrigin m)) p.

Section Update.

Context (three : ThreeMath).

(** [update] up to and including the animation state machine; [m] is the
  model object as it is when the method starts. *)
Definition simulate (delta : Q) (controls : Controls) (mapCollider : MapCollider)
         (m : Object3D) (p : Player) : Logged Player :=
let wasGrounded := timeSinceGrounded p <? GROUNDED_BUFFER_TIME in
let hits := intersect mapCollider (rayOrigin m) in
let grounded := ground_sensor hits p in
let p1 := ground_check grounded delta p in
let justLeftGround := (negb grounded && wasGrounded)%bool in
leave_ground justLeftGround p1 >>= fun p2 =>
jump_input grounded controls p2 >>= fun p3 =>
let moving := is_moving controls in
let p4 := movement_input three grounded controls delta p3 in
let p5 := vertical_physics grounded hits delta p4 in
animation_state_machine grounded moving delta p5.

Definition update (delta : Q) (controls : Controls) (mapCollider : MapCollider)
         (p : Player) : Logged Player :=
match model p with
| None => quiet p
| Some m =>
    if negb (mixer p) then quiet p
    else simulate delta controls mapCollider m p >>= housekeeping delta
end.

End Update.

(** ** GameCamera (GameCamera.js) *)

Definition CINEMATIC_RADIUS : Q := 15.0.
Definition START_POLAR_ANGLE : Q := Js.Math_PI / 2.8.
Definition END_POLAR_ANGLE : Q := Js.Math_PI / 4.5.
Definition FALL_TRANSITION_DURATION : Q := 2.0.
Definition CAMERA_SMOOTHING : Q := 0.03.
Definition CAMERA_DISTANCE : Q := 0.0.
Definition CAMERA_ELEVATION : Q := 6.0.
Definition CAMERA_LOOK_AT_HEIGHT : Q := 2.0.

Inductive Mode := CINEMATIC_FALL | THIRD_PERSON.

(** The [THREE.PerspectiveCamera] handed to the constructor. *)
Record Camera := mkCamera {
  camera_position : Vector3;
  camera_quaternion : Quaternion
}.

(** [this.target] is the player's model object itself and is kept there; the
    constructor dereferences it ([this.target.add]), so a camera always has one
    and the methods below receive it as [target]. *)
Record GameCamera := mkGameCamera {
  camera : Camera;
  mapCenter : Vector3;
  mode : Mode;
  cam_distance : Q;
  polar : Q;
  azimuth : Q;
  cinematicTimer : Q;
  smoothedLookAt : Vector3
}.

(** [new GameCamera(camera, target, mapCenter)] *)
Definition GameCamera_new (cam : Camera) (center : option Vector3) : GameCamera :=
  {| camera := cam;
     mapCenter := match center with Some c => c | None => Vec.zero end;
     mode := CINEMATIC_FALL;
     cam_distance := CAMERA_DISTANCE;
     polar := Js.Math_PI / 3;
     azimuth := Js.Math_PI;
     cinematicTimer := 0;
     smoothedLookAt := Vec.zero |}.

Definition set_camera (k : Camera) (c : GameCamera) : GameCamera :=
  mkGameCamera k (mapCenter c) (mode c) (cam_distance c) (polar c) (azimuth c)
               (cinematicTimer c) (smoothedLookAt c).

Definition set_mode (m : Mode) (c : GameCamera) : GameCamera :=
  mkGameCamera (camera c) (mapCenter c) m (cam_distance c) (polar c) (azimuth c)
               (cinematicTimer c) (smoothedLookAt c).

Definition set_polar (a : Q) (c : GameCamera) : GameCamera :=
  mkGameCamera (camera c) (mapCenter c) (mode c) (cam_distance c) a (azimuth c)
               (cinematicTimer c) (smoothedLookAt c).

Definition set_azimuth (a : Q) (c : GameCamera) : GameCamera :=
  mkGameCamera (camera c) (mapCenter c) (mode c) (cam_distance c) (polar c) a
               (cinematicTimer c) (smoothedLookAt c).

Definition set_cinematicTimer (t : Q) (c : GameCamera) : GameCamera :=
  mkGameCamera (camera c) (mapCenter c) (mode c) (cam_distance c) (polar c)
               (azimuth c) t (smoothedLookAt c).

Definition set_smoothedLookAt (v : Vector3) (c : GameCamera) : GameCamera :=
  mkGameCamera (camera c) (mapCenter c) (mode c) (cam_distance c) (polar c)
               (azimuth c) (cinematicTimer c) v.

Definition is_cinematic (c : GameCamera) : bool :=
  match mode c with CINEMATIC_FALL => true | THIRD_PERSON => false end.

Definition checkLanding (target : Object3D) (playerIsGrounded : bool)
           (c : GameCamera) : GameCamera :=
  if (playerIsGrounded && is_cinematic c)%bool then
    set_azimuth (rotation_y target + Js.Math_PI) (set_mode THIRD_PERSON c)
  else c.

Definition _shortestAngleDiff (a b : Q) : Q :=
  let diff := Js.rem (b - a + Js.Math_PI) (Js.Math_PI * 2) - Js.Math_PI in
  if diff <? - Js.Math_PI then diff + Js.Math_PI * 2 else diff.

Definition lerpAngle (a b t : Q) : Q :=
  let delta := _shortestAngleDiff a b in
  a + delta * t.

Definition easeInOutCubic (t : Q) : Q :=
  if t <? 0.5 then 4 * t * t * t else 1 - Js.pow3 (-2 * t + 2) / 2.

Section Camera.

Context (three : ThreeMath).

(** The last block of [update]: the unified smoothing and [lookAt]. *)
Definition smooth (forceImmediate : bool) (targetPosition targetLookAt : Vector3)
           (c : GameCamera) : GameCamera :=
  let c1 :=
    if forceImmediate then
      set_smoothedLookAt targetLookAt
        (set_camera (mkCamera targetPosition (camera_quaternion (camera c))) c)
    else
      set_smoothedLookAt (Vec.lerp (smoothedLookAt c) targetLookAt CAMERA_SMOOTHING)
        (set_camera (mkCamera (Vec.lerp (camera_position (camera c))
                                        targetPosition CAMERA_SMOOTHING)
                              (camera_quaternion (camera c))) c) in
  set_camera (mkCamera (camera_position (camera c1))
                       (lookAt three (camera_position (camera c1))
                               (smoothedLookAt c1))) c1.

Definition GameCamera_update (controlsState : Controls) (target : Object3D)
           (delta : Q) (forceImmediate : bool) (c : GameCamera) : GameCamera :=
  match mode c with
  | CINEMATIC_FALL =>
      let c1 := set_cinematicTimer (cinematicTimer c + delta) c in
      let progress :=
        Js.Math_min (cinematicTimer c1 / FALL_TRANSITION_DURATION) 1.0 in
      let easeProgress := easeInOutCubic progress in
      let currentPolar :=
        MathUtils.lerp START_POLAR_ANGLE END_POLAR_ANGLE easeProgress in
      let startAzimuth := rotation_y target + Js.Math_PI in
      let endAzimuth :=
        atan2 three (vx (position target) - vx (mapCenter c1))
                    (vz (position target) - vz (mapCenter c1)) in
      let currentAzimuth := lerpAngle startAzimuth endAzimuth easeProgress in
      let offset :=
        setFromSphericalCoords three CINEMATIC_RADIUS currentPolar currentAzimuth in
      let targetPosition := Vec.add (position target) offset in
      let targetLookAt :=
        Vec.lerpVectors (position target) (mapCenter c1) easeProgress in
      smooth forceImmediate targetPosition targetLookAt c1
  | THIRD_PERSON =>
      let c1 :=
        if negb (mouseLookActive controlsState) then
          set_azimuth (lerpAngle (azimuth c) (rotation_y target + Js.Math_PI) 0.1) c
        else c in
      let offset :=
        applyAxisAngle three (mkVector3 0 1 0) (azimuth c1)
          (applyAxisAngle three (mkVector3 1 0 0) (polar c1)
             (mkVector3 0 CAMERA_ELEVATION (cam_distance c1))) in
      let targetPosition := Vec.add (position target) offset in
      let targetPosition :=
        if vy targetPosition <? 0.5 then Vec.set_y 0.5 targetPosition
        else targetPosition in
      let targetLookAt :=
        Vec.add (position target) (mkVector3 0 CAMERA_LOOK_AT_HEIGHT 0) in
      smooth forceImmediate targetPosition targetLookAt c1
  end.

Definition GameCamera_reset (controlsState : Controls) (target : Object3D)
           (c : GameCamera) : GameCamera :=
  let c1 := set_mode CINEMATIC_FALL c in
  let c2 := set_azimuth (rotation_y target + Js.Math_PI) c1 in
  let c3 := set_cinematicTimer 0 c2 in
  let c4 := set_smoothedLookAt (position target) c3 in
  GameCamera_update controlsState target 0 true c4.

(** ** The viewer (game-preview.js) *)

(** The module variables [player] and [gameCamera] once [createGameViewer]
    has set both.  The camera's target is [model (player w)]. *)
Record World := mkWorld {
  player : Player;
  gameCamera : GameCamera
}.

(** The part of [createGameViewer] that builds the player and the camera. *)
Definition createGameViewer (cam : Camera) (heroGltf : Gltf)
           (mapCollider : MapCollider) (center : Vector3) : Logged World :=
  load heroGltf mapCollider Player_new >>= fun p =>
  quiet (mkWorld p (GameCamera_new cam (Some center))).

(** The camera half of a frame.  No camera is built before the model is
    loaded, and nothing unloads the model, so the first branch is the one
    that runs. *)
Definition camera_frame (dt : Q) (controlsState : Controls) (p : Player)
           (c : GameCamera) : GameCamera :=
  match model p with
  | Some target =>
      let c1 := checkLanding target (timeSinceGrounded p <? 0.2) c in
      GameCamera_update controlsState target dt false c1
  | None => c
  end.

(** [_animate]: one frame, [dt] being [clock.getDelta()]. *)
Definition _animate (dt : Q) (controlsState : Controls)
           (mapCollider : MapCollider) (w : World) : Logged World :=
  update three dt controlsState mapCollider (player w) >>= fun p =>
  quiet (mkWorld p (camera_frame dt controlsState p (gameCamera w))).

(** The mouse-move callback given to [initControls]. *)
Definition onMouseMove (controlsState : Controls) (movementX movementY : Q)
           (w : World) : World :=
  if mouseLookActive controlsState then
    let c := gameCamera w in
    let c1 := set_azimuth (azimuth c - movementX * 0.002) c in
    let c2 := set_polar (MathUtils.clamp (polar c1 - movementY * 0.002) 0.6
                                         (Js.Math_PI / 2 - 0.1)) c1 in
    mkWorld (player w) c2
  else w.

(** [restart] of the controller API *)
Definition restart (controlsState : Controls) (w : World) : Logged World :=
  reset (player w) >>= fun p =>
  quiet (mkWorld p
           (match model p with
            | Some target => GameCamera_reset controlsState target (gameCamera w)
            | None => gameCamera w
            end)).

End Camera.

(** ** Runs *)

(** What the browser delivers to the viewer: animation frames, [dt] being the
    clock's delta, and mouse movements under pointer lock. *)
Inductive Event :=
| AnimationFrame (dt : Q) (controlsState : Controls)
| MouseMove (controlsState : Controls) (movementX movementY : Q).

(** One frame of the player alone. *)
Record Frame := mkFrame { frame_dt : Q; frame_controls : Controls }.

(** [grounded] as the frame starting in [p] will compute it. *)
Definition grounded_at (mapCollider : MapCollider) (p : Player) : bool :=
  match model p with
  | Some m => sensed mapCollider m p
  | None => false
  end.

(** The debounced signal [timeSinceGrounded < bufferTime]. *)
Definition groundedDebounced (p : Player) : bool :=
  timeSinceGrounded p <? GROUNDED_BUFFER_TIME.

Definition loaded (p : Player) : bool :=
  match model p with Some _ => mixer p | None => false end.

Section Runs.

Context (three : ThreeMath) (mapCollider : MapCollider).

Definition handle (e : Event) (w : World) : Logged World :=
  match e with
  | AnimationFrame dt cs => _animate three dt cs mapCollider w
  | MouseMove cs mx my => quiet (onMouseMove cs mx my w)
  end.

Fixpoint run (es : list Event) (w : World) : Logged World :=
  match es with
  | [] => quiet w
  | e :: rest => handle e w >>= run rest
  end.

(** The value [_animate] hands to [checkLanding] when [e] is a frame arriving
    in [w]; a mouse movement hands it nothing. *)
Definition landing_signal (e : Event) (w : World) : bool :=
  match e with
  | AnimationFrame dt cs =>
      timeSinceGrounded (fst (update three dt cs mapCollider (player w))) <? 0.2
  | MouseMove _ _ _ => false
  end.

(** No event of [es], arriving in turn from [w] on, carries the signal. *)
Fixpoint no_landing (es : list Event) (w : World) : bool :=
  match es with
  | [] => true
  | e :: rest =>
      (negb (landing_signal e w) && no_landing rest (fst (handle e w)))%bool
  end.

Definition step (f : Frame) (p : Player) : Player :=
  fst (update three (frame_dt f) (frame_controls f) mapCollider p).

Fixpoint steps (fs : list Frame) (p : Player) : Player :=
  match fs with
  | [] => p
  | f :: rest => steps rest (step f p)
  end.

(** The frame [f] starting in [p] ends in the fail-safe reset. *)
Definition void_reset (f : Frame) (p : Player) : bool :=
  match model p with
  | Some m =>
      (mixer p &&
       (model_y (fst (simulate three (frame_dt f) (frame_controls f) mapCollider m p))
        <? -50))%bool
  | None => false
  end.

(** Every frame of [fs], run in turn from [p], starts off the ground and ends
    without the fail-safe reset. *)
Fixpoint airborne (fs : list Frame) (p : Player) : bool :=
  match fs with
  | [] => true
  | f :: rest =>
      (negb (grounded_at mapCollider p) && negb (void_reset f p)
       && airborne rest (step f p))%bool
  end.

End Runs.

Section Reachable.

Context (three : ThreeMath).

(** The players a viewer can hold: built, loaded once, then updated and
    reset. *)
Inductive reachable : Player -> Prop :=
| reach_new : reachable Player_new
| reach_load gltf mc : reachable (fst (load gltf mc Player_new))
| reach_update dt cs mc p :
    reachable p -> reachable (fst (update three dt cs mc p))
| reach_reset p : reachable p -> reachable (fst (reset p)).

End Reachable.

(** ** Sample data *)

Module Sample.

(** A stand-in for the three.js routines that rotates nothing. *)
Definition three : ThreeMath :=
  {| normalize := fun v => v;
     applyQuaternion := fun _ _ v => v;
     setFromSphericalCoords := fun r _ _ => mkVector3 0 0 r;
     applyAxisAngle := fun _ _ v => v;
     atan2 := fun _ _ => 0;
     lookAt := fun _ _ => mkQuaternion 0 0 0 1 |}.

(** Level ground at height [h] everywhere. *)
Definition level (h : Q) : MapCollider :=
  {| intersect := fun o =>
       if vy o <? h then []
       else [mkIntersection (vy o - h) (mkVector3 (vx o) h (vz o))];
     worldBox_center := mkVector3 0 h 0;
     worldBox_max_y := h |}.

Definition hero : Gltf :=
  {| gltf_scene := mkObject3D Vec.zero 0 0;
     gltf_bbox_min_y := 0;
     gltf_animations :=
       ["Armature|Idle"; "Armature|Walk"; "Armature|Sprint"; "Armature|Jump";
        "Armature|Grounded"]%string |}.

Definition lens : Camera := mkCamera Vec.zero (mkQuaternion 0 0 0 1).

(** The viewer right after start, over level ground at height 0. *)
Definition world0 : World :=
  fst (createGameViewer lens hero (level 0) Vec.zero).

Definition hands_off : Controls := controlsState0.
Definition hold_forward : Controls := mkControls true false false false false false.
Definition hold_forward_jump : Controls := mkControls true false false false true false.

(** A loaded player standing on level ground at height 0, sprinting. *)
Definition sprinter : Player :=
  {| model := Some (mkObject3D Vec.zero 0 Js.Math_PI);
     mixer := true;
     animations := animations (player world0);
     currentAnimation := Some "sprint"%string;
     spawnPoint := mkVector3 0 240 0;
     state := mkFlags false false true false false;
     verticalVelocity := 0;
     walkToSprintTime := 1.01;
     timeSinceGrounded := 0;
     feetOffset := 0 |}.

(** The same player in the air at height [y], falling at speed [v]. *)
Definition faller (y v : Q) : Player :=
  {| model := Some (mkObject3D (mkVector3 0 y 0) 0 Js.Math_PI);
     mixer := true;
     animations := animations (player world0);
     currentAnimation := Some "jump"%string;
     spawnPoint := mkVector3 0 240 0;
     state := mkFlags false false false true true;
     verticalVelocity := v;
     walkToSprintTime := 0;
     timeSinceGrounded := 1;
     feetOffset := 0 |}.

(** Frames that bring the freshly spawned player of [world0] down to where
    the ray finds the ground. *)
Definition descent : list Frame :=
  map (fun dt => mkFrame dt hands_off)
      [1; 1; 1; 1; 1; 1; 0.2; 0.05; 0.03; 0.007].

Definition lander : Player :=
  steps three (level 0) descent (player world0).

(** The viewer one frame before the ray first finds the ground, and the
    events that follow. *)
Definition hovering : Player :=
  steps three (level 0) (firstn 9 descent) (player world0).

Definition world1 : World := mkWorld hovering (gameCamera world0).

Definition approach : list Event :=
  [MouseMove hands_off 3 4; AnimationFrame 0.007 hands_off].

Definition touchdown : Event := AnimationFrame 0.01 hands_off.

Definition afterwards : list Event :=
  [MouseMove hands_off 3 4; AnimationFrame 0.01 hold_forward_jump;
   AnimationFrame 0.5 hold_forward].

(** From the landing on: a frame at rest, then forward held until the ramp
    has made the player sprint. *)
Definition warm_up : list Frame :=
  [mkFrame 0.01 hands_off; mkFrame 0.5 hold_forward; mkFrame 0.5 hold_forward;
   mkFrame 0.5 hold_forward].

Definition runner : Player := steps three (level 0) warm_up lander.

(** A jump of the runner with forward held all the way. *)
Definition takeoff : Frame := mkFrame 0.1 hold_forward_jump.
Definition flight : list Frame := repeat (mkFrame 0.1 hold_forward) 9.
Definition landing : Frame := mkFrame 0.1 hold_forward.

(** The runner at the end of the flight, about to land. *)
Definition descending : Player :=
  steps three (level 0) flight (step three (level 0) takeoff runner).

End Sample.

(** ** Notions used in the statements *)

(** An angle given in degrees. *)
Definition deg (d : Q) : Q := d * Js.Math_PI / 180.

(** The yaw after the two turning statements of [update]. *)
Definition turned (controls : Controls) (delta yaw : Q) : Q :=
  let y1 := if left controls then yaw + 3 * delta else yaw in
  if right controls then y1 - 3 * delta else y1.

(** The velocity the vertical block of [update] leaves behind. *)
Definition integrated (grounded : bool) (delta v : Q) : Q :=
  let v1 := v + GRAVITY * delta in
  let v2 := if v1 <? TERMINAL_VELOCITY then TERMINAL_VELOCITY else v1 in
  if (grounded && (v2 <? 0))%bool then 0 else v2.

(** The sprint flag after the ramp has run for [delta]. *)
Definition promoted (delta : Q) (p : Player) : bool :=
  (sprinting (state p) || (walkToSprintTime p + delta >? 1.0))%bool.

(** [q] differs from [p] at most in [animations] and [currentAnimation]. *)
Definition same_body (p q : Player) : Prop :=
  model q = model p /\ mixer q = mixer p /\ spawnPoint q = spawnPoint p /\
  state q = state p /\ verticalVelocity q = verticalVelocity p /\
  walkToSprintTime q = walkToSprintTime p /\
  timeSinceGrounded q = timeSinceGrounded p /\ feetOffset q = feetOffset p.

(** Plays once and holds its last frame. *)
Definition one_shot (a : AnimationAction) : Prop :=
  loop a = LoopOnce /\ repetitions a = Some 1%Z /\ clampWhenFinished a = true.

(** Repeats without end. *)
Definition looping (a : AnimationAction) : Prop :=
  loop a = LoopRepeat /\ repetitions a = None /\ clampWhenFinished a = false.

Definition configured (k : string) (a : AnimationAction) : Prop :=
  if String.eqb k "jump" then one_shot a else looping a.

(** The jump clip is one-shot and every other clip loops. *)
Definition clips_configured (p : Player) : Prop :=
  forall k a, animations p !! k = Some a -> configured k a.

(** [name] is a key of [this.animations]. *)
Definition has_clip (name : string) (p : Player) : bool :=
  match animations p !! name with Some _ => true | None => false end.

(** The flags [reset] and the constructor give. *)
Definition spawn_flags : Flags := mkFlags false false false true true.

(** The player [reset] hands to [_switchAnimation]. *)
Definition respawned (p : Player) : Player :=
  {| model := Some (mkObject3D (spawnPoint p) 0 Js.Math_PI);
     mixer := mixer p;
     animations := animations p;
     currentAnimation := currentAnimation p;
     spawnPoint := spawnPoint p;
     state := spawn_flags;
     verticalVelocity := SPAWN_INITIAL_VELOCITY;
     walkToSprintTime := walkToSprintTime p;
     timeSinceGrounded := GROUNDED_BUFFER_TIME + 0.01;
     feetOffset := feetOffset p |}.

(** [q] has the clips and the current clip of [p]. *)
Definition same_anims (p q : Player) : Prop :=
  animations q = animations p /\ currentAnimation q = currentAnimation p.

(** No frame of [fs] has a negative length. *)
Definition forward_in_time (fs : list Frame) : Prop :=
  forall f, In f fs -> 0 <= frame_dt f.

(** Every frame of [fs], run in turn from [p], starts with ground under the
    ray and a movement key held, and ends without the fail-safe reset. *)
Fixpoint striding (three : ThreeMath) (mapCollider : MapCollider)
         (fs : list Frame) (p : Player) : bool :=
  match fs with
  | [] => true
  | f :: rest =>
      (grounded_at mapCollider p && is_moving (frame_controls f)
       && negb (void_reset three mapCollider f p)
       && striding three mapCollider rest (step three mapCollider f p))%bool
  end.

(** No frame of [fs], run in turn from [p], ends in the fail-safe reset. *)
Fixpoint undisturbed (three : ThreeMath) (mapCollider : MapCollider)
         (fs : list Frame) (p : Player) : bool :=
  match fs with
  | [] => true
  | f :: rest =>
      (negb (void_reset three mapCollider f p)
       && undisturbed three mapCollider rest (step three mapCollider f p))%bool
  end.

(** An action is active exactly when it is the action of the current clip. *)
Definition one_clip_active (p : Player) : Prop :=
  forall k a, animations p !! k = Some a ->
              (active a = true <-> currentAnimation p = Some k).

(** [s] has no ['|'] in it. *)
Fixpoint bar_free (s : string) : bool :=
  match s with
  | EmptyString => true
  | String a r => (negb (Ascii.eqb a "|") && bar_free r)%bool
  end.

(** The controls with the forward key in the other position. *)
Definition toggle_forward (c : Controls) : Controls :=
  mkControls (negb (forward c)) (backward c) (left c) (right c) (jump c)
             (mouseLookActive c).

(** ** ControlsManager.js: the handlers *)

(** The five keys of [controlsState] that the keyboard and the on-screen
    buttons write. *)
Inductive ControlKey :=
| forward_key | backward_key | left_key | right_key | jump_key.

(** [controlsState[key] = v] *)
Definition set_control (key : ControlKey) (v : bool) (c : Controls) : Controls :=
  match key with
  | forward_key =>
      mkControls v (backward c) (left c) (right c) (jump c) (mouseLookActive c)
  | backward_key =>
      mkControls (forward c) v (left c) (right c) (jump c) (mouseLookActive c)
  | left_key =>
      mkControls (forward c) (backward c) v (right c) (jump c) (mouseLookActive c)
  | right_key =>
      mkControls (forward c) (backward c) (left c) v (jump c) (mouseLookActive c)
  | jump_key =>
      mkControls (forward c) (backward c) (left c) (right c) v (mouseLookActive c)
  end.

(** [controlsState.mouseLookActive = v] *)
Definition set_mouseLookActive (v : bool) (c : Controls) : Controls :=
  mkControls (forward c) (backward c) (left c) (right c) (jump c) v.

(** The [switch (e.code)] of the two keyboard handlers, which differ in the
    value they write only. *)
Definition key_switch (v : bool) (code : string) (c : Controls) : Controls :=
  if (String.eqb code "KeyW" || String.eqb code "ArrowUp")%bool
  then set_control forward_key v c
  else if (String.eqb code "KeyS" || String.eqb code "ArrowDown")%bool
  then set_control backward_key v c
  else if (String.eqb code "KeyA" || String.eqb code "ArrowLeft")%bool
  then set_control left_key v c
  else if (String.eqb code "KeyD" || String.eqb code "ArrowRight")%bool
  then set_control right_key v c
  else if String.eqb code "Space" then set_control jump_key v c
  else c.

Definition boundKeyDown (code : string) (c : Controls) : Controls :=
  key_switch true code c.

Definition boundKeyUp (code : string) (c : Controls) : Controls :=
  key_switch false code c.

(** [button] is [e.button]; the pointer lock is the browser's. *)
Definition boundMouseDown (button : Z) (c : Controls) : Controls :=
  if (button =? 0)%Z then set_mouseLookActive true c else c.

Definition boundMouseUp (button : Z) (c : Controls) : Controls :=
  if (button =? 0)%Z then set_mouseLookActive false c else c.

(** The listeners of an on-screen button added for [key]. *)
Definition onStart (key : ControlKey) (c : Controls) : Controls :=
  set_control key true c.

Definition onEnd (key : ControlKey) (c : Controls) : Controls :=
  set_control key false c.

(** What the browser delivers to the handlers. *)
Inductive Input :=
| KeyDown (code : string)
| KeyUp (code : string)
| MouseDown (button : Z)
| MouseUp (button : Z)
| ButtonStart (key : ControlKey)
| ButtonEnd (key : ControlKey).

Definition dispatch (c : Controls) (e : Input) : Controls :=
  match e with
  | KeyDown code => boundKeyDown code c
  | KeyUp code => boundKeyUp code c
  | MouseDown button => boundMouseDown button c
  | MouseUp button => boundMouseUp button c
  | ButtonStart key => onStart key c
  | ButtonEnd key => onEnd key c
  end.

(** The fields of [controlsState]. *)
Inductive ControlField :=
| key_field (key : ControlKey)
| mouseLook_field.

Definition control (f : ControlField) (c : Controls) : bool :=
  match f with
  | key_field forward_key => forward c
  | key_field backward_key => backward c
  | key_field left_key => left c
  | key_field right_key => right c
  | key_field jump_key => jump c
  | mouseLook_field => mouseLookActive c
  end.

(** The key a key code stands for: the letter and the arrow are two codes of
    one key. *)
Definition code_key (code : string) : option ControlKey :=
  if (String.eqb code "KeyW" || String.eqb code "ArrowUp")%bool
  then Some forward_key
  else if (String.eqb code "KeyS" || String.eqb code "ArrowDown")%bool
  then Some backward_key
  else if (String.eqb code "KeyA" || String.eqb code "ArrowLeft")%bool
  then Some left_key
  else if (String.eqb code "KeyD" || String.eqb code "ArrowRight")%bool
  then Some right_key
  else if String.eqb code "Space" then Some jump_key
  else None.

Definition same_key (k k' : ControlKey) : bool :=
  match k, k' with
  | forward_key, forward_key | backward_key, backward_key
  | left_key, left_key | right_key, right_key | jump_key, jump_key => true
  | _, _ => false
  end.

(** The field an input is about, and whether it presses or releases it;
    [None] for an input that no handler acts on. *)
Definition addressed (e : Input) : option (ControlField * bool) :=
  match e with
  | KeyDown code => option_map (fun k => (key_field k, true)) (code_key code)
  | KeyUp code => option_map (fun k => (key_field k, false)) (code_key code)
  | MouseDown button =>
      if (button =? 0)%Z then Some (mouseLook_field, true) else None
  | MouseUp button =>
      if (button =? 0)%Z then Some (mouseLook_field, false) else None
  | ButtonStart key => Some (key_field key, true)
  | ButtonEnd key => Some (key_field key, false)
  end.

Definition same_field (f f' : ControlField) : bool :=
  match f, f' with
  | key_field k, key_field k' => same_key k k'
  | mouseLook_field, mouseLook_field => true
  | _, _ => false
  end.

(** The value of field [f] after [e], [v] being its value before, when only
    the inputs about [f] count. *)
Definition latest (f : ControlField) (v : bool) (e : Input) : bool :=
  match addressed e with
  | Some (f', pressed) => if same_field f f' then pressed else v
  | None => v
  end.

(** The two points have equal coordinates. *)
Definition same_point (a b : Vector3) : Prop :=
  vx a == vx b /\ vy a == vy b /\ vz a == vz b.

(** ** More sample data *)

Module Scene.

(** Level ground ten below the level the runner stands on. *)
Definition pit : MapCollider := Sample.level (-10).

(** Two short frames with no key held. *)
Definition hop : list Frame :=
  [mkFrame 0.05 Sample.hands_off; mkFrame 0.05 Sample.hands_off].

(** The lander after one frame at rest. *)
Definition rested : Player :=
  step Sample.three (Sample.level 0) (mkFrame 0.01 Sample.hands_off) Sample.lander.

(** Forward held for a second and a half. *)
Definition stride : list Frame := repeat (mkFrame 0.5 Sample.hold_forward) 3.

(** A jump of the runner from take-off to landing. *)
Definition leap : list Frame :=
  Sample.takeoff :: Sample.flight ++ [Sample.landing].

Definition hold_both : Controls := mkControls true true false false false false.

Definition mouse_look : Controls := mkControls false false false false false true.

(** The camera of the first viewer, put in third person. *)
Definition behind : GameCamera := set_mode THIRD_PERSON (gameCamera Sample.world0).

Definition origin : Object3D := mkObject3D Vec.zero 0 0.

End Scene.

(** * Properties *)

(** ** Arithmetic *)

Lemma ltb_lt (x y : Q) : (x <? y) = true <-> x < y.
Proof. unfold Js.ltb, Qlt. apply Z.ltb_lt. Qed.

Lemma ltb_ge (x y : Q) : (x <? y) = false <-> y <= x.
Proof. unfold Js.ltb, Qle. apply Z.ltb_ge. Qed.

Ltac ltb_cases c H :=
  destruct c eqn:H; [apply ltb_lt in H | apply ltb_ge in H].

Ltac ltb_hyps :=
  repeat match goal with
         | H : (_ && _)%bool = true |- _ => apply andb_true_iff in H; destruct H
         | H : (_ <? _) = true |- _ => apply ltb_lt in H
         | H : (_ <? _) = false |- _ => apply ltb_ge in H
         | H : (_ >? _) = true |- _ => apply ltb_lt in H
         | H : (_ >? _) = false |- _ => apply ltb_ge in H
         end.

Lemma trunc_nonneg (q : Q) :
  0 <= q -> inject_Z (Js.trunc q) <= q /\ q < inject_Z (Js.trunc q) + 1.
Proof.
  intros Hq. unfold Js.trunc.
  assert (Hn : (0 <= Qnum q)%Z).
  { unfold Qle in Hq. simpl in Hq. lia. }
  rewrite Z.quot_div_nonneg by lia.
  replace (Qnum q / QDen q)%Z with (Qfloor q) by (destruct q; reflexivity).
  split; [apply Qfloor_le|].
  pose proof (Qlt_floor q) as H. rewrite inject_Z_plus in H. exact H.
Qed.

Lemma trunc_opp (q : Q) : Js.trunc (- q) = (- Js.trunc q)%Z.
Proof.
  unfold Js.trunc. destruct q as [n d]. simpl. apply Z.quot_opp_l. lia.
Qed.

Lemma trunc_nonpos (q : Q) :
  q <= 0 -> inject_Z (Js.trunc q) - 1 < q /\ q <= inject_Z (Js.trunc q).
Proof.
  intros Hq.
  destruct (trunc_nonneg (- q)) as [H1 H2]; [lra|].
  rewrite trunc_opp, inject_Z_opp in H1, H2. lra.
Qed.

(** The remainder of a non-negative dividend lies in [[0, y)]. *)
Lemma rem_nonneg (x y : Q) :
  0 < y -> 0 <= x -> 0 <= Js.rem x y /\ Js.rem x y < y.
Proof.
  intros Hy Hx. unfold Js.rem.
  assert (Hq : 0 <= x / y) by (apply Qle_shift_div_l; lra).
  destruct (trunc_nonneg _ Hq) as [H1 H2].
  assert (E : x == (x / y) * y) by (field; lra).
  set (k := inject_Z (Js.trunc (x / y))) in *.
  set (q := x / y) in *.
  split; nra.
Qed.

(** The remainder of a non-positive dividend lies in [(-y, 0]]. *)
Lemma rem_nonpos (x y : Q) :
  0 < y -> x <= 0 -> - y < Js.rem x y /\ Js.rem x y <= 0.
Proof.
  intros Hy Hx. unfold Js.rem.
  assert (Hq : x / y <= 0) by (apply Qle_shift_div_r; lra).
  destruct (trunc_nonpos _ Hq) as [H1 H2].
  assert (E : x == (x / y) * y) by (field; lra).
  set (k := inject_Z (Js.trunc (x / y))) in *.
  set (q := x / y) in *.
  split; nra.
Qed.

Lemma PI_pos : 0 < Js.Math_PI.
Proof. reflexivity. Qed.

(** ** Angles *)

Lemma diff_range (a b : Q) :
  - Js.Math_PI <= _shortestAngleDiff a b /\ _shortestAngleDiff a b < Js.Math_PI.
Proof.
  pose proof PI_pos as HP.
  unfold _shortestAngleDiff.
  set (x := b - a + Js.Math_PI).
  destruct (Qlt_le_dec x 0) as [Hx|Hx].
  - destruct (rem_nonpos x (Js.Math_PI * 2)) as [H1 H2]; [lra|lra|].
    ltb_cases (Js.rem x (Js.Math_PI * 2) - Js.Math_PI <? - Js.Math_PI) E; lra.
  - destruct (rem_nonneg x (Js.Math_PI * 2)) as [H1 H2]; [lra|lra|].
    ltb_cases (Js.rem x (Js.Math_PI * 2) - Js.Math_PI <? - Js.Math_PI) E; lra.
Qed.

Lemma diff_congruent (a b : Q) :
  exists k : Z, _shortestAngleDiff a b == b - a + inject_Z k * (Js.Math_PI * 2).
Proof.
  unfold _shortestAngleDiff, Js.rem.
  set (x := b - a + Js.Math_PI).
  set (k := Js.trunc (x / (Js.Math_PI * 2))).
  destruct (_ <? _).
  - exists (1 - k)%Z. unfold Zminus. rewrite inject_Z_plus, inject_Z_opp. unfold x.
    change (inject_Z 1) with 1. ring.
  - exists (- k)%Z. rewrite inject_Z_opp. unfold x. ring.
Qed.

Lemma diff_170_to_minus_170 : _shortestAngleDiff (deg 170) (deg (-170)) == deg 20.
Proof. vm_compute. reflexivity. Qed.

(** C5, as the code has it: [lerpAngle a b t] is [a] plus [t] times a signed
    difference that is congruent to [b - a] modulo a full turn and lies in
    [[-pi, pi)], so for [t] in [[0,1]] the angle travels at most half a turn,
    the shorter way; from 170 degrees to -170 degrees it goes up through 180
    degrees and stays between 170 and 190 degrees. *)
Theorem lerpAngle_shorter_arc (a b t : Q) :
  0 <= t <= 1 ->
  let d := _shortestAngleDiff a b in
  (- Js.Math_PI <= d /\ d < Js.Math_PI) /\
  (exists k : Z, a + d == b + inject_Z k * (Js.Math_PI * 2)) /\
  lerpAngle a b t == a + d * t /\
  Qabs (lerpAngle a b t - a) <= Js.Math_PI * t /\
  lerpAngle (deg 170) (deg (-170)) (1 # 2) == deg 180 /\
  deg 170 <= lerpAngle (deg 170) (deg (-170)) t <= deg 190.
Proof.
  intros Ht d.
  pose proof (diff_range a b) as Hr. fold d in Hr.
  split; [exact Hr|].
  split.
  { destruct (diff_congruent a b) as [k Hk]. exists k. fold d in Hk. lra. }
  split; [unfold lerpAngle; fold d; reflexivity|].
  split.
  { unfold lerpAngle. fold d. apply Qabs_case; intros; nra. }
  unfold lerpAngle. rewrite diff_170_to_minus_170.
  split; [vm_compute; reflexivity|].
  assert (0 < deg 20) by reflexivity.
  assert (deg 190 == deg 170 + deg 20) by (vm_compute; reflexivity).
  split; nra.
Qed.

Lemma lerpAngle_shorter_arc_witness :
  0 <= 1 # 2 <= 1 /\
  - Js.Math_PI <= _shortestAngleDiff 0 3 /\ _shortestAngleDiff 0 3 < Js.Math_PI.
Proof.
  assert (H : 0 <= 1 # 2 <= 1) by (split; discriminate).
  split; [exact H|].
  apply (lerpAngle_shorter_arc 0 3 (1 # 2) H).
Defined.

(** C5 as stated fails at a half turn: from 0 to pi the difference comes out
    as [-pi], which is not in [(-pi, pi]]. *)
Lemma shortestAngleDiff_half_turn :
  _shortestAngleDiff 0 Js.Math_PI == - Js.Math_PI /\
  ~ (- Js.Math_PI < _shortestAngleDiff 0 Js.Math_PI
     /\ _shortestAngleDiff 0 Js.Math_PI <= Js.Math_PI).
Proof.
  split; [vm_compute; reflexivity|].
  intros [H _]. vm_compute in H. discriminate H.
Qed.

(** ** Switching animations *)

Lemma fst_andThen {A B} (x : Logged A) (f : A -> Logged B) :
  fst (x >>= f) = fst (f (fst x)).
Proof. unfold andThen. destruct x as [a w1]. simpl. destruct (f a). reflexivity. Qed.

Lemma fst_when c body p :
  fst (when c body p) = if c then fst (body p) else p.
Proof. unfold when. destruct c; reflexivity. Qed.

Lemma current_is_true name p :
  current_is name p = true <-> currentAnimation p = Some name.
Proof.
  unfold current_is. destruct (currentAnimation p) as [c|].
  - rewrite String.eqb_eq. split; congruence.
  - split; discriminate.
Qed.

Lemma switch_same_body name fade p :
  same_body p (fst (_switchAnimation name fade p)).
Proof.
  unfold _switchAnimation, same_body.
  destruct (animations p !! name); [destruct (current_is name p)|]; simpl; tauto.
Qed.

Lemma stop_configured k a : configured k a -> configured k (Action.stop a).
Proof. unfold configured, one_shot, looping. destruct (String.eqb k "jump"); simpl; tauto. Qed.

Lemma restart_configured k a : configured k a -> configured k (Action.restart a).
Proof. unfold configured, one_shot, looping. destruct (String.eqb k "jump"); simpl; tauto. Qed.

Lemma oneShot_is_one_shot a : one_shot (Action.oneShot a).
Proof. unfold one_shot. simpl. tauto. Qed.

Lemma alter_configured (f : AnimationAction -> AnimationAction) i
      (m : gmap string AnimationAction) :
  (forall a, configured i a -> configured i (f a)) ->
  (forall k a, m !! k = Some a -> configured k a) ->
  forall k a, alter f i m !! k = Some a -> configured k a.
Proof.
  intros Hf Hm k a H. apply lookup_alter_Some in H.
  destruct H as [[-> (x & Hx & ->)] | [_ H]]; eauto.
Qed.

Lemma switch_configured name fade p :
  clips_configured p -> clips_configured (fst (_switchAnimation name fade p)).
Proof.
  unfold clips_configured, _switchAnimation. intros Hp.
  destruct (animations p !! name); [|exact Hp].
  destruct (current_is name p); [exact Hp|]. simpl.
  assert (H2 : forall k a,
             alter Action.restart name
               (alter Action.stop (animation_key (currentAnimation p)) (animations p))
               !! k = Some a -> configured k a).
  { apply alter_configured; [intros; apply restart_configured; assumption|].
    apply alter_configured; [intros; apply stop_configured; assumption|exact Hp]. }
  destruct (String.eqb_spec name "jump") as [->|]; [|exact H2].
  apply alter_configured; [|exact H2].
  intros a0 _. unfold configured. simpl. apply oneShot_is_one_shot.
Qed.

Lemma switch_missing name fade p :
  animations p !! name = None ->
  _switchAnimation name fade p = (p, [not_found_warning name]).
Proof. unfold _switchAnimation. intros ->. reflexivity. Qed.

Lemma switch_current name fade p :
  is_Some (animations p !! name) -> currentAnimation p = Some name ->
  _switchAnimation name fade p = (p, []).
Proof.
  unfold _switchAnimation. intros [a0 ->] H.
  apply current_is_true in H. rewrite H. reflexivity.
Qed.

Lemma switch_jump_one_shot fade p a :
  currentAnimation p <> Some "jump"%string ->
  animations (fst (_switchAnimation "jump" fade p)) !! "jump"%string = Some a ->
  one_shot a.
Proof.
  unfold _switchAnimation. intros Hc.
  destruct (animations p !! "jump"%string) eqn:E.
  - destruct (current_is "jump" p) eqn:C; [apply current_is_true in C; contradiction|].
    simpl. intros H. apply lookup_alter_Some in H.
    destruct H as [[_ (x & _ & ->)] | [H _]]; [apply oneShot_is_one_shot | congruence].
  - simpl. congruence.
Qed.

Lemma switch_keeps_loop name fade p k a' :
  k <> "jump"%string ->
  animations (fst (_switchAnimation name fade p)) !! k = Some a' ->
  exists a, animations p !! k = Some a /\ loop a' = loop a /\
            repetitions a' = repetitions a /\
            clampWhenFinished a' = clampWhenFinished a.
Proof.
  unfold _switchAnimation. intros Hk.
  destruct (animations p !! name); [|eauto].
  destruct (current_is name p); [eauto|]. simpl.
  assert (H2 : forall a2,
             alter Action.restart name
               (alter Action.stop (animation_key (currentAnimation p)) (animations p))
               !! k = Some a2 ->
             exists a, animations p !! k = Some a /\ loop a2 = loop a /\
                       repetitions a2 = repetitions a /\
                       clampWhenFinished a2 = clampWhenFinished a).
  { intros a2 H. apply lookup_alter_Some in H.
    destruct H as [[_ (x & Hx & ->)] | [_ H]];
      [apply lookup_alter_Some in Hx | apply lookup_alter_Some in H].
    - destruct Hx as [[_ (y & Hy & ->)] | [_ Hx]]; eauto.
    - destruct H as [[_ (y & Hy & ->)] | [_ H]]; eauto. }
  destruct (String.eqb_spec name "jump") as [->|]; [|apply H2].
  intros H. apply lookup_alter_Some in H.
  destruct H as [[E _] | [_ H]]; [congruence | eauto].
Qed.

Section SwitchFields.
Context (name : string) (fade : Q) (p : Player).
Let q := fst (_switchAnimation name fade p).
Lemma switch_model : model q = model p.
Proof. apply (switch_same_body name fade p). Qed.
Lemma switch_mixer : mixer q = mixer p.
Proof. apply (switch_same_body name fade p). Qed.
Lemma switch_spawnPoint : spawnPoint q = spawnPoint p.
Proof. apply (switch_same_body name fade p). Qed.
Lemma switch_state : state q = state p.
Proof. apply (switch_same_body name fade p). Qed.
Lemma switch_verticalVelocity : verticalVelocity q = verticalVelocity p.
Proof. apply (switch_same_body name fade p). Qed.
Lemma switch_walkToSprintTime : walkToSprintTime q = walkToSprintTime p.
Proof. apply (switch_same_body name fade p). Qed.
Lemma switch_timeSinceGrounded : timeSinceGrounded q = timeSinceGrounded p.
Proof. apply (switch_same_body name fade p). Qed.
Lemma switch_feetOffset : feetOffset q = feetOffset p.
Proof. apply (switch_same_body name fade p). Qed.
End SwitchFields.

Lemma switch_model_y name fade p : model_y (fst (_switchAnimation name fade p)) = model_y p.
Proof. unfold model_y. rewrite switch_model. reflexivity. Qed.

Create Rewrite HintDb body.
#[local] Hint Rewrite @fst_andThen fst_when switch_model switch_mixer switch_spawnPoint
  switch_state switch_verticalVelocity switch_walkToSprintTime
  switch_timeSinceGrounded switch_feetOffset switch_model_y : body.

#[local] Arguments _switchAnimation : simpl never.
#[local] Arguments ground_check : simpl never.
#[local] Arguments leave_ground : simpl never.
#[local] Arguments jump_input : simpl never.
#[local] Arguments turn : simpl never.
#[local] Arguments movement_input : simpl never.
#[local] Arguments vertical_physics : simpl never.
#[local] Arguments sprint_ramp : simpl never.
#[local] Arguments grounded_animation : simpl never.
#[local] Arguments animation_state_machine : simpl never.
#[local] Arguments reset : simpl never.

Ltac body_step :=
  first [ progress autorewrite with body
        | progress cbn -[Qplus Qmult Qminus Qopp Js.ltb Js.gtb]
        | progress unfold set_model, set_animations, set_currentAnimation, set_state,
            set_verticalVelocity, set_walkToSprintTime, set_timeSinceGrounded, on_model
        | match goal with
          | |- context [if ?c then _ else _] =>
              lazymatch c with
              | context [if _ then _ else _] => fail
              | _ => destruct c eqn:?
              end
          end ].

Ltac body := repeat body_step; try reflexivity.

Lemma ground_check_mixer grounded delta p :
  mixer (ground_check grounded delta p) = mixer p.
Proof. unfold ground_check. body. Qed.

Lemma ground_check_spawnPoint grounded delta p :
  spawnPoint (ground_check grounded delta p) = spawnPoint p.
Proof. unfold ground_check. body. Qed.

Lemma ground_check_verticalVelocity grounded delta p :
  verticalVelocity (ground_check grounded delta p) = verticalVelocity p.
Proof. unfold ground_check. body. Qed.

Lemma ground_check_walkToSprintTime grounded delta p :
  walkToSprintTime (ground_check grounded delta p) = walkToSprintTime p.
Proof. unfold ground_check. body. Qed.

Lemma ground_check_feetOffset grounded delta p :
  feetOffset (ground_check grounded delta p) = feetOffset p.
Proof. unfold ground_check. body. Qed.

#[local] Hint Rewrite ground_check_mixer ground_check_spawnPoint ground_check_verticalVelocity ground_check_walkToSprintTime ground_check_feetOffset : body.

Lemma leave_ground_model b p :
  model (fst (leave_ground b p)) = model p.
Proof. unfold leave_ground. body. Qed.

Lemma leave_ground_mixer b p :
  mixer (fst (leave_ground b p)) = mixer p.
Proof. unfold leave_ground. body. Qed.

Lemma leave_ground_spawnPoint b p :
  spawnPoint (fst (leave_ground b p)) = spawnPoint p.
Proof. unfold leave_ground. body. Qed.

Lemma leave_ground_verticalVelocity b p :
  verticalVelocity (fst (leave_ground b p)) = verticalVelocity p.
Proof. unfold leave_ground. body. Qed.

Lemma leave_ground_walkToSprintTime b p :
  walkToSprintTime (fst (leave_ground b p)) = walkToSprintTime p.
Proof. unfold leave_ground. body. Qed.

Lemma leave_ground_timeSinceGrounded b p :
  timeSinceGrounded (fst (leave_ground b p)) = timeSinceGrounded p.
Proof. unfold leave_ground. body. Qed.

Lemma leave_ground_feetOffset b p :
  feetOffset (fst (leave_ground b p)) = feetOffset p.
Proof. unfold leave_ground. body. Qed.

#[local] Hint Rewrite leave_ground_model leave_ground_mixer leave_ground_spawnPoint leave_ground_verticalVelocity leave_ground_walkToSprintTime leave_ground_timeSinceGrounded leave_ground_feetOffset : body.

Lemma jump_input_model grounded controls p :
  model (fst (jump_input grounded controls p)) = model p.
Proof. unfold jump_input. body. Qed.

Lemma jump_input_mixer grounded controls p :
  mixer (fst (jump_input grounded controls p)) = mixer p.
Proof. unfold jump_input. body. Qed.

Lemma jump_input_spawnPoint grounded controls p :
  spawnPoint (fst (jump_input grounded controls p)) = spawnPoint p.
Proof. unfold jump_input. body. Qed.

Lemma jump_input_walkToSprintTime grounded controls p :
  walkToSprintTime (fst (jump_input grounded controls p)) = walkToSprintTime p.
Proof. unfold jump_input. body. Qed.

Lemma jump_input_timeSinceGrounded grounded controls p :
  timeSinceGrounded (fst (jump_input grounded controls p)) = timeSinceGrounded p.
Proof. unfold jump_input. body. Qed.

Lemma jump_input_feetOffset grounded controls p :
  feetOffset (fst (jump_input grounded controls p)) = feetOffset p.
Proof. unfold jump_input. body. Qed.

#[local] Hint Rewrite jump_input_model jump_input_mixer jump_input_spawnPoint jump_input_walkToSprintTime jump_input_timeSinceGrounded jump_input_feetOffset : body.

Lemma turn_mixer controls delta p :
  mixer (turn controls delta p) = mixer p.
Proof. unfold turn. body. Qed.

Lemma turn_spawnPoint controls delta p :
  spawnPoint (turn controls delta p) = spawnPoint p.
Proof. unfold turn. body. Qed.

Lemma turn_state controls delta p :
  state (turn controls delta p) = state p.
Proof. unfold turn. body. Qed.

Lemma turn_verticalVelocity controls delta p :
  verticalVelocity (turn controls delta p) = verticalVelocity p.
Proof. unfold turn. body. Qed.

Lemma turn_walkToSprintTime controls delta p :
  walkToSprintTime (turn controls delta p) = walkToSprintTime p.
Proof. unfold turn. body. Qed.

Lemma turn_timeSinceGrounded controls delta p :
  timeSinceGrounded (turn controls delta p) = timeSinceGrounded p.
Proof. unfold turn. body. Qed.

Lemma turn_feetOffset controls delta p :
  feetOffset (turn controls delta p) = feetOffset p.
Proof. unfold turn. body. Qed.

#[local] Hint Rewrite turn_mixer turn_spawnPoint turn_state turn_verticalVelocity turn_walkToSprintTime turn_timeSinceGrounded turn_feetOffset : body.

Lemma movement_input_mixer three grounded controls delta p :
  mixer (movement_input three grounded controls delta p) = mixer p.
Proof. unfold movement_input. body. Qed.

Lemma movement_input_spawnPoint three grounded controls delta p :
  spawnPoint (movement_input three grounded controls delta p) = spawnPoint p.
Proof. unfold movement_input. body. Qed.

Lemma movement_input_state three grounded controls delta p :
  state (movement_input three grounded controls delta p) = state p.
Proof. unfold movement_input. body. Qed.

Lemma movement_input_verticalVelocity three grounded controls delta p :
  verticalVelocity (movement_input three grounded controls delta p) = verticalVelocity p.
Proof. unfold movement_input. body. Qed.

Lemma movement_input_walkToSprintTime three grounded controls delta p :
  walkToSprintTime (movement_input three grounded controls delta p) = walkToSprintTime p.
Proof. unfold movement_input. body. Qed.

Lemma movement_input_timeSinceGrounded three grounded controls delta p :
  timeSinceGrounded (movement_input three grounded controls delta p) = timeSinceGrounded p.
Proof. unfold movement_input. body. Qed.

Lemma movement_input_feetOffset three grounded controls delta p :
  feetOffset (movement_input three grounded controls delta p) = feetOffset p.
Proof. unfold movement_input. body. Qed.

#[local] Hint Rewrite movement_input_mixer movement_input_spawnPoint movement_input_state movement_input_verticalVelocity movement_input_walkToSprintTime movement_input_timeSinceGrounded movement_input_feetOffset : body.

Lemma vertical_physics_mixer grounded hits delta p :
  mixer (vertical_physics grounded hits delta p) = mixer p.
Proof. unfold vertical_physics. body. Qed.

Lemma vertical_physics_spawnPoint grounded hits delta p :
  spawnPoint (vertical_physics grounded hits delta p) = spawnPoint p.
Proof. unfold vertical_physics. body. Qed.

Lemma vertical_physics_state grounded hits delta p :
  state (vertical_physics grounded hits delta p) = state p.
Proof. unfold vertical_physics. body. Qed.

Lemma vertical_physics_walkToSprintTime grounded hits delta p :
  walkToSprintTime (vertical_physics grounded hits delta p) = walkToSprintTime p.
Proof. unfold vertical_physics. body. Qed.

Lemma vertical_physics_timeSinceGrounded grounded hits delta p :
  timeSinceGrounded (vertical_physics grounded hits delta p) = timeSinceGrounded p.
Proof. unfold vertical_physics. body. Qed.

Lemma vertical_physics_feetOffset grounded hits delta p :
  feetOffset (vertical_physics grounded hits delta p) = feetOffset p.
Proof. unfold vertical_physics. body. Qed.

#[local] Hint Rewrite vertical_physics_mixer vertical_physics_spawnPoint vertical_physics_state vertical_physics_walkToSprintTime vertical_physics_timeSinceGrounded vertical_physics_feetOffset : body.

Lemma sprint_ramp_model delta p :
  model (fst (sprint_ramp delta p)) = model p.
Proof. unfold sprint_ramp. body. Qed.

Lemma sprint_ramp_mixer delta p :
  mixer (fst (sprint_ramp delta p)) = mixer p.
Proof. unfold sprint_ramp. body. Qed.

Lemma sprint_ramp_spawnPoint delta p :
  spawnPoint (fst (sprint_ramp delta p)) = spawnPoint p.
Proof. unfold sprint_ramp. body. Qed.

Lemma sprint_ramp_verticalVelocity delta p :
  verticalVelocity (fst (sprint_ramp delta p)) = verticalVelocity p.
Proof. unfold sprint_ramp. body. Qed.

Lemma sprint_ramp_timeSinceGrounded delta p :
  timeSinceGrounded (fst (sprint_ramp delta p)) = timeSinceGrounded p.
Proof. unfold sprint_ramp. body. Qed.

Lemma sprint_ramp_feetOffset delta p :
  feetOffset (fst (sprint_ramp delta p)) = feetOffset p.
Proof. unfold sprint_ramp. body. Qed.

#[local] Hint Rewrite sprint_ramp_model sprint_ramp_mixer sprint_ramp_spawnPoint sprint_ramp_verticalVelocity sprint_ramp_timeSinceGrounded sprint_ramp_feetOffset : body.

Lemma grounded_animation_model moving delta p :
  model (fst (grounded_animation moving delta p)) = model p.
Proof. unfold grounded_animation. body. Qed.

Lemma grounded_animation_mixer moving delta p :
  mixer (fst (grounded_animation moving delta p)) = mixer p.
Proof. unfold grounded_animation. body. Qed.

Lemma grounded_animation_spawnPoint moving delta p :
  spawnPoint (fst (grounded_animation moving delta p)) = spawnPoint p.
Proof. unfold grounded_animation. body. Qed.

Lemma grounded_animation_verticalVelocity moving delta p :
  verticalVelocity (fst (grounded_animation moving delta p)) = verticalVelocity p.
Proof. unfold grounded_animation. body. Qed.

Lemma grounded_animation_timeSinceGrounded moving delta p :
  timeSinceGrounded (fst (grounded_animation moving delta p)) = timeSinceGrounded p.
Proof. unfold grounded_animation. body. Qed.

Lemma grounded_animation_feetOffset moving delta p :
  feetOffset (fst (grounded_animation moving delta p)) = feetOffset p.
Proof. unfold grounded_animation. body. Qed.

#[local] Hint Rewrite grounded_animation_model grounded_animation_mixer grounded_animation_spawnPoint grounded_animation_verticalVelocity grounded_animation_timeSinceGrounded grounded_animation_feetOffset : body.

Lemma animation_state_machine_model grounded moving delta p :
  model (fst (animation_state_machine grounded moving delta p)) = model p.
Proof. unfold animation_state_machine. body. Qed.

Lemma animation_state_machine_mixer grounded moving delta p :
  mixer (fst (animation_state_machine grounded moving delta p)) = mixer p.
Proof. unfold animation_state_machine. body. Qed.

Lemma animation_state_machine_spawnPoint grounded moving delta p :
  spawnPoint (fst (animation_state_machine grounded moving delta p)) = spawnPoint p.
Proof. unfold animation_state_machine. body. Qed.

Lemma animation_state_machine_verticalVelocity grounded moving delta p :
  verticalVelocity (fst (animation_state_machine grounded moving delta p)) = verticalVelocity p.
Proof. unfold animation_state_machine. body. Qed.

Lemma animation_state_machine_timeSinceGrounded grounded moving delta p :
  timeSinceGrounded (fst (animation_state_machine grounded moving delta p)) = timeSinceGrounded p.
Proof. unfold animation_state_machine. body. Qed.

Lemma animation_state_machine_feetOffset grounded moving delta p :
  feetOffset (fst (animation_state_machine grounded moving delta p)) = feetOffset p.
Proof. unfold animation_state_machine. body. Qed.

#[local] Hint Rewrite animation_state_machine_model animation_state_machine_mixer animation_state_machine_spawnPoint animation_state_machine_verticalVelocity animation_state_machine_timeSinceGrounded animation_state_machine_feetOffset : body.

(** *** What each block does to the fields it writes *)

Lemma ground_check_timeSinceGrounded grounded delta p :
  timeSinceGrounded (ground_check grounded delta p) =
  if grounded then 0 else timeSinceGrounded p + delta.
Proof. unfold ground_check. body. Qed.

Lemma ground_check_sprinting grounded delta p :
  sprinting (state (ground_check grounded delta p)) = sprinting (state p).
Proof. unfold ground_check. body. Qed.

Lemma ground_check_airborne_flags delta p :
  jumping (state (ground_check true delta p)) = false /\
  falling (state (ground_check true delta p)) = false.
Proof.
  unfold ground_check. cbn.
  destruct (falling (state p)) eqn:F, (jumping (state p)) eqn:J; cbn; auto.
Qed.

Lemma ground_check_model grounded delta p :
  model (ground_check grounded delta p) =
  if (grounded && (falling (state p) || jumping (state p)))%bool
  then option_map (set_rotation_x 0) (model p) else model p.
Proof. unfold ground_check. destruct grounded; body. Qed.

Lemma leave_ground_state b p :
  state (fst (leave_ground b p)) =
  if b then mkFlags (idle (state p)) false (sprinting (state p))
                    (jumping (state p)) (falling (state p))
  else state p.
Proof. unfold leave_ground. destruct b; body. Qed.

Lemma jump_input_state grounded controls p :
  state (fst (jump_input grounded controls p)) =
  if (grounded && jump controls)%bool
  then mkFlags false false (sprinting (state p)) true false
  else state p.
Proof. unfold jump_input. destruct (grounded && jump controls)%bool; body. Qed.

Lemma jump_input_verticalVelocity grounded controls p :
  verticalVelocity (fst (jump_input grounded controls p)) =
  if (grounded && jump controls)%bool then JUMP_FORCE else verticalVelocity p.
Proof. unfold jump_input. destruct (grounded && jump controls)%bool; body. Qed.

Lemma turn_model controls delta p :
  model (turn controls delta p) =
  option_map (fun m => mkObject3D (position m) (rotation_x m)
                                  (turned controls delta (rotation_y m)))
             (model p).
Proof.
  unfold turn, turned, on_model.
  destruct (model p) as [[pos rx ry]|] eqn:E, (left controls), (right controls);
    cbn; rewrite ?E; reflexivity.
Qed.

Lemma movement_input_model three grounded controls delta p :
  model (movement_input three grounded controls delta p) =
  option_map (fun m =>
    let m1 := mkObject3D (position m) (rotation_x m)
                         (turned controls delta (rotation_y m)) in
    if is_moving controls
    then set_position (Vec.add (position m1)
           (step_vector three grounded controls delta p m1)) m1
    else m1) (model p).
Proof.
  unfold movement_input, on_model.
  destruct (is_moving controls); cbn; rewrite ?turn_model.
  - destruct (model p); cbn; [|reflexivity].
    unfold step_vector, step_length. rewrite turn_state. reflexivity.
  - destruct (model p); reflexivity.
Qed.

Lemma vertical_physics_verticalVelocity grounded hits delta p :
  verticalVelocity (vertical_physics grounded hits delta p) =
  integrated grounded delta (verticalVelocity p).
Proof. unfold vertical_physics, integrated. body. Qed.

Lemma integrated_floor grounded delta v :
  TERMINAL_VELOCITY <= integrated grounded delta v.
Proof.
  unfold integrated.
  destruct (_ <? TERMINAL_VELOCITY) eqn:E1;
    [apply ltb_lt in E1 | apply ltb_ge in E1];
    destruct grounded; cbn [andb];
    try destruct (_ <? 0) eqn:E2; try exact E1; unfold TERMINAL_VELOCITY; lra.
Qed.

Lemma integrated_ceiling grounded delta v :
  0 <= delta -> 0 <= v -> integrated grounded delta v <= v.
Proof.
  intros Hd Hv. unfold integrated, GRAVITY, TERMINAL_VELOCITY.
  destruct (_ <? -45) eqn:E1;
    [apply ltb_lt in E1 | apply ltb_ge in E1];
    destruct grounded; cbn [andb];
    try destruct (_ <? 0) eqn:E2; lra.
Qed.

#[local] Hint Rewrite ground_check_timeSinceGrounded leave_ground_state
  jump_input_state jump_input_verticalVelocity vertical_physics_verticalVelocity
  : body.

Lemma sprint_ramp_state delta p :
  state (fst (sprint_ramp delta p)) =
  mkFlags (idle (state p)) (walking (state p)) (promoted delta p)
          (jumping (state p)) (falling (state p)).
Proof.
  unfold sprint_ramp, promoted.
  destruct (state p) as [i w s j f] eqn:E. cbn.
  destruct s; body; rewrite E; reflexivity.
Qed.

Lemma sprint_ramp_walkToSprintTime delta p :
  walkToSprintTime (fst (sprint_ramp delta p)) =
  if sprinting (state p) then walkToSprintTime p else walkToSprintTime p + delta.
Proof. unfold sprint_ramp. destruct (sprinting (state p)); body. Qed.

#[local] Hint Rewrite sprint_ramp_state sprint_ramp_walkToSprintTime : body.

Lemma grounded_animation_state moving delta p :
  state (fst (grounded_animation moving delta p)) =
  if moving
  then mkFlags false (negb (promoted delta p)) (promoted delta p)
               (jumping (state p)) (falling (state p))
  else mkFlags true false false (jumping (state p)) (falling (state p)).
Proof.
  unfold grounded_animation. destruct moving.
  - autorewrite with body. unfold promoted.
    destruct (negb (current_is (desiredAnim p) p)); body.
  - body.
Qed.

Lemma grounded_animation_walkToSprintTime moving delta p :
  walkToSprintTime (fst (grounded_animation moving delta p)) =
  if moving
  then (if sprinting (state p) then walkToSprintTime p
        else walkToSprintTime p + delta)
  else 0.
Proof. unfold grounded_animation. destruct moving; body. Qed.

#[local] Hint Rewrite grounded_animation_state grounded_animation_walkToSprintTime
  : body.

Lemma animation_state_machine_state grounded moving delta p :
  state (fst (animation_state_machine grounded moving delta p)) =
  if grounded then state (fst (grounded_animation moving delta p)) else state p.
Proof. unfold animation_state_machine. destruct grounded; body. Qed.

Lemma animation_state_machine_walkToSprintTime grounded moving delta p :
  walkToSprintTime (fst (animation_state_machine grounded moving delta p)) =
  if grounded then walkToSprintTime (fst (grounded_animation moving delta p))
  else walkToSprintTime p.
Proof. unfold animation_state_machine. destruct grounded; body. Qed.

#[local] Hint Rewrite animation_state_machine_state
  animation_state_machine_walkToSprintTime ground_check_sprinting : body.

(** *** A whole frame up to the housekeeping *)

Section Simulate.

Context (three : ThreeMath) (delta : Q) (controls : Controls)
        (mapCollider : MapCollider) (m : Object3D) (p : Player).

Let g := sensed mapCollider m p.
Let s := fst (simulate three delta controls mapCollider m p).

Lemma simulate_mixer : mixer s = mixer p.
Proof. unfold s, simulate. body. Qed.

Lemma simulate_feetOffset : feetOffset s = feetOffset p.
Proof. unfold s, simulate. body. Qed.

Lemma simulate_spawnPoint : spawnPoint s = spawnPoint p.
Proof. unfold s, simulate. body. Qed.

Lemma simulate_timeSinceGrounded :
  timeSinceGrounded s = if g then 0 else timeSinceGrounded p + delta.
Proof. unfold s, g, simulate, sensed. body. Qed.

Lemma simulate_verticalVelocity :
  verticalVelocity s =
  integrated g delta
    (if (g && jump controls)%bool then JUMP_FORCE else verticalVelocity p).
Proof. unfold s, g, simulate, sensed. autorewrite with body. reflexivity. Qed.

Lemma simulate_sprinting :
  sprinting (state s) =
  if g then (if is_moving controls then promoted delta p else false)
  else sprinting (state p).
Proof.
  unfold s, g, simulate, sensed.
  destruct (ground_sensor _ p) eqn:G; autorewrite with body.
  - destruct (is_moving controls); cbn [sprinting]; [|reflexivity].
    unfold promoted. autorewrite with body.
    destruct (jump controls); cbn; autorewrite with body; reflexivity.
  - destruct (negb false && _)%bool; cbn; autorewrite with body; reflexivity.
Qed.

Lemma simulate_walkToSprintTime :
  walkToSprintTime s =
  if g then (if is_moving controls
             then (if sprinting (state p) then walkToSprintTime p
                   else walkToSprintTime p + delta)
             else 0)
  else walkToSprintTime p.
Proof.
  unfold s, g, simulate, sensed.
  destruct (ground_sensor _ p) eqn:G; autorewrite with body; [|reflexivity].
  destruct (is_moving controls); [|reflexivity].
  destruct (jump controls); cbn; autorewrite with body; reflexivity.
Qed.

End Simulate.

(** *** The model object through a frame *)

Lemma vertical_physics_model grounded hits delta p :
  model (vertical_physics grounded hits delta p) =
  option_map (fun m =>
    let v := integrated grounded delta (verticalVelocity p) in
    let y := if (grounded && (verticalVelocity p + GRAVITY * delta <? 0))%bool
             then hit_y hits + feetOffset p else vy (position m) in
    set_position (Vec.set_y (y + v * delta) (position m)) m) (model p).
Proof.
  unfold vertical_physics, integrated.
  destruct (model p) as [m|] eqn:E; destruct grounded; body; rewrite ?E; cbn;
    try reflexivity; ltb_hyps; unfold TERMINAL_VELOCITY in *; try lra.
Qed.

Section SimulateModel.

Context (three : ThreeMath) (delta : Q) (controls : Controls)
        (mapCollider : MapCollider) (m : Object3D) (p : Player).

Hypothesis Hm : model p = Some m.

Let g := sensed mapCollider m p.
Let s := fst (simulate three delta controls mapCollider m p).

(** The yaw changes by the turning statements and by nothing else. *)
Lemma simulate_yaw :
  exists pos rx,
    model s = Some (mkObject3D pos rx (turned controls delta (rotation_y m))).
Proof.
  unfold s, simulate. cbv zeta. autorewrite with body.
  rewrite vertical_physics_model, movement_input_model.
  autorewrite with body. rewrite ground_check_model, Hm.
  destruct (ground_sensor _ p && (falling (state p) || jumping (state p)))%bool;
    destruct (is_moving controls); cbn; eauto.
Qed.

Lemma simulate_model_some : model s <> None.
Proof. destruct simulate_yaw as (pos & rx & ->). discriminate. Qed.

(** Ground under the feet and a downward velocity: the model is put on the
    hit point. *)
Lemma simulate_snap :
  g = true ->
  (if jump controls then JUMP_FORCE else verticalVelocity p) + GRAVITY * delta < 0 ->
  model_y s = hit_y (intersect mapCollider (rayOrigin m)) + feetOffset p + 0 * delta.
Proof.
  intros Hg Hv. unfold s, simulate, model_y. cbv zeta.
  fold (sensed mapCollider m p). fold g. rewrite Hg.
  autorewrite with body.
  rewrite vertical_physics_model, movement_input_model.
  autorewrite with body. rewrite ground_check_model, Hm.
  cbn [andb].
  assert (E : ((if jump controls then JUMP_FORCE else verticalVelocity p)
               + GRAVITY * delta <? 0) = true) by (apply ltb_lt; exact Hv).
  rewrite E.
  assert (I : integrated true delta
                (if jump controls then JUMP_FORCE else verticalVelocity p) = 0).
  { unfold integrated.
    destruct (_ <? TERMINAL_VELOCITY); [reflexivity|]. cbn [andb]. rewrite E.
    reflexivity. }
  rewrite I.
  destruct (falling (state p) || jumping (state p))%bool;
    destruct (is_moving controls); cbn; reflexivity.
Qed.

Lemma simulate_airborne_flags :
  g = true ->
  falling (state s) = false /\ jumping (state s) = jump controls.
Proof.
  intros Hg. unfold s, simulate. cbv zeta.
  fold (sensed mapCollider m p). fold g. rewrite Hg.
  autorewrite with body. cbn [negb andb].
  destruct (ground_check_airborne_flags delta p) as [J F].
  destruct (is_moving controls), (jump controls); cbn; auto.
Qed.

End SimulateModel.

(** ** [reset] and [update] as wholes *)

Lemma player_eq (p q : Player) :
  model p = model q -> mixer p = mixer q -> animations p = animations q ->
  currentAnimation p = currentAnimation q -> spawnPoint p = spawnPoint q ->
  state p = state q -> verticalVelocity p = verticalVelocity q ->
  walkToSprintTime p = walkToSprintTime q ->
  timeSinceGrounded p = timeSinceGrounded q -> feetOffset p = feetOffset q ->
  p = q.
Proof. destruct p, q; cbn; intros; subst; reflexivity. Qed.

Lemma reset_unloaded p : model p = None -> reset p = (p, []).
Proof. unfold reset. intros ->. reflexivity. Qed.

Lemma reset_loaded p m :
  model p = Some m -> reset p = _switchAnimation "jump" 0.1 (respawned p).
Proof.
  unfold reset, respawned, on_model. intros ->. cbn. reflexivity.
Qed.

Lemma reset_same_body p :
  model p <> None -> same_body (respawned p) (fst (reset p)).
Proof.
  destruct (model p) as [m|] eqn:E; [intros _|congruence].
  rewrite (reset_loaded p m E). apply switch_same_body.
Qed.

Lemma switch_idempotent name fade fade' p :
  let q := fst (_switchAnimation name fade p) in
  fst (_switchAnimation name fade' q) = q.
Proof.
  unfold _switchAnimation.
  destruct (animations p !! name) as [a|] eqn:E; [|cbn; rewrite E; reflexivity].
  destruct (current_is name p) eqn:C; cbn.
  - rewrite E, C. reflexivity.
  - assert (L : is_Some ((if String.eqb name "jump"
                then alter Action.oneShot name
                       (alter Action.restart name
                          (alter Action.stop (animation_key (currentAnimation p))
                             (animations p)))
                else alter Action.restart name
                       (alter Action.stop (animation_key (currentAnimation p))
                          (animations p))) !! name)).
    { destruct (String.eqb name "jump"); rewrite ?lookup_alter_is_Some, E; eauto. }
    destruct L as [b ->].
    unfold current_is. cbn. rewrite String.eqb_refl. reflexivity.
Qed.

Lemma reset_idempotent p : fst (reset (fst (reset p))) = fst (reset p).
Proof.
  destruct (model p) as [m|] eqn:E.
  - rewrite (reset_loaded p m E).
    set (q := fst (_switchAnimation "jump" 0.1 (respawned p))).
    assert (B : same_body (respawned p) q) by apply switch_same_body.
    destruct B as (B1 & B2 & B3 & B4 & B5 & B6 & B7 & B8). cbn in *.
    rewrite (reset_loaded q _ B1).
    replace (respawned q) with q.
    + apply switch_idempotent.
    + apply player_eq; cbn; congruence.
  - rewrite (reset_unloaded p E). cbn. rewrite (reset_unloaded p E). reflexivity.
Qed.

Section UpdateWhole.

Context (three : ThreeMath) (delta : Q) (controls : Controls)
        (mapCollider : MapCollider) (p : Player).

Lemma update_unloaded :
  loaded p = false -> update three delta controls mapCollider p = (p, []).
Proof.
  unfold loaded, update. destruct (model p); [intros ->|]; reflexivity.
Qed.

Lemma update_loaded m :
  model p = Some m -> mixer p = true ->
  fst (update three delta controls mapCollider p) =
  let s := fst (simulate three delta controls mapCollider m p) in
  if model_y s <? -50 then fst (reset s) else s.
Proof.
  unfold update, housekeeping, mixer_update. intros -> ->. cbn.
  rewrite fst_andThen.
  destruct (model_y _ <? -50); reflexivity.
Qed.

Lemma update_model_some :
  model p <> None -> model (fst (update three delta controls mapCollider p)) <> None.
Proof.
  intros Hm. destruct (loaded p) eqn:L.
  - unfold loaded in L. destruct (model p) as [m|] eqn:E; [|discriminate].
    rewrite (update_loaded m E L). cbv zeta.
    pose proof (simulate_model_some three delta controls mapCollider m p E) as S.
    destruct (model_y _ <? -50); [|exact S].
    destruct (reset_same_body _ S) as [-> _]. discriminate.
  - rewrite (update_unloaded L). exact Hm.
Qed.

Lemma update_timeSinceGrounded_airborne :
  grounded_at mapCollider p = false -> 0 <= delta ->
  GROUNDED_BUFFER_TIME < timeSinceGrounded p ->
  GROUNDED_BUFFER_TIME < timeSinceGrounded (fst (update three delta controls mapCollider p)).
Proof.
  intros G Hd Ht. destruct (loaded p) eqn:L.
  - unfold loaded in L. destruct (model p) as [m|] eqn:E; [|discriminate].
    rewrite (update_loaded m E L). cbv zeta.
    pose proof (simulate_model_some three delta controls mapCollider m p E) as S.
    destruct (model_y _ <? -50).
    + destruct (reset_same_body _ S) as (_ & _ & _ & _ & _ & _ & -> & _).
      reflexivity.
    + rewrite simulate_timeSinceGrounded.
      unfold grounded_at in G. rewrite E in G. rewrite G. lra.
  - rewrite (update_unloaded L). exact Ht.
Qed.

End UpdateWhole.

(** ** Loading *)

Lemma load_same_body gltf mc p :
  let q := fst (load gltf mc p) in
  model q <> None /\ mixer q = true /\ state q = state p /\
  verticalVelocity q = verticalVelocity p /\
  walkToSprintTime q = walkToSprintTime p /\
  timeSinceGrounded q = timeSinceGrounded p.
Proof.
  unfold load. cbv zeta.
  match goal with
  | |- context [_switchAnimation ?n ?f ?r] =>
      destruct (switch_same_body n f r) as (-> & -> & _ & -> & -> & -> & -> & _)
  end.
  cbn. repeat split; congruence.
Qed.

(** ** Reachable players *)

Section ReachableFacts.

Context (three : ThreeMath).

Lemma reachable_steps mc fs p :
  reachable three p -> reachable three (steps three mc fs p).
Proof.
  revert p. induction fs as [|f fs IH]; intros p R; cbn; [exact R|].
  apply IH. apply reach_update. exact R.
Qed.

(** Until it is loaded a player is the one the constructor made. *)
Lemma reachable_unloaded p :
  reachable three p -> model p = None -> p = Player_new.
Proof.
  induction 1 as [|gltf mc|dt cs mc p R IH|p R IH]; intros Hm.
  - reflexivity.
  - destruct (load_same_body gltf mc Player_new) as [H _]. contradiction.
  - destruct (model p) as [m|] eqn:E.
    + exfalso. revert Hm. apply update_model_some. congruence.
    + assert (L : loaded p = false) by (unfold loaded; rewrite E; reflexivity).
      rewrite (update_unloaded three dt cs mc p L). apply IH. reflexivity.
  - destruct (model p) as [m|] eqn:E.
    + exfalso. destruct (reset_same_body p) as [H _]; [congruence|].
      rewrite H in Hm. discriminate.
    + rewrite (reset_unloaded p E). apply IH. reflexivity.
Qed.

Lemma update_velocity_floor dt cs mc p :
  TERMINAL_VELOCITY <= verticalVelocity p ->
  TERMINAL_VELOCITY <= verticalVelocity (fst (update three dt cs mc p)).
Proof.
  intros Hp. destruct (loaded p) eqn:L.
  - unfold loaded in L. destruct (model p) as [m|] eqn:E; [|discriminate].
    rewrite (update_loaded three dt cs mc p m E L). cbv zeta.
    pose proof (simulate_model_some three dt cs mc m p E) as S.
    destruct (model_y _ <? -50).
    + destruct (reset_same_body _ S) as (_ & _ & _ & _ & -> & _). discriminate.
    + rewrite simulate_verticalVelocity. apply integrated_floor.
  - rewrite (update_unloaded three dt cs mc p L). exact Hp.
Qed.

Lemma reachable_velocity_floor p :
  reachable three p -> TERMINAL_VELOCITY <= verticalVelocity p.
Proof.
  induction 1 as [|gltf mc|dt cs mc p R IH|p R IH].
  - discriminate.
  - destruct (load_same_body gltf mc Player_new) as (_ & _ & _ & -> & _).
    discriminate.
  - apply update_velocity_floor. exact IH.
  - destruct (model p) as [m|] eqn:E.
    + destruct (reset_same_body p) as (_ & _ & _ & _ & -> & _); [congruence|].
      discriminate.
    + rewrite (reset_unloaded p E). exact IH.
Qed.

(** C3: in every reachable player, and so after every update, the vertical
    velocity is at least the terminal velocity -45; and at the end of a frame
    of non-negative length in which a jump was triggered (ground sensed, jump
    held) it is at most the jump force 8. *)
Theorem verticalVelocity_bounds dt controls mc p :
  reachable three p ->
  let q := fst (update three dt controls mc p) in
  TERMINAL_VELOCITY <= verticalVelocity p /\
  TERMINAL_VELOCITY <= verticalVelocity q /\
  (0 <= dt -> loaded p = true -> grounded_at mc p = true ->
   jump controls = true -> verticalVelocity q <= JUMP_FORCE).
Proof.
  intros R q.
  pose proof (reachable_velocity_floor p R) as Hp.
  split; [exact Hp|]. split; [apply update_velocity_floor; exact Hp|].
  intros Hd L G J. unfold q, loaded, grounded_at in *.
  destruct (model p) as [m|] eqn:E; [|discriminate].
  rewrite (update_loaded three dt controls mc p m E L). cbv zeta.
  pose proof (simulate_model_some three dt controls mc m p E) as S.
  destruct (model_y _ <? -50).
  - destruct (reset_same_body _ S) as (_ & _ & _ & _ & -> & _). discriminate.
  - rewrite simulate_verticalVelocity, G, J. cbn [andb].
    apply integrated_ceiling; [exact Hd | discriminate].
Qed.

End ReachableFacts.

Lemma lander_reachable : reachable Sample.three Sample.lander.
Proof. apply reachable_steps. exact (reach_load Sample.three Sample.hero (Sample.level 0)). Qed.

Lemma verticalVelocity_bounds_witness :
  reachable Sample.three Sample.lander /\
  verticalVelocity
    (fst (update Sample.three 0.01 Sample.hold_forward_jump (Sample.level 0)
                 Sample.lander)) <= JUMP_FORCE.
Proof.
  split; [exact lander_reachable|].
  apply (verticalVelocity_bounds Sample.three 0.01 Sample.hold_forward_jump
           (Sample.level 0) Sample.lander lander_reachable);
    [discriminate | reflexivity | reflexivity | reflexivity].
Defined.

(** ** Properties of the animation map carried through a frame *)

Lemma ground_check_anims grounded delta p :
  same_anims p (ground_check grounded delta p).
Proof. unfold ground_check, same_anims. split; body. Qed.

Lemma turn_anims controls delta p : same_anims p (turn controls delta p).
Proof. unfold turn, same_anims. split; body. Qed.

Lemma movement_input_anims three grounded controls delta p :
  same_anims p (movement_input three grounded controls delta p).
Proof.
  unfold movement_input.
  destruct (turn_anims controls delta p) as [A C].
  unfold same_anims. destruct (is_moving controls); cbn; rewrite ?A, ?C; auto.
Qed.

Lemma vertical_physics_anims grounded hits delta p :
  same_anims p (vertical_physics grounded hits delta p).
Proof. unfold vertical_physics, same_anims. split; body. Qed.

Section AnimationInvariant.

Context (P : Player -> Prop).

Hypothesis P_anims : forall p q, same_anims p q -> P p -> P q.
Hypothesis P_switch :
  forall name fade p, P p -> P (fst (_switchAnimation name fade p)).

Lemma when_switch_invariant c name fade p :
  P p -> P (fst (when c (_switchAnimation name fade) p)).
Proof. intros H. rewrite fst_when. destruct c; auto. Qed.

Lemma set_state_invariant s p : P p -> P (set_state s p).
Proof. apply P_anims. split; reflexivity. Qed.

Lemma leave_ground_invariant b p : P p -> P (fst (leave_ground b p)).
Proof.
  intros H. unfold leave_ground. destruct b; [|exact H].
  rewrite fst_andThen. cbn. apply set_state_invariant.
  apply when_switch_invariant. exact H.
Qed.

Lemma jump_input_invariant grounded controls p :
  P p -> P (fst (jump_input grounded controls p)).
Proof.
  intros H. unfold jump_input. destruct (grounded && jump controls)%bool; [|exact H].
  rewrite fst_andThen. cbn. apply set_state_invariant. apply P_switch.
  revert H. apply P_anims. split; reflexivity.
Qed.

Lemma sprint_ramp_invariant delta p : P p -> P (fst (sprint_ramp delta p)).
Proof.
  intros H. unfold sprint_ramp.
  destruct (negb (sprinting (state p))); [|exact H]. cbv zeta.
  destruct (_ >? 1.0); cbn.
  - apply P_switch. revert H. apply P_anims. split; reflexivity.
  - revert H. apply P_anims. split; reflexivity.
Qed.

Lemma grounded_animation_invariant moving delta p :
  P p -> P (fst (grounded_animation moving delta p)).
Proof.
  intros H. unfold grounded_animation. destruct moving.
  - rewrite !fst_andThen. cbn. do 2 apply set_state_invariant.
    apply sprint_ramp_invariant. apply when_switch_invariant. exact H.
  - rewrite fst_andThen. cbn. apply set_state_invariant.
    apply (P_anims (fst (when (negb (current_is "idle" p))
                              (_switchAnimation "idle" 0.3) p)));
      [split; reflexivity|].
    apply when_switch_invariant. exact H.
Qed.

Lemma animation_state_machine_invariant grounded moving delta p :
  P p -> P (fst (animation_state_machine grounded moving delta p)).
Proof.
  intros H. unfold animation_state_machine. rewrite fst_andThen.
  destruct grounded; [apply grounded_animation_invariant|];
    apply when_switch_invariant; exact H.
Qed.

Lemma simulate_invariant three delta controls mapCollider m p :
  P p -> P (fst (simulate three delta controls mapCollider m p)).
Proof.
  intros H. unfold simulate. cbv zeta. rewrite !fst_andThen.
  apply animation_state_machine_invariant.
  eapply P_anims; [apply vertical_physics_anims|].
  eapply P_anims; [apply movement_input_anims|].
  apply jump_input_invariant, leave_ground_invariant.
  eapply P_anims; [apply ground_check_anims|]. exact H.
Qed.

Lemma reset_invariant p : P p -> P (fst (reset p)).
Proof.
  intros H. destruct (model p) as [m|] eqn:E.
  - rewrite (reset_loaded p m E). apply P_switch.
    revert H. apply P_anims. split; reflexivity.
  - rewrite (reset_unloaded p E). exact H.
Qed.

Lemma update_invariant three delta controls mapCollider p :
  P p -> P (fst (update three delta controls mapCollider p)).
Proof.
  intros H. destruct (loaded p) eqn:L.
  - unfold loaded in L. destruct (model p) as [m|] eqn:E; [|discriminate].
    rewrite (update_loaded three delta controls mapCollider p m E L). cbv zeta.
    destruct (model_y _ <? -50); [apply reset_invariant|];
      apply simulate_invariant; exact H.
  - rewrite (update_unloaded three delta controls mapCollider p L). exact H.
Qed.

End AnimationInvariant.

Lemma has_clip_is_Some k p : has_clip k p <-> is_Some (animations p !! k).
Proof.
  unfold has_clip. destruct (animations p !! k); cbn; split; eauto.
  - intros [].
  - intros [x H]. discriminate H.
Qed.

Lemma switch_has_clip k name fade p :
  has_clip k p -> has_clip k (fst (_switchAnimation name fade p)).
Proof.
  rewrite !has_clip_is_Some. unfold _switchAnimation. intros H.
  destruct (animations p !! name); [|exact H].
  destruct (current_is name p); [exact H|]. cbn.
  destruct (String.eqb name "jump"); rewrite ?lookup_alter_is_Some; exact H.
Qed.

Lemma has_clip_anims k p q : same_anims p q -> has_clip k p -> has_clip k q.
Proof. unfold has_clip. intros [-> _]. auto. Qed.

Lemma clips_configured_anims p q :
  same_anims p q -> clips_configured p -> clips_configured q.
Proof. unfold clips_configured. intros [-> _]. auto. Qed.

(** Switching to a loaded clip makes it the current one. *)
Lemma switch_sets_current name fade p :
  has_clip name p -> currentAnimation (fst (_switchAnimation name fade p)) = Some name.
Proof.
  intros H. apply has_clip_is_Some in H. destruct H as [a H].
  unfold _switchAnimation. rewrite H.
  destruct (current_is name p) eqn:C; [apply current_is_true in C; exact C|].
  reflexivity.
Qed.

(** ** The clips after loading *)

Lemma register_clips_looping names (a : gmap string AnimationAction) :
  (forall k x, a !! k = Some x -> looping x) ->
  forall k x, register_clips names a !! k = Some x -> looping x.
Proof.
  revert a. induction names as [|n names IH]; intros a Ha; cbn; [exact Ha|].
  destruct (String.eqb (clip_key n) "grounded"); apply IH; [exact Ha|].
  intros k x. rewrite lookup_insert. case_decide.
  - intros [= <-]. unfold looping, clipAction. cbn. auto.
  - apply Ha.
Qed.

Lemma load_configured gltf mc : clips_configured (fst (load gltf mc Player_new)).
Proof.
  unfold load. cbv zeta.
  set (r := register_clips (gltf_animations gltf) (animations Player_new)).
  assert (Hr : forall k x, (Action.stop <$> r) !! k = Some x -> looping x).
  { intros k x. rewrite lookup_fmap.
    destruct (r !! k) as [y|] eqn:E; cbn; [|discriminate].
    intros [= <-].
    assert (L : looping y).
    { refine (register_clips_looping (gltf_animations gltf)
                (animations Player_new) _ k y E).
      intros k' x'. cbn. rewrite lookup_empty. discriminate. }
    unfold looping in *. cbn. exact L. }
  unfold clips_configured, _switchAnimation. cbn [animations currentAnimation].
  intros k x.
  destruct ((Action.stop <$> r) !! "jump"%string) as [j|] eqn:J; cbn.
  - intros H. apply lookup_alter_Some in H. unfold configured.
    destruct H as [[<- (y & _ & ->)] | [Hk H]].
    + cbn. apply oneShot_is_one_shot.
    + destruct (String.eqb_spec k "jump"); [congruence|].
      apply lookup_alter_Some in H.
      destruct H as [[_ (y & Hy & ->)] | [_ H]];
        [apply lookup_alter_Some in Hy | apply lookup_alter_Some in H].
      * destruct Hy as [[_ (z & Hz & ->)] | [_ Hy]];
          [apply Hr in Hz | apply Hr in Hy]; unfold looping in *; cbn; auto.
      * destruct H as [[_ (z & Hz & ->)] | [_ H]];
          [apply Hr in Hz | apply Hr in H]; unfold looping in *; cbn; auto.
  - intros H. unfold configured.
    destruct (String.eqb_spec k "jump") as [->|]; [congruence|].
    apply Hr in H. exact H.
Qed.

Lemma reachable_configured three p : reachable three p -> clips_configured p.
Proof.
  induction 1 as [|gltf mc|dt cs mc p R IH|p R IH].
  - unfold clips_configured. cbn. intros k a. rewrite lookup_empty. discriminate.
  - apply load_configured.
  - apply (update_invariant clips_configured clips_configured_anims
             switch_configured). exact IH.
  - apply (reset_invariant clips_configured clips_configured_anims
             switch_configured). exact IH.
Qed.

(** C8: every change of clip goes through [_switchAnimation], and there: an
    unknown clip name gives one warning and leaves the player as it was; the
    name of the current clip gives back the player unchanged, with no output
    when the clip is loaded; a switch to the jump clip makes it one-shot
    (once, holding the last frame) and no switch touches the loop settings of
    any other clip; so in every reachable player the jump clip is one-shot
    and every other clip loops, before the call and after it. *)
Theorem switchAnimation_entry_point three name fade p :
  let q := fst (_switchAnimation name fade p) in
  (animations p !! name = None ->
   _switchAnimation name fade p = (p, [not_found_warning name])) /\
  (currentAnimation p = Some name -> q = p) /\
  (has_clip name p -> currentAnimation p = Some name ->
   _switchAnimation name fade p = (p, [])) /\
  (forall a, name = "jump"%string -> currentAnimation p <> Some name ->
             animations q !! name = Some a -> one_shot a) /\
  (forall k a', k <> "jump"%string -> animations q !! k = Some a' ->
     exists a, animations p !! k = Some a /\ loop a' = loop a /\
               repetitions a' = repetitions a /\
               clampWhenFinished a' = clampWhenFinished a) /\
  (reachable three p -> clips_configured p /\ clips_configured q).
Proof.
  intros q. split; [apply switch_missing|].
  split.
  { intros C. unfold q, _switchAnimation.
    destruct (animations p !! name); [|reflexivity].
    apply current_is_true in C. rewrite C. reflexivity. }
  split; [intros H; apply switch_current, has_clip_is_Some, H|].
  split.
  { intros a -> C. apply switch_jump_one_shot. exact C. }
  split; [intros k a'; apply switch_keeps_loop|].
  intros R. pose proof (reachable_configured three p R) as H.
  split; [exact H | apply switch_configured; exact H].
Qed.

Lemma switchAnimation_entry_point_witness :
  _switchAnimation "walk" 0.15 Player_new
    = (Player_new, [not_found_warning "walk"]) /\
  _switchAnimation "jump" 0.1 (player Sample.world0)
    = (player Sample.world0, []) /\
  clips_configured Sample.lander.
Proof.
  split; [|split].
  - apply (switchAnimation_entry_point Sample.three "walk" 0.15 Player_new).
    reflexivity.
  - apply (switchAnimation_entry_point Sample.three "jump" 0.1
             (player Sample.world0)).
    + vm_compute. exact I.
    + reflexivity.
  - apply (switchAnimation_entry_point Sample.three "jump" 0.1 Sample.lander).
    exact lander_reachable.
Defined.

(** ** The fail-safe *)

Section FailSafe.

Context (three : ThreeMath).

(** C7, as the code has it: a frame of a loaded player that brings the model
    below the height -50 ends in [reset]: the model is put back on the spawn
    point, upright and facing away, the vertical velocity is the spawn
    velocity -1, [timeSinceGrounded] is past the buffer and the flags are the
    spawn flags, with idle, walking and sprinting cleared and jumping and
    falling set; the jump clip becomes current when it is loaded.  Nothing is
    raised: the frame returns this player. *)
Theorem void_fail_safe dt controls mc p m :
  model p = Some m -> mixer p = true ->
  model_y (fst (simulate three dt controls mc m p)) < -50 ->
  let q := fst (update three dt controls mc p) in
  q = fst (reset (fst (simulate three dt controls mc m p))) /\
  model q = Some (mkObject3D (spawnPoint p) 0 Js.Math_PI) /\
  verticalVelocity q = SPAWN_INITIAL_VELOCITY /\
  timeSinceGrounded q = GROUNDED_BUFFER_TIME + 0.01 /\
  state q = mkFlags false false false true true /\
  (has_clip "jump" p -> currentAnimation q = Some "jump"%string).
Proof.
  intros E L Hy q. unfold q.
  rewrite (update_loaded three dt controls mc p m E L). cbv zeta.
  apply ltb_lt in Hy. rewrite Hy.
  pose proof (simulate_model_some three dt controls mc m p E) as S.
  split; [reflexivity|].
  destruct (reset_same_body _ S) as (-> & _ & _ & -> & -> & _ & -> & _).
  cbn. rewrite simulate_spawnPoint.
  repeat split.
  intros J.
  destruct (model (fst (simulate three dt controls mc m p))) as [m'|] eqn:E';
    [|contradiction].
  rewrite (reset_loaded _ m' E'). apply switch_sets_current.
  revert J. apply (simulate_invariant (has_clip "jump")).
  - intros a b. apply has_clip_anims.
  - intros n f a. apply switch_has_clip.
Qed.

End FailSafe.

Lemma void_fail_safe_witness :
  model_y (fst (simulate Sample.three 0.1 Sample.hands_off (Sample.level (-100))
                         (mkObject3D (mkVector3 0 (-49) 0) 0 Js.Math_PI)
                         (Sample.faller (-49) (-45)))) < -50 /\
  state (fst (update Sample.three 0.1 Sample.hands_off (Sample.level (-100))
                     (Sample.faller (-49) (-45))))
  = mkFlags false false false true true.
Proof.
  assert (H : model_y (fst (simulate Sample.three 0.1 Sample.hands_off
                              (Sample.level (-100))
                              (mkObject3D (mkVector3 0 (-49) 0) 0 Js.Math_PI)
                              (Sample.faller (-49) (-45)))) < -50)
    by (vm_compute; reflexivity).
  split; [exact H|].
  apply (void_fail_safe Sample.three 0.1 Sample.hands_off (Sample.level (-100))
           (Sample.faller (-49) (-45))
           (mkObject3D (mkVector3 0 (-49) 0) 0 Js.Math_PI)
           eq_refl eq_refl H).
Defined.

(** C7 as stated fails: a player falling at terminal velocity past the height
    -50 is reset, and after the reset its velocity is -1, not zero, and the
    airborne flags jumping and falling are set, not cleared. *)
Lemma void_reset_sets_airborne_flags :
  let p := Sample.faller (-49) (-45) in
  let q := fst (update Sample.three 0.1 Sample.hands_off (Sample.level (-100)) p) in
  void_reset Sample.three (Sample.level (-100)) (mkFrame 0.1 Sample.hands_off) p = true /\
  verticalVelocity q == -1 /\
  jumping (state q) = true /\ falling (state q) = true /\
  ~ (verticalVelocity q == 0 /\
     jumping (state q) = false /\ falling (state q) = false).
Proof.
  cbv zeta. split; [vm_compute; reflexivity|].
  split; [vm_compute; reflexivity|].
  split; [vm_compute; reflexivity|].
  split; [vm_compute; reflexivity|].
  intros (_ & H & _). vm_compute in H. discriminate H.
Qed.

(** ** The camera mode *)

Section CameraMode.

Context (three : ThreeMath).

Lemma smooth_mode forceImmediate targetPosition targetLookAt c :
  mode (smooth three forceImmediate targetPosition targetLookAt c) = mode c.
Proof. unfold smooth. destruct forceImmediate; reflexivity. Qed.

Lemma GameCamera_update_mode cs target delta forceImmediate c :
  mode (GameCamera_update three cs target delta forceImmediate c) = mode c.
Proof.
  unfold GameCamera_update.
  destruct (mode c) eqn:M; cbv zeta; rewrite smooth_mode.
  - exact M.
  - destruct (negb (mouseLookActive cs)); exact M.
Qed.

Lemma checkLanding_mode target playerIsGrounded c :
  mode (checkLanding target playerIsGrounded c) =
  if (playerIsGrounded && is_cinematic c)%bool then THIRD_PERSON else mode c.
Proof. unfold checkLanding. destruct (_ && _)%bool; reflexivity. Qed.

Lemma camera_frame_mode dt cs p c :
  model p <> None ->
  mode (camera_frame three dt cs p c) =
  if (groundedDebounced p && is_cinematic c)%bool then THIRD_PERSON else mode c.
Proof.
  unfold camera_frame. destruct (model p) as [t|]; [intros _|congruence].
  rewrite GameCamera_update_mode. apply checkLanding_mode.
Qed.

Lemma camera_frame_third_person dt cs p c :
  mode c = THIRD_PERSON -> mode (camera_frame three dt cs p c) = THIRD_PERSON.
Proof.
  intros M. unfold camera_frame. destruct (model p) as [t|]; [|exact M].
  rewrite GameCamera_update_mode, checkLanding_mode.
  destruct (_ && _)%bool; [reflexivity|exact M].
Qed.

Lemma animate_player dt cs mc w :
  player (fst (_animate three dt cs mc w)) = fst (update three dt cs mc (player w)).
Proof. unfold _animate. rewrite fst_andThen. reflexivity. Qed.

Lemma animate_camera dt cs mc w :
  gameCamera (fst (_animate three dt cs mc w)) =
  camera_frame three dt cs (fst (update three dt cs mc (player w))) (gameCamera w).
Proof. unfold _animate. rewrite fst_andThen. reflexivity. Qed.

Lemma onMouseMove_mode cs mx my w :
  mode (gameCamera (onMouseMove cs mx my w)) = mode (gameCamera w).
Proof. unfold onMouseMove. destruct (mouseLookActive cs); reflexivity. Qed.

Lemma onMouseMove_player cs mx my w : player (onMouseMove cs mx my w) = player w.
Proof. unfold onMouseMove. destruct (mouseLookActive cs); reflexivity. Qed.

Context (mapCollider : MapCollider).

Lemma handle_model_some e w :
  model (player w) <> None ->
  model (player (fst (handle three mapCollider e w))) <> None.
Proof.
  intros H. destruct e as [dt cs|cs mx my]; cbn.
  - rewrite animate_player. apply update_model_some. exact H.
  - rewrite onMouseMove_player. exact H.
Qed.

(** The mode after one event. *)
Lemma handle_mode e w :
  model (player w) <> None ->
  mode (gameCamera (fst (handle three mapCollider e w))) =
  if (landing_signal three mapCollider e w && is_cinematic (gameCamera w))%bool
  then THIRD_PERSON else mode (gameCamera w).
Proof.
  intros H. destruct e as [dt cs|cs mx my]; cbn.
  - rewrite animate_camera. apply camera_frame_mode.
    apply update_model_some. exact H.
  - apply onMouseMove_mode.
Qed.

Lemma run_app es1 es2 w :
  fst (run three mapCollider (es1 ++ es2) w) =
  fst (run three mapCollider es2 (fst (run three mapCollider es1 w))).
Proof.
  revert w. induction es1 as [|e es1 IH]; intros w; cbn; [reflexivity|].
  rewrite !fst_andThen. apply IH.
Qed.

Lemma run_model_some es w :
  model (player w) <> None ->
  model (player (fst (run three mapCollider es w))) <> None.
Proof.
  revert w. induction es as [|e es IH]; intros w H; cbn; [exact H|].
  rewrite fst_andThen. apply IH, handle_model_some, H.
Qed.

(** Third person is kept by every event. *)
Lemma run_third_person es w :
  model (player w) <> None ->
  mode (gameCamera w) = THIRD_PERSON ->
  mode (gameCamera (fst (run three mapCollider es w))) = THIRD_PERSON.
Proof.
  revert w. induction es as [|e es IH]; intros w H M; cbn; [exact M|].
  rewrite fst_andThen. apply IH; [apply handle_model_some, H|].
  rewrite handle_mode by exact H. rewrite M.
  destruct (_ && _)%bool; reflexivity.
Qed.

(** Without the signal the mode stays as it is, at every point of the run. *)
Lemma run_no_landing es w k :
  model (player w) <> None ->
  no_landing three mapCollider es w = true ->
  mode (gameCamera (fst (run three mapCollider (firstn k es) w))) = mode (gameCamera w).
Proof.
  revert w k. induction es as [|e es IH]; intros w k H N.
  - rewrite firstn_nil. reflexivity.
  - destruct k as [|k]; [reflexivity|]. cbn in N |- *.
    apply andb_true_iff in N. destruct N as [N1 N2].
    rewrite fst_andThen, IH; [|apply handle_model_some, H|exact N2].
    rewrite handle_mode by exact H.
    apply negb_true_iff in N1. rewrite N1. reflexivity.
Qed.

(** C1: a camera in the cinematic fall stays there through every event that
    comes before the first frame whose update leaves
    [timeSinceGrounded < 0.2]; that frame puts it in third person; and it is
    in third person after every later frame or mouse movement.  The switch
    happens at one event of the run and the mode does not go back (only
    [GameCamera.reset] assigns the cinematic fall). *)
Theorem camera_switches_once w before e later :
  model (player w) <> None ->
  mode (gameCamera w) = CINEMATIC_FALL ->
  no_landing three mapCollider before w = true ->
  landing_signal three mapCollider e (fst (run three mapCollider before w)) = true ->
  (forall k, mode (gameCamera (fst (run three mapCollider (firstn k before) w)))
             = CINEMATIC_FALL) /\
  (forall k, mode (gameCamera
                     (fst (run three mapCollider (before ++ e :: firstn k later) w)))
             = THIRD_PERSON).
Proof.
  intros H M N S. split.
  - intros k. rewrite run_no_landing; assumption.
  - intros k. rewrite run_app. cbn. rewrite fst_andThen.
    pose proof (run_model_some before w H) as H'.
    apply run_third_person; [apply handle_model_some, H'|].
    rewrite handle_mode by exact H'. rewrite S.
    pose proof (run_no_landing before w (length before) H N) as M'.
    rewrite firstn_all, M in M'.
    unfold is_cinematic. rewrite M'. reflexivity.
Qed.

(** C9: a new player, a newly loaded one and every reachable player after
    [reset] have [timeSinceGrounded] above the buffer time, so the debounced
    signal is off; and a frame of non-negative length that starts from such a
    player and whose ray finds no ground leaves the signal off and the camera
    mode as it was: the camera cannot leave the cinematic fall before a ray
    has found the ground. *)
Theorem first_frame_cannot_land :
  (GROUNDED_BUFFER_TIME < timeSinceGrounded Player_new /\
   groundedDebounced Player_new = false) /\
  (forall gltf mc,
     GROUNDED_BUFFER_TIME < timeSinceGrounded (fst (load gltf mc Player_new))) /\
  (forall p, reachable three p ->
     GROUNDED_BUFFER_TIME < timeSinceGrounded (fst (reset p))) /\
  (forall dt cs w,
     GROUNDED_BUFFER_TIME < timeSinceGrounded (player w) -> 0 <= dt ->
     grounded_at mapCollider (player w) = false ->
     let w' := fst (_animate three dt cs mapCollider w) in
     groundedDebounced (player w') = false /\
     mode (gameCamera w') = mode (gameCamera w)).
Proof.
  split; [split; reflexivity|].
  split.
  { intros gltf mc.
    destruct (load_same_body gltf mc Player_new) as (_ & _ & _ & _ & _ & ->).
    reflexivity. }
  split.
  { intros p R. destruct (model p) as [m|] eqn:E.
    - destruct (reset_same_body p) as (_ & _ & _ & _ & _ & _ & -> & _);
        [congruence|reflexivity].
    - rewrite (reset_unloaded p E). cbn.
      rewrite (reachable_unloaded three p R E). reflexivity. }
  intros dt cs w Ht Hd G w'.
  pose proof (update_timeSinceGrounded_airborne three dt cs mapCollider
                (player w) G Hd Ht) as T.
  assert (D : groundedDebounced (player w') = false).
  { unfold w', groundedDebounced. rewrite animate_player. apply ltb_ge. lra. }
  split; [exact D|].
  unfold w'. rewrite animate_camera. unfold camera_frame.
  destruct (model _) as [t|]; [|reflexivity].
  rewrite GameCamera_update_mode, checkLanding_mode.
  unfold w', groundedDebounced in D. rewrite animate_player in D.
  change 0.2 with GROUNDED_BUFFER_TIME. rewrite D. reflexivity.
Qed.

End CameraMode.

Lemma camera_switches_once_witness :
  no_landing Sample.three (Sample.level 0) Sample.approach Sample.world1 = true /\
  landing_signal Sample.three (Sample.level 0) Sample.touchdown
    (fst (run Sample.three (Sample.level 0) Sample.approach Sample.world1)) = true /\
  mode (gameCamera (fst (run Sample.three (Sample.level 0)
                             (firstn 2 Sample.approach) Sample.world1)))
    = CINEMATIC_FALL /\
  mode (gameCamera (fst (run Sample.three (Sample.level 0)
                             (Sample.approach ++
                              Sample.touchdown :: firstn 3 Sample.afterwards)
                             Sample.world1)))
    = THIRD_PERSON.
Proof.
  assert (N : no_landing Sample.three (Sample.level 0) Sample.approach
                Sample.world1 = true) by (vm_compute; reflexivity).
  assert (S : landing_signal Sample.three (Sample.level 0) Sample.touchdown
                (fst (run Sample.three (Sample.level 0) Sample.approach
                          Sample.world1)) = true) by (vm_compute; reflexivity).
  assert (M : model (player Sample.world1) <> None) by (vm_compute; discriminate).
  assert (C : mode (gameCamera Sample.world1) = CINEMATIC_FALL)
    by (vm_compute; reflexivity).
  destruct (camera_switches_once Sample.three (Sample.level 0) Sample.world1
              Sample.approach Sample.touchdown Sample.afterwards M C N S)
    as [Before After].
  split; [exact N|]. split; [exact S|].
  split; [exact (Before 2%nat) | exact (After 3%nat)].
Defined.

Lemma first_frame_cannot_land_witness :
  GROUNDED_BUFFER_TIME < timeSinceGrounded (player Sample.world0) /\
  grounded_at (Sample.level 0) (player Sample.world0) = false /\
  mode (gameCamera (fst (_animate Sample.three 1 Sample.hands_off (Sample.level 0)
                                  Sample.world0)))
    = mode (gameCamera Sample.world0).
Proof.
  assert (T : GROUNDED_BUFFER_TIME < timeSinceGrounded (player Sample.world0))
    by (vm_compute; reflexivity).
  assert (G : grounded_at (Sample.level 0) (player Sample.world0) = false)
    by (vm_compute; reflexivity).
  assert (D : 0 <= 1) by discriminate.
  destruct (first_frame_cannot_land Sample.three (Sample.level 0))
    as (_ & _ & _ & Frame).
  split; [exact T|]. split; [exact G|].
  exact (proj2 (Frame 1 Sample.hands_off Sample.world0 T D G)).
Defined.

(** ** Restart *)

Section Restart.

Context (three : ThreeMath).

Lemma GameCamera_reset_idempotent cs cs' target c :
  GameCamera_reset three cs' target (GameCamera_reset three cs target c)
  = GameCamera_reset three cs target c.
Proof. reflexivity. Qed.

Lemma GameCamera_reset_mode cs target c :
  mode (GameCamera_reset three cs target c) = CINEMATIC_FALL /\
  cinematicTimer (GameCamera_reset three cs target c) == 0.
Proof. split; reflexivity. Qed.

(** C6: restarting twice gives the state that restarting once gives, whatever
    the state was; and for a loaded player that state has the model on the
    spawn point, the spawn velocity, the spawn flags, and the camera in the
    cinematic fall with its timer at zero. *)
Theorem restart_idempotent cs cs' w :
  let w1 := fst (restart three cs w) in
  fst (restart three cs' w1) = w1 /\
  (model (player w) <> None ->
   model (player w1) = Some (mkObject3D (spawnPoint (player w)) 0 Js.Math_PI) /\
   verticalVelocity (player w1) = SPAWN_INITIAL_VELOCITY /\
   state (player w1) = mkFlags false false false true true /\
   mode (gameCamera w1) = CINEMATIC_FALL /\
   cinematicTimer (gameCamera w1) == 0).
Proof.
  intros w1. unfold w1, restart. rewrite !fst_andThen. cbn.
  rewrite reset_idempotent. split.
  - destruct (model (fst (reset (player w)))); reflexivity.
  - intros H.
    destruct (reset_same_body (player w) H) as (-> & _ & _ & -> & -> & _).
    cbn. repeat split.
Qed.

End Restart.

Lemma restart_idempotent_witness :
  model (player Sample.world0) <> None /\
  mode (gameCamera (fst (restart Sample.three Sample.hands_off Sample.world0)))
  = CINEMATIC_FALL.
Proof.
  assert (H : model (player Sample.world0) <> None) by discriminate.
  split; [exact H|].
  apply (restart_idempotent Sample.three Sample.hands_off Sample.hands_off
           Sample.world0). exact H.
Defined.

(** ** Turning and moving *)

Section Movement.

Context (three : ThreeMath).


End Movement.


(** ** The clip chosen on the ground *)

Lemma current_is_false_switch name fade p :
  has_clip name p ->
  currentAnimation
    (fst (when (negb (current_is name p)) (_switchAnimation name fade) p))
  = Some name.
Proof.
  intros H. rewrite fst_when.
  destruct (current_is name p) eqn:C; cbn.
  - apply current_is_true. exact C.
  - apply switch_sets_current. exact H.
Qed.

Lemma when_has_clip k c name fade p :
  has_clip k p -> has_clip k (fst (when c (_switchAnimation name fade) p)).
Proof. intros H. rewrite fst_when. destruct c; [apply switch_has_clip|]; exact H. Qed.

Lemma when_state c name fade p :
  state (fst (when c (_switchAnimation name fade) p)) = state p.
Proof. rewrite fst_when. destruct c; [apply switch_state|reflexivity]. Qed.

Lemma when_walkToSprintTime c name fade p :
  walkToSprintTime (fst (when c (_switchAnimation name fade) p)) = walkToSprintTime p.
Proof. rewrite fst_when. destruct c; [apply switch_walkToSprintTime|reflexivity]. Qed.

(** While sprinting and moving on the ground the sprint clip is the one chosen. *)
Lemma grounded_animation_sprint delta p :
  sprinting (state p) = true -> has_clip "sprint" p ->
  currentAnimation (fst (grounded_animation true delta p)) = Some "sprint"%string.
Proof.
  intros S H. unfold grounded_animation, desiredAnim. rewrite S.
  rewrite !fst_andThen. cbn.
  unfold sprint_ramp. rewrite when_state, S. cbn.
  apply current_is_false_switch. exact H.
Qed.

Lemma grounded_animation_current moving delta p :
  has_clip "idle" p -> has_clip "walk" p -> has_clip "sprint" p ->
  let q := fst (grounded_animation moving delta p) in
  currentAnimation q = Some (if moving then desiredAnim q else "idle"%string).
Proof.
  intros Hi Hw Hs q. unfold q. destruct moving.
  - unfold desiredAnim at 1. rewrite grounded_animation_state. cbn [sprinting].
    unfold promoted.
    destruct (sprinting (state p)) eqn:S; cbn [orb].
    + apply grounded_animation_sprint; assumption.
    + unfold grounded_animation, desiredAnim. rewrite S.
      rewrite !fst_andThen. cbn.
      unfold sprint_ramp. rewrite when_state, S.
      cbn [negb walkToSprintTime set_walkToSprintTime].
      rewrite when_walkToSprintTime.
      destruct (walkToSprintTime p + delta >? 1.0).
      * apply switch_sets_current.
        apply (has_clip_anims "sprint"
                 (fst (when (negb (current_is "walk" p))
                            (_switchAnimation "walk" 0.15) p)));
          [split; reflexivity|].
        apply when_has_clip. exact Hs.
      * cbn. apply current_is_false_switch. exact Hw.
  - unfold grounded_animation. rewrite fst_andThen. cbn.
    apply current_is_false_switch. exact Hi.
Qed.

Section GroundedFrame.

Context (three : ThreeMath) (delta : Q) (controls : Controls)
        (mapCollider : MapCollider) (m : Object3D) (p : Player).

Let s := fst (simulate three delta controls mapCollider m p).

(** The player the animation state machine receives. *)
Let before_animation : Player :=
  vertical_physics (sensed mapCollider m p) (intersect mapCollider (rayOrigin m)) delta
    (movement_input three (sensed mapCollider m p) controls delta
       (fst (jump_input (sensed mapCollider m p) controls
          (fst (leave_ground
                  (negb (sensed mapCollider m p)
                   && (timeSinceGrounded p <? GROUNDED_BUFFER_TIME))%bool
                  (ground_check (sensed mapCollider m p) delta p)))))).

Lemma simulate_unfold :
  s = fst (animation_state_machine (sensed mapCollider m p) (is_moving controls)
             delta before_animation).
Proof. unfold s, simulate. cbv zeta. rewrite !fst_andThen. reflexivity. Qed.

Lemma before_animation_has_clip k : has_clip k p -> has_clip k before_animation.
Proof.
  intros H. unfold before_animation.
  eapply has_clip_anims; [apply vertical_physics_anims|].
  eapply has_clip_anims; [apply movement_input_anims|].
  apply (jump_input_invariant (has_clip k) (has_clip_anims k) (switch_has_clip k)).
  apply (leave_ground_invariant (has_clip k) (has_clip_anims k) (switch_has_clip k)).
  eapply has_clip_anims; [apply ground_check_anims|]. exact H.
Qed.

Lemma before_animation_sprinting :
  sprinting (state before_animation) = sprinting (state p).
Proof.
  unfold before_animation. autorewrite with body.
  destruct (_ && jump controls)%bool, (negb _ && _)%bool; cbn;
    autorewrite with body; reflexivity.
Qed.

Lemma simulate_grounded_current :
  sensed mapCollider m p = true ->
  has_clip "idle" p -> has_clip "walk" p -> has_clip "sprint" p ->
  currentAnimation s = Some (if is_moving controls then desiredAnim s else "idle"%string).
Proof.
  intros G Hi Hw Hs. rewrite simulate_unfold, G.
  unfold animation_state_machine. rewrite fst_andThen. cbn [negb andb].
  rewrite fst_when.
  apply grounded_animation_current; apply before_animation_has_clip; assumption.
Qed.

Lemma simulate_grounded_sprint :
  sensed mapCollider m p = true -> is_moving controls = true ->
  sprinting (state p) = true -> has_clip "sprint" p ->
  currentAnimation s = Some "sprint"%string.
Proof.
  intros G M S Hs. rewrite simulate_unfold, G, M.
  unfold animation_state_machine. rewrite fst_andThen. cbn [negb andb].
  rewrite fst_when.
  apply grounded_animation_sprint;
    [rewrite before_animation_sprinting; exact S
    |apply before_animation_has_clip; exact Hs].
Qed.

End GroundedFrame.

(** ** Sprinting through a jump *)

Section Sprint.

Context (three : ThreeMath) (mapCollider : MapCollider).

Lemma loaded_iff p : loaded p = true <-> model p <> None /\ mixer p = true.
Proof.
  unfold loaded. destruct (model p); split.
  - intros ->. split; [discriminate|reflexivity].
  - intros [_ ->]. reflexivity.
  - discriminate.
  - intros [H _]. contradiction.
Qed.

Lemma update_mixer dt cs p :
  mixer (fst (update three dt cs mapCollider p)) = mixer p.
Proof.
  destruct (loaded p) eqn:L.
  - apply loaded_iff in L. destruct L as [Hm L].
    destruct (model p) as [m|] eqn:E; [|contradiction].
    rewrite (update_loaded three dt cs mapCollider p m E L). cbv zeta.
    pose proof (simulate_model_some three dt cs mapCollider m p E) as S.
    destruct (model_y _ <? -50).
    + destruct (reset_same_body _ S) as (_ & -> & _). cbn.
      apply simulate_mixer.
    + apply simulate_mixer.
  - rewrite (update_unloaded three dt cs mapCollider p L). reflexivity.
Qed.

Lemma step_loaded f p :
  loaded p = true -> loaded (step three mapCollider f p) = true.
Proof.
  rewrite !loaded_iff. intros [Hm L]. unfold step. split.
  - apply update_model_some. exact Hm.
  - rewrite update_mixer. exact L.
Qed.

(** A frame without the fail-safe in which the sprinting player is in the air,
    or on the ground with a movement key held, keeps the sprint flag and the
    ramp timer. *)
Lemma step_keeps_sprint f p :
  loaded p = true -> sprinting (state p) = true ->
  void_reset three mapCollider f p = false ->
  (grounded_at mapCollider p = true -> is_moving (frame_controls f) = true) ->
  sprinting (state (step three mapCollider f p)) = true /\
  walkToSprintTime (step three mapCollider f p) = walkToSprintTime p.
Proof.
  intros L S V G. unfold step, loaded, void_reset, grounded_at in *.
  destruct (model p) as [m|] eqn:E; [|discriminate].
  rewrite L in V. cbn [andb] in V.
  rewrite (update_loaded three _ _ mapCollider p m E L). cbv zeta. rewrite V.
  rewrite simulate_sprinting, simulate_walkToSprintTime.
  unfold promoted. rewrite S.
  destruct (sensed mapCollider m p); [rewrite G by reflexivity|]; auto.
Qed.

Lemma steps_airborne_keep_sprint fs p :
  loaded p = true -> sprinting (state p) = true ->
  airborne three mapCollider fs p = true ->
  let q := steps three mapCollider fs p in
  loaded q = true /\ sprinting (state q) = true /\
  walkToSprintTime q = walkToSprintTime p.
Proof.
  revert p. induction fs as [|f fs IH]; intros p L S A; cbn; [auto|].
  cbn in A. apply andb_true_iff in A. destruct A as [A A3].
  apply andb_true_iff in A. destruct A as [A1 A2].
  apply negb_true_iff in A1, A2.
  destruct (step_keeps_sprint f p L S A2) as [S' W']; [congruence|].
  destruct (IH (step three mapCollider f p) (step_loaded f p L) S' A3)
    as (L2 & S2 & W2).
  cbv zeta in *. rewrite W2, W'. auto.
Qed.

(** C2: a sprinting player on the ground jumps with forward held, spends any
    number of frames in the air, and lands with forward held; if the fail-safe
    reset fires in none of these frames, the player after the landing frame is
    sprinting, its ramp timer is the one it had before the jump, the clip
    asked for is the sprint clip, and the sprint clip is the current one when
    it is loaded. *)
Theorem sprint_survives_jump p takeoff flight landing :
  loaded p = true -> sprinting (state p) = true ->
  grounded_at mapCollider p = true ->
  jump (frame_controls takeoff) = true -> forward (frame_controls takeoff) = true ->
  void_reset three mapCollider takeoff p = false ->
  let p1 := step three mapCollider takeoff p in
  airborne three mapCollider flight p1 = true ->
  let p2 := steps three mapCollider flight p1 in
  grounded_at mapCollider p2 = true ->
  forward (frame_controls landing) = true ->
  void_reset three mapCollider landing p2 = false ->
  let p3 := step three mapCollider landing p2 in
  sprinting (state p3) = true /\
  walkToSprintTime p3 = walkToSprintTime p /\
  desiredAnim p3 = "sprint"%string /\
  (has_clip "sprint" p -> currentAnimation p3 = Some "sprint"%string).
Proof.
  intros L S G J F V p1 A p2 G2 F2 V2 p3.
  assert (M : forall f, forward (frame_controls f) = true ->
                        is_moving (frame_controls f) = true)
    by (intros f Hf; unfold is_moving; rewrite Hf; reflexivity).
  destruct (step_keeps_sprint takeoff p L S V (fun _ => M _ F)) as [S1 W1].
  fold p1 in S1, W1.
  destruct (steps_airborne_keep_sprint flight p1 (step_loaded takeoff p L) S1 A)
    as (L2 & S2 & W2). fold p2 in L2, S2, W2.
  destruct (step_keeps_sprint landing p2 L2 S2 V2 (fun _ => M _ F2)) as [S3 W3].
  fold p3 in S3, W3.
  split; [exact S3|]. split; [congruence|].
  split; [unfold desiredAnim; rewrite S3; reflexivity|].
  intros H.
  assert (H2 : has_clip "sprint" p2).
  { unfold p2. clear -H. set (q := p1).
    assert (Hq : has_clip "sprint" q).
    { apply (update_invariant (has_clip "sprint") (has_clip_anims "sprint")
               (switch_has_clip "sprint")). exact H. }
    clearbody q. revert q Hq.
    induction flight as [|f fs IH]; intros q Hq; cbn; [exact Hq|].
    apply IH.
    apply (update_invariant (has_clip "sprint") (has_clip_anims "sprint")
             (switch_has_clip "sprint")). exact Hq. }
  unfold p3, step. unfold loaded, void_reset, grounded_at in L2, V2, G2.
  destruct (model p2) as [m2|] eqn:E2; [|discriminate].
  rewrite L2 in V2. cbn [andb] in V2.
  rewrite (update_loaded three _ _ mapCollider p2 m2 E2 L2). cbv zeta. rewrite V2.
  apply simulate_grounded_sprint; auto.
Qed.

End Sprint.

(** ** Landing *)

Section Landing.

Context (three : ThreeMath).

(** C4, as the code has it: in a frame of a loaded player whose ray returns a
    nearest hit closer than [RAYCAST_HEIGHT + feetOffset + GROUND_TOLERANCE]
    (an empty hit list never counts as ground), and in which the fail-safe
    does not fire, [timeSinceGrounded] is 0, the falling flag is cleared, a
    velocity that is negative after gravity is set to 0 with the model put at
    the hit height plus [feetOffset], and, the idle, walk and sprint clips
    being loaded, the clip at the end of the frame is idle when no movement
    key is held and otherwise sprint or walk as the sprint flag says; it is
    never the jump clip. *)
Theorem landing_frame dt controls mc p m :
  model p = Some m -> mixer p = true -> sensed mc m p = true ->
  has_clip "idle" p -> has_clip "walk" p -> has_clip "sprint" p ->
  void_reset three mc (mkFrame dt controls) p = false ->
  let q := fst (update three dt controls mc p) in
  let hits := intersect mc (rayOrigin m) in
  ground_sensor [] p = false /\
  (exists h rest, hits = h :: rest /\
     distance h < RAYCAST_HEIGHT + feetOffset p + GROUND_TOLERANCE) /\
  timeSinceGrounded q = 0 /\ groundedDebounced q = true /\
  falling (state q) = false /\
  ((if jump controls then JUMP_FORCE else verticalVelocity p) + GRAVITY * dt < 0 ->
   verticalVelocity q = 0 /\ model_y q == hit_y hits + feetOffset p) /\
  currentAnimation q
  = Some (if is_moving controls then desiredAnim q else "idle"%string) /\
  currentAnimation q <> Some "jump"%string.
Proof.
  intros E L G Hi Hw Hs V q hits.
  unfold void_reset in V. rewrite E, L in V. cbn [andb frame_dt frame_controls] in V.
  assert (Q : q = fst (simulate three dt controls mc m p)).
  { unfold q. rewrite (update_loaded three dt controls mc p m E L). cbv zeta.
    rewrite V. reflexivity. }
  split; [reflexivity|].
  split.
  { unfold sensed, ground_sensor in G. fold hits in G.
    destruct hits as [|h rest]; [discriminate|].
    exists h, rest. split; [reflexivity|]. apply ltb_lt. exact G. }
  assert (T : timeSinceGrounded q = 0)
    by (rewrite Q, simulate_timeSinceGrounded, G; reflexivity).
  split; [exact T|].
  split; [unfold groundedDebounced; rewrite T; reflexivity|].
  split.
  { rewrite Q. apply (simulate_airborne_flags three dt controls mc m p G). }
  split.
  { intros Hv. split.
    - rewrite Q, simulate_verticalVelocity, G. cbn [andb]. unfold integrated.
      assert (E0 : ((if jump controls then JUMP_FORCE else verticalVelocity p)
                    + GRAVITY * dt <? 0) = true) by (apply ltb_lt; exact Hv).
      destruct (_ <? TERMINAL_VELOCITY); [reflexivity|].
      cbn [andb]. rewrite E0. reflexivity.
    - rewrite Q, (simulate_snap three dt controls mc m p E G Hv).
      fold hits. ring. }
  assert (C : currentAnimation q
              = Some (if is_moving controls then desiredAnim q else "idle"%string))
    by (rewrite Q; apply simulate_grounded_current; assumption).
  split; [exact C|].
  rewrite C. unfold desiredAnim.
  destruct (is_moving controls); [destruct (sprinting (state q))|]; discriminate.
Qed.

End Landing.

Lemma sprint_survives_jump_witness :
  sprinting (state Sample.runner) = true /\
  airborne Sample.three (Sample.level 0) Sample.flight
    (step Sample.three (Sample.level 0) Sample.takeoff Sample.runner) = true /\
  sprinting (state (step Sample.three (Sample.level 0) Sample.landing
                         Sample.descending)) = true.
Proof.
  assert (S : sprinting (state Sample.runner) = true) by (vm_compute; reflexivity).
  assert (A : airborne Sample.three (Sample.level 0) Sample.flight
                (step Sample.three (Sample.level 0) Sample.takeoff Sample.runner)
              = true) by (vm_compute; reflexivity).
  split; [exact S|]. split; [exact A|].
  apply (sprint_survives_jump Sample.three (Sample.level 0) Sample.runner
           Sample.takeoff Sample.flight Sample.landing);
    try exact S; try exact A; vm_compute; reflexivity.
Defined.

Lemma landing_frame_witness :
  sensed (Sample.level 0) (mkObject3D (mkVector3 0 0.05 0) 0 Js.Math_PI)
         (Sample.faller 0.05 (-3)) = true /\
  currentAnimation
    (fst (update Sample.three 0.01 Sample.hands_off (Sample.level 0)
                 (Sample.faller 0.05 (-3))))
  <> Some "jump"%string.
Proof.
  assert (G : sensed (Sample.level 0) (mkObject3D (mkVector3 0 0.05 0) 0 Js.Math_PI)
                     (Sample.faller 0.05 (-3)) = true) by (vm_compute; reflexivity).
  assert (C : forall k, In k ["idle"; "walk"; "sprint"]%string ->
                        has_clip k (Sample.faller 0.05 (-3))).
  { intros k [<-|[<-|[<-|[]]]]; vm_compute; exact I. }
  split; [exact G|].
  apply (landing_frame Sample.three 0.01 Sample.hands_off (Sample.level 0)
           (Sample.faller 0.05 (-3))
           (mkObject3D (mkVector3 0 0.05 0) 0 Js.Math_PI) eq_refl eq_refl G).
  - apply C. cbn. auto.
  - apply C. cbn. auto.
  - apply C. cbn. auto.
  - vm_compute. reflexivity.
Defined.

(** C4 as stated fails: the runner coming down from a jump with forward held
    is over ground within the threshold, the frame ends without a reset, and
    the clip at its end is the sprint clip, neither idle nor walk. *)
Lemma landing_while_sprinting :
  let p := Sample.descending in
  let q := step Sample.three (Sample.level 0) Sample.landing p in
  grounded_at (Sample.level 0) p = true /\
  void_reset Sample.three (Sample.level 0) Sample.landing p = false /\
  currentAnimation p <> Some "sprint"%string /\
  currentAnimation q = Some "sprint"%string /\
  ~ (currentAnimation q = Some "idle"%string
     \/ currentAnimation q = Some "walk"%string).
Proof.
  cbv zeta.
  split; [vm_compute; reflexivity|].
  split; [vm_compute; reflexivity|].
  split; [vm_compute; discriminate|].
  split; [vm_compute; reflexivity|].
  intros [H|H]; vm_compute in H; discriminate H.
Qed.

(** ** The flags of a frame in the air *)

Lemma ltb_comp (a b c d : Q) : a == c -> b == d -> (a <? b) = (c <? d).
Proof.
  intros H1 H2.
  destruct (a <? b) eqn:E1, (c <? d) eqn:E2; try reflexivity; ltb_hyps; lra.
Qed.

Lemma ground_check_state_airborne delta p :
  state (ground_check false delta p) =
  mkFlags (idle (state p)) (walking (state p)) (sprinting (state p))
          (jumping (state p))
          (falling (state p)
           || ((timeSinceGrounded p + delta >? GROUNDED_BUFFER_TIME)
               && negb (jumping (state p))))%bool.
Proof.
  unfold ground_check.
  unfold set_state, set_timeSinceGrounded. cbn -[Js.gtb Qplus].
  destruct ((_ >? _) && negb (jumping (state p)))%bool; cbn -[Js.gtb Qplus];
    [rewrite orb_true_r | rewrite orb_false_r; destruct (state p)]; reflexivity.
Qed.

Section AirborneFrame.

Context (three : ThreeMath) (delta : Q) (controls : Controls)
        (mapCollider : MapCollider) (m : Object3D) (p : Player).

Hypothesis G : sensed mapCollider m p = false.

Let s := fst (simulate three delta controls mapCollider m p).

Lemma simulate_state_airborne :
  state s =
  mkFlags (idle (state p))
          (if timeSinceGrounded p <? GROUNDED_BUFFER_TIME then false
           else walking (state p))
          (sprinting (state p)) (jumping (state p))
          (falling (state p)
           || ((timeSinceGrounded p + delta >? GROUNDED_BUFFER_TIME)
               && negb (jumping (state p))))%bool.
Proof.
  unfold s, simulate. cbv zeta. fold (sensed mapCollider m p). rewrite G.
  autorewrite with body. cbn [negb andb]. rewrite ground_check_state_airborne.
  destruct (timeSinceGrounded p <? GROUNDED_BUFFER_TIME); reflexivity.
Qed.

(** The clip in the air: the walk and sprint clips give way to idle on
    leaving the ground, the jump clip gives way to idle after
    [FALL_ANIM_DELAY] once the player is descending, and nothing else
    changes it. *)
Lemma simulate_clip_airborne :
  has_clip "idle" p ->
  currentAnimation s =
  if ((timeSinceGrounded p <? GROUNDED_BUFFER_TIME)
      && (current_is "walk" p || current_is "sprint" p)
      || current_is "jump" p
         && (timeSinceGrounded p + delta >? FALL_ANIM_DELAY)
         && (integrated false delta (verticalVelocity p) <? -0.1))%bool
  then Some "idle"%string else currentAnimation p.
Proof.
  intros Hi. unfold s, simulate. cbv zeta. fold (sensed mapCollider m p).
  rewrite G. cbn [negb andb].
  unfold animation_state_machine. rewrite !fst_andThen. cbn [negb andb fst quiet].
  rewrite fst_when.
  set (p1 := ground_check false delta p).
  assert (A1 : same_anims p p1) by apply ground_check_anims.
  assert (C1 : forall n, current_is n p1 = current_is n p)
    by (intros n; unfold current_is; destruct A1 as [_ ->]; reflexivity).
  assert (H1 : has_clip "idle" p1) by (revert Hi; apply has_clip_anims, A1).
  set (b := (timeSinceGrounded p <? GROUNDED_BUFFER_TIME)).
  set (p2 := fst (leave_ground b p1)).
  assert (K2 : currentAnimation p2 =
               if (b && (current_is "walk" p || current_is "sprint" p))%bool
               then Some "idle"%string else currentAnimation p).
  { unfold p2, leave_ground. destruct b; cbn [andb].
    - rewrite fst_andThen. cbn. rewrite fst_when, !C1.
      destruct (current_is "walk" p || current_is "sprint" p)%bool.
      + apply switch_sets_current. exact H1.
      + apply A1.
    - apply A1. }
  assert (H2 : has_clip "idle" p2).
  { unfold p2. apply (leave_ground_invariant (has_clip "idle")
                        (has_clip_anims "idle") (switch_has_clip "idle")).
    exact H1. }
  set (p3 := fst (jump_input false controls p2)).
  assert (E3 : p3 = p2) by reflexivity.
  set (p5 := vertical_physics false _ delta (movement_input three false controls delta p3)).
  assert (A5 : same_anims p2 p5).
  { unfold p5. rewrite E3.
    destruct (vertical_physics_anims false
                (intersect mapCollider (rayOrigin m)) delta
                (movement_input three false controls delta p2)) as [X Y].
    destruct (movement_input_anims three false controls delta p2) as [X' Y'].
    split; congruence. }
  assert (C5 : current_is "jump" p5 = current_is "jump" p2)
    by (unfold current_is; destruct A5 as [_ ->]; reflexivity).
  assert (T5 : timeSinceGrounded p5 = timeSinceGrounded p + delta).
  { unfold p5, p3, p2, p1. autorewrite with body. reflexivity. }
  assert (V5 : verticalVelocity p5 = integrated false delta (verticalVelocity p)).
  { unfold p5, p3, p2, p1. autorewrite with body. reflexivity. }
  rewrite C5, T5, V5.
  assert (J2 : current_is "jump" p2 =
               (negb (b && (current_is "walk" p || current_is "sprint" p))
                && current_is "jump" p)%bool).
  { unfold current_is at 1. rewrite K2.
    destruct (b && _)%bool eqn:B; cbn; [reflexivity|].
    reflexivity. }
  rewrite J2.
  destruct (b && (current_is "walk" p || current_is "sprint" p))%bool eqn:B;
    cbn [negb andb orb].
  - destruct A5 as [_ ->]. rewrite K2. reflexivity.
  - destruct (current_is "jump" p && _ && _)%bool eqn:J.
    + apply switch_sets_current. revert H2. apply has_clip_anims, A5.
    + destruct A5 as [_ ->]. rewrite K2. reflexivity.
Qed.

End AirborneFrame.

(** ** Frames without the fail-safe *)

Section Frames.

Context (three : ThreeMath) (mapCollider : MapCollider).

Lemma step_simulate f p m :
  model p = Some m -> mixer p = true ->
  void_reset three mapCollider f p = false ->
  step three mapCollider f p
  = fst (simulate three (frame_dt f) (frame_controls f) mapCollider m p).
Proof.
  intros E L V. unfold step, void_reset in *. rewrite E, L in V. cbn [andb] in V.
  rewrite (update_loaded three _ _ mapCollider p m E L). cbv zeta. rewrite V.
  reflexivity.
Qed.

Lemma loaded_model p : loaded p = true -> exists m, model p = Some m /\ mixer p = true.
Proof.
  unfold loaded. destruct (model p) as [m|]; [|discriminate]. eauto.
Qed.

(** One frame in the air without reset: its flags and its clip. *)
Lemma airborne_step f p m :
  model p = Some m -> mixer p = true ->
  grounded_at mapCollider p = false ->
  void_reset three mapCollider f p = false ->
  let q := step three mapCollider f p in
  state q =
  mkFlags (idle (state p))
          (if timeSinceGrounded p <? GROUNDED_BUFFER_TIME then false
           else walking (state p))
          (sprinting (state p)) (jumping (state p))
          (falling (state p)
           || ((timeSinceGrounded p + frame_dt f >? GROUNDED_BUFFER_TIME)
               && negb (jumping (state p))))%bool /\
  (has_clip "idle" p ->
   currentAnimation q =
   if ((timeSinceGrounded p <? GROUNDED_BUFFER_TIME)
       && (current_is "walk" p || current_is "sprint" p)
       || current_is "jump" p
          && (timeSinceGrounded p + frame_dt f >? FALL_ANIM_DELAY)
          && (integrated false (frame_dt f) (verticalVelocity p) <? -0.1))%bool
   then Some "idle"%string else currentAnimation p).
Proof.
  intros E M G V q. unfold q. rewrite (step_simulate f p m E M V).
  unfold grounded_at in G. rewrite E in G.
  split.
  - apply simulate_state_airborne. exact G.
  - apply simulate_clip_airborne. exact G.
Qed.

(** X2: a frame in the air that ends in no reset keeps the idle, sprinting
    and jumping flags; it clears walking when the player was grounded within
    the buffer time before it; it sets falling once the time off the ground
    passes the buffer, unless the jumping flag is set; and, the idle clip
    being loaded, it replaces the walk or sprint clip by idle on leaving the
    ground and the jump clip by idle once more than 0.4 seconds have passed
    off the ground and the player descends faster than 0.1, and changes the
    clip in no other case. *)
Theorem airborne_frame f p :
  loaded p = true -> grounded_at mapCollider p = false ->
  void_reset three mapCollider f p = false ->
  let q := step three mapCollider f p in
  idle (state q) = idle (state p) /\
  sprinting (state q) = sprinting (state p) /\
  jumping (state q) = jumping (state p) /\
  walking (state q)
  = (negb (timeSinceGrounded p <? GROUNDED_BUFFER_TIME) && walking (state p))%bool /\
  falling (state q)
  = (falling (state p)
     || ((timeSinceGrounded p + frame_dt f >? GROUNDED_BUFFER_TIME)
         && negb (jumping (state p))))%bool /\
  (has_clip "idle" p ->
   currentAnimation q =
   if ((timeSinceGrounded p <? GROUNDED_BUFFER_TIME)
       && (current_is "walk" p || current_is "sprint" p)
       || current_is "jump" p
          && (timeSinceGrounded p + frame_dt f >? FALL_ANIM_DELAY)
          && (integrated false (frame_dt f) (verticalVelocity p) <? -0.1))%bool
   then Some "idle"%string else currentAnimation p).
Proof.
  intros L G V q. destruct (loaded_model p L) as (m & E & M).
  destruct (airborne_step f p m E M G V) as [S C]. fold q in S, C.
  rewrite S. cbn. repeat split; try exact C.
  destruct (timeSinceGrounded p <? GROUNDED_BUFFER_TIME); reflexivity.
Qed.

(** X3: while the jumping flag is set, frames in the air never set the
    falling flag: through a run of airborne frames without reset that starts
    with jumping set, the jumping, falling and sprinting flags stay as they
    were. *)
Theorem jumping_blocks_falling fs p :
  loaded p = true -> jumping (state p) = true ->
  airborne three mapCollider fs p = true ->
  let q := steps three mapCollider fs p in
  jumping (state q) = true /\ falling (state q) = falling (state p) /\
  sprinting (state q) = sprinting (state p).
Proof.
  revert p. induction fs as [|f fs IH]; intros p L J A;
    cbn [steps airborne] in *; [auto|].
  apply andb_true_iff in A. destruct A as [A A3].
  apply andb_true_iff in A. destruct A as [A1 A2].
  apply negb_true_iff in A1, A2.
  destruct (loaded_model p L) as (m & E & M).
  destruct (airborne_step f p m E M A1 A2) as [S _].
  destruct (IH (step three mapCollider f p) (step_loaded three mapCollider f p L))
    as (J' & F' & S'); [rewrite S; exact J | exact A3 |].
  rewrite J', F', S', S. cbn. rewrite J. cbn.
  rewrite andb_false_r, orb_false_r. auto.
Qed.

End Frames.

(** ** Frames on the ground *)

Section GroundFrames.

Context (three : ThreeMath) (mapCollider : MapCollider).

(** One frame on the ground without reset. *)
Lemma grounded_step f p m :
  model p = Some m -> mixer p = true ->
  grounded_at mapCollider p = true ->
  void_reset three mapCollider f p = false ->
  let q := step three mapCollider f p in
  let moving := is_moving (frame_controls f) in
  sprinting (state q) = (moving && promoted (frame_dt f) p)%bool /\
  walkToSprintTime q
  = (if moving
     then (if sprinting (state p) then walkToSprintTime p
           else walkToSprintTime p + frame_dt f)
     else 0) /\
  timeSinceGrounded q = 0.
Proof.
  intros E M G V q moving. unfold q.
  rewrite (step_simulate three mapCollider f p m E M V).
  unfold grounded_at in G. rewrite E in G.
  rewrite simulate_sprinting, simulate_walkToSprintTime, simulate_timeSinceGrounded, G.
  fold moving. destruct moving; auto.
Qed.

Section Standing.

Context (delta : Q) (controls : Controls) (m : Object3D) (p : Player).

Hypothesis G : sensed mapCollider m p = true.
Hypothesis Still : is_moving controls = false.

Let s := fst (simulate three delta controls mapCollider m p).

Lemma simulate_state_standing :
  state s = mkFlags true false false (jump controls) false.
Proof.
  unfold s, simulate. cbv zeta. fold (sensed mapCollider m p). rewrite G, Still.
  autorewrite with body. cbn [negb andb].
  destruct (ground_check_airborne_flags delta p) as [J F].
  destruct (jump controls); cbn; rewrite ?J, ?F; reflexivity.
Qed.

Lemma simulate_clip_standing :
  has_clip "idle" p -> currentAnimation s = Some "idle"%string.
Proof.
  intros Hi. unfold s.
  pose proof (before_animation_has_clip three delta controls mapCollider m p
                "idle" Hi) as B.
  rewrite simulate_unfold. rewrite G, Still in *.
  unfold animation_state_machine. rewrite fst_andThen. cbn [negb andb].
  rewrite fst_when. unfold grounded_animation. rewrite fst_andThen. cbn.
  apply current_is_false_switch. exact B.
Qed.

End Standing.

(** X6: a frame on the ground with no movement key held, not ended by the
    reset, leaves the player idle: walking and sprinting are cleared, the
    ramp timer is back at 0, falling is cleared and jumping is set only if
    the jump key is held; with the idle clip loaded, idle is the clip at the
    end of the frame, also when the jump key started the jump clip in that
    frame. *)
Theorem standing_still f p :
  loaded p = true -> grounded_at mapCollider p = true ->
  is_moving (frame_controls f) = false ->
  void_reset three mapCollider f p = false ->
  let q := step three mapCollider f p in
  state q = mkFlags true false false (jump (frame_controls f)) false /\
  walkToSprintTime q = 0 /\ timeSinceGrounded q = 0 /\
  (has_clip "idle" p -> currentAnimation q = Some "idle"%string).
Proof.
  intros L G S V q. destruct (loaded_model p L) as (m & E & M).
  destruct (grounded_step f p m E M G V) as (_ & W & T).
  cbv zeta in W, T. rewrite S in W. fold q in W, T.
  split; [|split; [exact W | split; [exact T|]]];
    unfold q; rewrite (step_simulate three mapCollider f p m E M V);
    unfold grounded_at in G; rewrite E in G;
    [apply simulate_state_standing | apply simulate_clip_standing]; assumption.
Qed.

(** X7: once the jump clip has given way, only a reset brings it back.  With
    the idle, walk and sprint clips loaded, a run of frames none of which
    ends in the fail-safe reset, started with another clip than jump current,
    never has the jump clip current at the end of a frame: a jump from the
    ground ends its own frame in the idle, walk or sprint clip. *)
Theorem jump_clip_needs_reset fs p :
  has_clip "idle" p -> has_clip "walk" p -> has_clip "sprint" p ->
  currentAnimation p <> Some "jump"%string ->
  undisturbed three mapCollider fs p = true ->
  currentAnimation (steps three mapCollider fs p) <> Some "jump"%string.
Proof.
  revert p. induction fs as [|f fs IH]; intros p Hi Hw Hs C U;
    cbn [steps undisturbed] in *; [exact C|].
  apply andb_true_iff in U. destruct U as [U1 U2]. apply negb_true_iff in U1.
  assert (K : forall k, has_clip k p -> has_clip k (step three mapCollider f p)).
  { intros k. apply (update_invariant (has_clip k) (has_clip_anims k)
                       (switch_has_clip k)). }
  apply IH; auto.
  destruct (loaded p) eqn:L.
  - destruct (loaded_model p L) as (m & E & M).
    destruct (grounded_at mapCollider p) eqn:G.
    + rewrite (step_simulate three mapCollider f p m E M U1).
      unfold grounded_at in G. rewrite E in G.
      rewrite (simulate_grounded_current three _ _ mapCollider m p G Hi Hw Hs).
      unfold desiredAnim.
      destruct (is_moving _); [destruct (sprinting _)|]; discriminate.
    + destruct (airborne_step three mapCollider f p m E M G U1) as [_ K1].
      cbv zeta in K1. rewrite (K1 Hi).
      destruct (_ || _)%bool; [discriminate|exact C].
  - unfold step. rewrite (update_unloaded three _ _ mapCollider p L). exact C.
Qed.

End GroundFrames.

(** ** Timers in the air and on the ground *)

Section Timers.

Context (three : ThreeMath) (mapCollider : MapCollider).

(** One airborne frame adds its length to the timer. *)
Lemma airborne_step_timer f p :
  loaded p = true -> grounded_at mapCollider p = false ->
  void_reset three mapCollider f p = false ->
  timeSinceGrounded (step three mapCollider f p)
  = timeSinceGrounded p + frame_dt f.
Proof.
  intros L G V. destruct (loaded_model p L) as (m & E & M).
  rewrite (step_simulate three mapCollider f p m E M V), simulate_timeSinceGrounded.
  unfold grounded_at in G. rewrite E in G. rewrite G. reflexivity.
Qed.

Lemma airborne_timer_le fs p :
  loaded p = true -> airborne three mapCollider fs p = true ->
  forward_in_time fs ->
  timeSinceGrounded p <= timeSinceGrounded (steps three mapCollider fs p).
Proof.
  revert p. induction fs as [|f fs IH]; intros p L A T; cbn [steps airborne] in *;
    [apply Qle_refl|].
  apply andb_true_iff in A. destruct A as [A A3].
  apply andb_true_iff in A. destruct A as [A1 A2].
  apply negb_true_iff in A1, A2.
  assert (D : 0 <= frame_dt f) by (apply T; left; reflexivity).
  assert (T' : forward_in_time fs) by (intros x Hx; apply T; right; exact Hx).
  pose proof (IH _ (step_loaded three mapCollider f p L) A3 T') as H.
  rewrite (airborne_step_timer f p L A1 A2) in H. lra.
Qed.

(** X1: in the air the timer only goes up.  Through a run of airborne frames
    of non-negative length, none ended by the reset, [timeSinceGrounded] never
    decreases, so a debounced grounded signal that is off stays off: only a
    frame whose ray finds the ground turns it on.  A timer that started at 0
    or more ends at least as large as the length of each frame of the run. *)
Theorem grounded_signal_stays_off_in_the_air fs p :
  loaded p = true -> airborne three mapCollider fs p = true ->
  forward_in_time fs ->
  let q := steps three mapCollider fs p in
  timeSinceGrounded p <= timeSinceGrounded q /\
  (groundedDebounced p = false -> groundedDebounced q = false) /\
  (0 <= timeSinceGrounded p ->
   forall f, In f fs -> frame_dt f <= timeSinceGrounded q).
Proof.
  intros L A T q.
  pose proof (airborne_timer_le fs p L A T) as H. fold q in H.
  split; [exact H|]. split.
  - unfold groundedDebounced. intros Off. apply ltb_ge in Off. apply ltb_ge. lra.
  - intros P. unfold q. clear q H. revert p L A P.
    induction fs as [|g fs IH]; intros p L A P f Hf; [destruct Hf|].
    cbn [steps airborne] in *.
    apply andb_true_iff in A. destruct A as [A A3].
    apply andb_true_iff in A. destruct A as [A1 A2].
    apply negb_true_iff in A1, A2.
    assert (D : 0 <= frame_dt g) by (apply T; left; reflexivity).
    assert (T' : forward_in_time fs) by (intros x Hx; apply T; right; exact Hx).
    pose proof (step_loaded three mapCollider g p L) as L1.
    pose proof (airborne_step_timer g p L A1 A2) as S.
    destruct Hf as [<-|Hf].
    + pose proof (airborne_timer_le fs _ L1 A3 T') as H. rewrite S in H. lra.
    + apply (IH T' _ L1 A3); [rewrite S; lra | exact Hf].
Qed.

(** X4: a player that left the ground without jumping is marked falling once
    the timer has passed the buffer time: after a non-empty run of airborne
    frames of non-negative length that starts with the jumping flag clear,
    jumping is still clear, and falling is set exactly when it was set before
    or [timeSinceGrounded] as the run leaves it exceeds 0.2. *)
Theorem walking_off_sets_falling f fs p :
  loaded p = true -> jumping (state p) = false ->
  airborne three mapCollider (f :: fs) p = true ->
  forward_in_time (f :: fs) ->
  let q := steps three mapCollider (f :: fs) p in
  jumping (state q) = false /\
  falling (state q)
  = (falling (state p) || (timeSinceGrounded q >? GROUNDED_BUFFER_TIME))%bool.
Proof.
  revert f p. induction fs as [|g fs IH]; intros f p L J A T.
  - cbn [steps airborne] in *. rewrite andb_true_r in A.
    apply andb_true_iff in A. destruct A as [A1 A2].
    apply negb_true_iff in A1, A2.
    destruct (loaded_model p L) as (m & E & M).
    destruct (airborne_step three mapCollider f p m E M A1 A2) as [S _].
    rewrite (airborne_step_timer f p L A1 A2).
    rewrite S. cbn. rewrite J. cbn. rewrite andb_true_r. auto.
  - change (steps three mapCollider (f :: g :: fs) p)
      with (steps three mapCollider (g :: fs) (step three mapCollider f p)).
    cbv zeta.
    change (airborne three mapCollider (f :: g :: fs) p)
      with (negb (grounded_at mapCollider p)
            && negb (void_reset three mapCollider f p)
            && airborne three mapCollider (g :: fs)
                 (step three mapCollider f p))%bool in A.
    apply andb_true_iff in A. destruct A as [A A3].
    apply andb_true_iff in A. destruct A as [A1 A2].
    apply negb_true_iff in A1, A2.
    destruct (loaded_model p L) as (m & E & M).
    destruct (airborne_step three mapCollider f p m E M A1 A2) as [S _].
    assert (T' : forward_in_time (g :: fs))
      by (intros x Hx; apply T; right; exact Hx).
    pose proof (step_loaded three mapCollider f p L) as L1.
    destruct (IH g (step three mapCollider f p) L1) as [J' F'];
      [rewrite S; exact J | exact A3 | exact T' |].
    cbv zeta in J', F'. split; [exact J'|]. rewrite F'.
    pose proof (airborne_timer_le (g :: fs) _ L1 A3 T') as H.
    pose proof (airborne_step_timer f p L A1 A2) as Tq.
    rewrite S. cbn [falling]. rewrite J. cbn [negb]. rewrite andb_true_r.
    rewrite <- Tq. clear Tq.
    set (t1 := timeSinceGrounded (step three mapCollider f p)) in *.
    set (t := timeSinceGrounded
                (steps three mapCollider (g :: fs) (step three mapCollider f p)))
      in *.
    destruct (falling (state p)); cbn [orb]; [reflexivity|].
    destruct (t1 >? GROUNDED_BUFFER_TIME) eqn:C1;
      destruct (t >? GROUNDED_BUFFER_TIME) eqn:C2;
      cbn; try reflexivity; ltb_hyps; lra.
Qed.

(** A frame on the ground with a movement key held keeps the sprint flag in
    step with the ramp timer. *)
Lemma striding_step_ramp f p :
  loaded p = true ->
  grounded_at mapCollider p = true -> is_moving (frame_controls f) = true ->
  void_reset three mapCollider f p = false ->
  let q := step three mapCollider f p in
  sprinting (state q)
  = (sprinting (state p) || (walkToSprintTime p + frame_dt f >? 1.0))%bool /\
  walkToSprintTime q
  = (if sprinting (state p) then walkToSprintTime p
     else walkToSprintTime p + frame_dt f).
Proof.
  intros L G Mv V q. destruct (loaded_model p L) as (m & E & M).
  destruct (grounded_step three mapCollider f p m E M G V) as (S & W & _).
  cbv zeta in S, W. rewrite Mv in S, W. cbn [andb] in S. fold q in S, W.
  split; [exact S | exact W].
Qed.

Lemma striding_ramp fs p :
  loaded p = true ->
  sprinting (state p) = (walkToSprintTime p >? 1.0) ->
  striding three mapCollider fs p = true ->
  let q := steps three mapCollider fs p in
  sprinting (state q) = (walkToSprintTime q >? 1.0).
Proof.
  revert p. induction fs as [|f fs IH]; intros p L I A; cbn [steps striding] in *;
    [exact I|].
  apply andb_true_iff in A. destruct A as [A A4].
  apply andb_true_iff in A. destruct A as [A A3].
  apply andb_true_iff in A. destruct A as [A1 A2].
  apply negb_true_iff in A3.
  destruct (striding_step_ramp f p L A1 A2 A3) as [S W]. cbv zeta in S, W.
  apply IH; [apply step_loaded; exact L | | exact A4].
  rewrite S, W. destruct (sprinting (state p)); cbn [orb]; [exact I | reflexivity].
Qed.

Lemma striding_ramp_le fs p :
  loaded p = true -> striding three mapCollider fs p = true ->
  forward_in_time fs ->
  walkToSprintTime p <= walkToSprintTime (steps three mapCollider fs p).
Proof.
  revert p. induction fs as [|f fs IH]; intros p L A T; cbn [steps striding] in *;
    [apply Qle_refl|].
  apply andb_true_iff in A. destruct A as [A A4].
  apply andb_true_iff in A. destruct A as [A A3].
  apply andb_true_iff in A. destruct A as [A1 A2].
  apply negb_true_iff in A3.
  destruct (striding_step_ramp f p L A1 A2 A3) as [_ W]. cbv zeta in W.
  assert (D : 0 <= frame_dt f) by (apply T; left; reflexivity).
  assert (T' : forward_in_time fs) by (intros x Hx; apply T; right; exact Hx).
  pose proof (IH _ (step_loaded three mapCollider f p L) A4 T') as H.
  rewrite W in H. destruct (sprinting (state p)); lra.
Qed.

(** X5: the walk-to-sprint ramp.  Over one or more frames spent on the ground
    with a movement key held, none ended by the reset, starting without the
    sprint flag, the player is sprinting after the run exactly when the ramp
    timer, as the run leaves it, exceeds 1.0; and with frames of non-negative
    length the ramp timer never goes down. *)
Theorem sprint_follows_ramp_timer f fs p :
  loaded p = true -> sprinting (state p) = false ->
  striding three mapCollider (f :: fs) p = true ->
  let q := steps three mapCollider (f :: fs) p in
  sprinting (state q) = (walkToSprintTime q >? 1.0) /\
  (forward_in_time (f :: fs) -> walkToSprintTime p <= walkToSprintTime q).
Proof.
  intros L S A q. split.
  - unfold q. clear q.
    change (steps three mapCollider (f :: fs) p)
      with (steps three mapCollider fs (step three mapCollider f p)).
    change (striding three mapCollider (f :: fs) p)
      with (grounded_at mapCollider p && is_moving (frame_controls f)
            && negb (void_reset three mapCollider f p)
            && striding three mapCollider fs (step three mapCollider f p))%bool in A.
    apply andb_true_iff in A. destruct A as [A A4].
    apply andb_true_iff in A. destruct A as [A A3].
    apply andb_true_iff in A. destruct A as [A1 A2].
    apply negb_true_iff in A3.
    destruct (striding_step_ramp f p L A1 A2 A3) as [S1 W1]. cbv zeta in S1, W1.
    apply striding_ramp; [apply step_loaded; exact L | | exact A4].
    rewrite S1, W1, S. reflexivity.
  - intros T. apply striding_ramp_le; assumption.
Qed.

End Timers.

(** ** What stays fixed after loading *)

Section Fixed.

Context (three : ThreeMath) (mapCollider : MapCollider).

Lemma update_fixed dt cs p :
  spawnPoint (fst (update three dt cs mapCollider p)) = spawnPoint p /\
  feetOffset (fst (update three dt cs mapCollider p)) = feetOffset p.
Proof.
  destruct (loaded p) eqn:L.
  - destruct (loaded_model p L) as (m & E & M).
    rewrite (update_loaded three dt cs mapCollider p m E M). cbv zeta.
    pose proof (simulate_model_some three dt cs mapCollider m p E) as S.
    destruct (model_y _ <? -50).
    + destruct (reset_same_body _ S) as (_ & _ & -> & _ & _ & _ & _ & ->). cbn.
      rewrite simulate_spawnPoint, simulate_feetOffset. auto.
    + rewrite simulate_spawnPoint, simulate_feetOffset. auto.
  - rewrite (update_unloaded three dt cs mapCollider p L). auto.
Qed.

Lemma reset_fixed p :
  spawnPoint (fst (reset p)) = spawnPoint p /\
  feetOffset (fst (reset p)) = feetOffset p.
Proof.
  destruct (model p) as [m|] eqn:E.
  - destruct (reset_same_body p) as (_ & _ & -> & _ & _ & _ & _ & ->);
      [congruence|]. auto.
  - rewrite (reset_unloaded p E). auto.
Qed.

(** X8: the spawn point and the feet offset are written by [load] only: any
    run of frames, with or without fail-safe resets in it, and any [reset]
    leave both as they were, and a loaded player stays loaded; so every
    respawn puts the model on the one spawn point. *)
Theorem spawn_point_and_feet_offset_fixed fs p :
  let q := steps three mapCollider fs p in
  spawnPoint q = spawnPoint p /\ feetOffset q = feetOffset p /\
  loaded q = loaded p /\
  spawnPoint (fst (reset q)) = spawnPoint p /\
  feetOffset (fst (reset q)) = feetOffset p /\
  (loaded p = true ->
   model (fst (reset q)) = Some (mkObject3D (spawnPoint p) 0 Js.Math_PI)).
Proof.
  cbv zeta.
  assert (H : spawnPoint (steps three mapCollider fs p) = spawnPoint p /\
              feetOffset (steps three mapCollider fs p) = feetOffset p /\
              loaded (steps three mapCollider fs p) = loaded p).
  { revert p. induction fs as [|f fs IH]; intros p; cbn [steps]; [auto|].
    destruct (IH (step three mapCollider f p)) as (-> & -> & ->).
    unfold step. destruct (update_fixed (frame_dt f) (frame_controls f) p)
      as [-> ->].
    repeat split.
    destruct (loaded p) eqn:L.
    - apply (step_loaded three mapCollider f p L).
    - rewrite (update_unloaded three _ _ mapCollider p L). exact L. }
  destruct H as (S & F & L).
  destruct (reset_fixed (steps three mapCollider fs p)) as [S' F'].
  rewrite S', F', S, F, L. repeat split.
  intros Lp. rewrite Lp in L.
  destruct (loaded_model _ L) as (m & E & _).
  destruct (reset_same_body (steps three mapCollider fs p)) as [-> _];
    [congruence|]. cbn. rewrite S. reflexivity.
Qed.

End Fixed.

(** ** One active clip *)

Lemma one_clip_active_anims p q :
  same_anims p q -> one_clip_active p -> one_clip_active q.
Proof. unfold one_clip_active. intros [-> ->]. auto. Qed.

Lemma switch_one_clip_active name fade p :
  one_clip_active p -> one_clip_active (fst (_switchAnimation name fade p)).
Proof.
  unfold one_clip_active, _switchAnimation. intros Hp.
  destruct (animations p !! name) as [t|] eqn:T; [|exact Hp].
  destruct (current_is name p) eqn:C; [exact Hp|]. cbn.
  intros k a H.
  assert (R : exists b,
             alter Action.restart name
               (alter Action.stop (animation_key (currentAnimation p))
                      (animations p)) !! k = Some b /\ active a = active b).
  { destruct (String.eqb name "jump"); [|eauto].
    apply lookup_alter_Some in H.
    destruct H as [[_ (x & Hx & ->)] | [_ H]]; eauto. }
  destruct R as (b & Hb & ->). clear H a.
  apply lookup_alter_Some in Hb.
  destruct Hb as [[<- (x & Hx & ->)] | [Hk Hb]].
  - cbn. split; reflexivity || auto.
  - assert (N : Some name <> Some k) by congruence.
    split; [|intros X; congruence].
    intros A. exfalso.
    apply lookup_alter_Some in Hb.
    destruct Hb as [[Hp' (x & Hx & ->)] | [Hp' Hb]]; [discriminate A|].
    apply (Hp k b Hb) in A. rewrite A in Hp'. cbn in Hp'. congruence.
Qed.

Lemma load_one_clip_active gltf mc :
  one_clip_active (fst (load gltf mc Player_new)).
Proof.
  unfold load. cbv zeta. apply switch_one_clip_active.
  unfold one_clip_active. cbn [animations currentAnimation Player_new].
  intros k a. rewrite lookup_fmap. intros H.
  destruct (register_clips _ _ !! k) as [x|]; cbn in H; [|discriminate].
  injection H as <-. cbn. split; discriminate.
Qed.

(** X9: in every reachable player an action is active exactly when it is the
    action of the current clip; so at most one clip plays at a time, and
    none before the first switch. *)
Theorem one_clip_plays three p :
  reachable three p ->
  one_clip_active p /\
  (forall k k' a a', animations p !! k = Some a -> animations p !! k' = Some a' ->
                     active a = true -> active a' = true -> k = k').
Proof.
  intros R.
  assert (H : one_clip_active p).
  { induction R as [|gltf mc|dt cs mc p R IH|p R IH].
    - unfold one_clip_active. cbn. intros k a. rewrite lookup_empty. discriminate.
    - apply load_one_clip_active.
    - apply (update_invariant one_clip_active one_clip_active_anims
               switch_one_clip_active). exact IH.
    - apply (reset_invariant one_clip_active one_clip_active_anims
               switch_one_clip_active). exact IH. }
  split; [exact H|].
  intros k k' a a' Hk Hk' A A'.
  apply (H k a Hk) in A. apply (H k' a' Hk') in A'. congruence.
Qed.

(** ** Loading *)

Lemma switch_has_clip_eq k name fade p :
  has_clip k (fst (_switchAnimation name fade p)) = has_clip k p.
Proof.
  unfold has_clip, _switchAnimation.
  destruct (animations p !! name); [|reflexivity].
  destruct (current_is name p); [reflexivity|]. cbn.
  assert (E : forall (f : AnimationAction -> AnimationAction) i
                     (m : gmap string AnimationAction),
             match alter f i m !! k with Some _ => true | None => false end
             = match m !! k with Some _ => true | None => false end).
  { intros f i m. rewrite lookup_alter. case_decide; [subst|reflexivity].
    destruct (m !! k); reflexivity. }
  destruct (String.eqb name "jump"); rewrite !E; reflexivity.
Qed.

Lemma register_clips_has k names (a : gmap string AnimationAction) :
  match register_clips names a !! k with Some _ => true | None => false end
  = (match a !! k with Some _ => true | None => false end
     || (existsb (fun n => String.eqb (clip_key n) k) names
         && negb (String.eqb k "grounded")))%bool.
Proof.
  revert a. induction names as [|n names IH]; intros a; cbn [register_clips existsb].
  - rewrite orb_false_r. reflexivity.
  - destruct (String.eqb_spec (clip_key n) "grounded") as [G|G]; rewrite IH.
    + destruct (String.eqb_spec (clip_key n) k) as [K|K]; cbn [orb]; [|reflexivity].
      subst k. assert (T : String.eqb (clip_key n) "grounded" = true)
        by (apply String.eqb_eq; exact G).
      rewrite T. cbn [negb]. rewrite !andb_false_r. reflexivity.
    + rewrite lookup_insert.
      destruct (String.eqb_spec (clip_key n) k) as [K|K]; cbn [orb].
      * subst k. rewrite decide_True by reflexivity.
        assert (F : String.eqb (clip_key n) "grounded" = false)
          by (apply String.eqb_neq; exact G).
        rewrite F. cbn. rewrite orb_true_r. reflexivity.
      * rewrite decide_False by exact K. reflexivity.
Qed.

(** X10: what [load] leaves in a new player.  A key is in the animation map
    exactly when it is the key of one of the file's clips and is not
    ["grounded"]; the jump clip is current when the file has one, and no clip
    otherwise; the model stands on the spawn point, 240 above the top of the
    map over its centre, turned by pi; the feet offset is minus the lowest
    point of the model; flags, velocity and timers are the constructor's. *)
Theorem load_registers_clips gltf mc k :
  let q := fst (load gltf mc Player_new) in
  has_clip k q
  = (existsb (fun n => String.eqb (clip_key n) k) (gltf_animations gltf)
     && negb (String.eqb k "grounded"))%bool /\
  has_clip "grounded" q = false /\
  currentAnimation q = (if has_clip "jump" q then Some "jump"%string else None) /\
  model q
  = Some (mkObject3D (mkVector3 (vx (worldBox_center mc))
                                (worldBox_max_y mc + SPAWN_ALTITUDE)
                                (vz (worldBox_center mc)))
                     (rotation_x (gltf_scene gltf)) Js.Math_PI) /\
  spawnPoint q = mkVector3 (vx (worldBox_center mc))
                           (worldBox_max_y mc + SPAWN_ALTITUDE)
                           (vz (worldBox_center mc)) /\
  feetOffset q = - gltf_bbox_min_y gltf /\
  loaded q = true /\
  state q = state Player_new /\
  verticalVelocity q = verticalVelocity Player_new /\
  walkToSprintTime q = walkToSprintTime Player_new /\
  timeSinceGrounded q = timeSinceGrounded Player_new.
Proof.
  cbv zeta.
  assert (H : forall k',
             has_clip k' (fst (load gltf mc Player_new))
             = (existsb (fun n => String.eqb (clip_key n) k') (gltf_animations gltf)
                && negb (String.eqb k' "grounded"))%bool).
  { intros k'. unfold load. cbv zeta. rewrite switch_has_clip_eq.
    unfold has_clip. cbn [animations Player_new]. rewrite lookup_fmap.
    pose proof (register_clips_has k' (gltf_animations gltf) ∅) as R.
    rewrite lookup_empty in R. cbn [orb] in R. rewrite <- R.
    destruct (register_clips _ _ !! k'); reflexivity. }
  split; [apply H|].
  split; [rewrite H; rewrite andb_false_r; reflexivity|].
  unfold load. cbv zeta.
  match goal with
  | |- context [_switchAnimation ?n ?f ?r] =>
      destruct (switch_same_body n f r) as (B1 & B2 & B3 & B4 & B5 & B6 & B7 & B8);
      set (loadedPlayer := r) in *
  end.
  unfold loaded. rewrite B1, B2, B3, B4, B5, B6, B7, B8.
  split.
  { rewrite switch_has_clip_eq.
    destruct (has_clip "jump" loadedPlayer) eqn:J.
    - apply switch_sets_current. rewrite J. exact I.
    - unfold _switchAnimation. unfold has_clip in J.
      destruct (animations loadedPlayer !! "jump"%string); [discriminate|].
      reflexivity. }
  cbn. repeat split.
Qed.

(** What [split] does with the first bar. *)
Lemma split_bar_free s : bar_free s = true -> Str.split "|" s = [s].
Proof.
  induction s as [|a r IH]; cbn [Str.split bar_free]; [reflexivity|].
  intros H. apply andb_true_iff in H. destruct H as [H1 H2].
  apply negb_true_iff in H1. rewrite H1, (IH H2). reflexivity.
Qed.

Lemma split_at_bar pre rest :
  bar_free pre = true ->
  Str.split "|" (pre ++ String "|" rest)%string = pre :: Str.split "|" rest.
Proof.
  induction pre as [|a r IH].
  - intros _. reflexivity.
  - cbn [bar_free]. intros H. apply andb_true_iff in H. destruct H as [H1 H2].
    apply negb_true_iff in H1.
    change (Str.split "|" (String a (r ++ String "|" rest))%string
            = String a r :: Str.split "|" rest).
    cbn [Str.split]. rewrite H1, (IH H2). reflexivity.
Qed.

Lemma lower_ascii_idempotent a : Str.lower_ascii (Str.lower_ascii a) = Str.lower_ascii a.
Proof.
  destruct a as [[] [] [] [] [] [] [] []]; reflexivity.
Qed.

Lemma toLowerCase_idempotent s :
  Str.toLowerCase (Str.toLowerCase s) = Str.toLowerCase s.
Proof.
  induction s as [|a r IH]; cbn; [reflexivity|].
  rewrite lower_ascii_idempotent, IH. reflexivity.
Qed.

Lemma toLowerCase_empty s : Str.toLowerCase s = EmptyString -> s = EmptyString.
Proof. destruct s; [reflexivity|discriminate]. Qed.

(** X11: the key of a clip.  A name without a bar is keyed by its lower-case
    form; a name [pre|mid] or [pre|mid|rest] with a non-empty [mid] is keyed
    by the lower-case form of [mid]; when nothing stands between the first
    bar and the next bar or the end, the key is the whole name in lower
    case; and every key is in lower case. *)
Theorem clip_key_cases pre mid rest :
  bar_free pre = true -> bar_free mid = true ->
  clip_key pre = Str.toLowerCase pre /\
  (mid <> EmptyString ->
   clip_key (pre ++ String "|" mid)%string = Str.toLowerCase mid /\
   clip_key (pre ++ String "|" (mid ++ String "|" rest))%string
   = Str.toLowerCase mid) /\
  clip_key (pre ++ String "|" EmptyString)%string
  = Str.toLowerCase (pre ++ String "|" EmptyString)%string /\
  clip_key (pre ++ String "|" (String "|" rest))%string
  = Str.toLowerCase (pre ++ String "|" (String "|" rest))%string /\
  (forall name, Str.toLowerCase (clip_key name) = clip_key name).
Proof.
  intros P M.
  split; [unfold clip_key; rewrite (split_bar_free pre P); reflexivity|].
  split.
  { intros N.
    assert (L : String.eqb (Str.toLowerCase mid) "" = false).
    { apply String.eqb_neq. intros H. apply N, toLowerCase_empty, H. }
    split; unfold clip_key; rewrite (split_at_bar pre _ P).
    - rewrite (split_bar_free mid M). cbn. rewrite L. reflexivity.
    - rewrite (split_at_bar mid _ M). cbn. rewrite L. reflexivity. }
  split; [unfold clip_key; rewrite (split_at_bar pre _ P); reflexivity|].
  split; [unfold clip_key; rewrite (split_at_bar pre _ P); reflexivity|].
  intros name. unfold clip_key.
  destruct (nth_error _ 1) as [s|]; [|apply toLowerCase_idempotent].
  cbv zeta. destruct (String.eqb _ ""); apply toLowerCase_idempotent.
Qed.

(** ** Forward and backward together *)

(** X12: while the backward key is held the forward key decides nothing: the
    frame is the same with it down or up, the player steps backward. *)
Theorem backward_overrides_forward three dt controls mc p :
  backward controls = true ->
  update three dt (toggle_forward controls) mc p = update three dt controls mc p /\
  input_dir controls = mkVector3 0 0 (-1).
Proof.
  intros B. destruct controls as [f b l r j ml]. cbn in B. subst b.
  unfold toggle_forward. cbn [forward backward left right jump mouseLookActive].
  split; [|unfold input_dir; cbn; reflexivity].
  unfold update, simulate, movement_input, step_vector, is_moving, input_dir, turn,
    jump_input.
  cbn [forward backward left right jump mouseLookActive].
  rewrite !orb_true_r. reflexivity.
Qed.

(** ** The easing curve *)

Lemma cube_le (a b : Q) : 0 <= a -> a <= b -> a * a * a <= b * b * b.
Proof.
  intros Ha Hab.
  assert (H1 : a * a <= b * b) by nra.
  assert (H2 : 0 <= a * a) by nra.
  nra.
Qed.

Lemma easeInOutCubic_low t : t < 0.5 -> easeInOutCubic t = 4 * t * t * t.
Proof.
  intros H. unfold easeInOutCubic. apply ltb_lt in H. rewrite H. reflexivity.
Qed.

Lemma easeInOutCubic_high t :
  0.5 <= t -> easeInOutCubic t = 1 - Js.pow3 (-2 * t + 2) / 2.
Proof.
  intros H. unfold easeInOutCubic. apply ltb_ge in H. rewrite H. reflexivity.
Qed.

Lemma ease_low_bounds t : 0 <= t -> t < 0.5 -> 0 <= 4 * t * t * t <= 0.5.
Proof.
  intros H0 H1.
  pose proof (cube_le 0 t (Qle_refl 0) H0) as A.
  pose proof (cube_le t 0.5 H0 (Qlt_le_weak _ _ H1)) as B.
  split; [nra|]. 
  assert (E : 0.5 * 0.5 * 0.5 == 1 # 8) by reflexivity.
  rewrite E in B. lra.
Qed.

Lemma ease_high_bounds t :
  0.5 <= t -> t <= 1 -> 0.5 <= 1 - Js.pow3 (-2 * t + 2) / 2 <= 1.
Proof.
  intros H0 H1. unfold Js.pow3.
  set (x := -2 * t + 2).
  assert (X0 : 0 <= x) by (unfold x; lra).
  assert (X1 : x <= 1) by (unfold x; lra).
  pose proof (cube_le 0 x (Qle_refl 0) X0) as A.
  pose proof (cube_le x 1 X0 X1) as B.
  assert (E : forall y, y / 2 == y * (1 # 2)) by (intros y; field).
  rewrite E. split; lra.
Qed.

(** X13: the easing of the cinematic fall maps [[0,1]] into [[0,1]] without
    overshoot: it is 0 at 0, one half at one half and 1 at 1, and it never
    decreases. *)
Theorem easeInOutCubic_eases t u :
  0 <= t -> t <= u -> u <= 1 ->
  easeInOutCubic 0 == 0 /\ easeInOutCubic (1 # 2) == 1 # 2 /\
  easeInOutCubic 1 == 1 /\
  0 <= easeInOutCubic t /\ easeInOutCubic t <= easeInOutCubic u /\
  easeInOutCubic u <= 1.
Proof.
  intros H0 Htu H1.
  split; [reflexivity|]. split; [reflexivity|]. split; [reflexivity|].
  destruct (Qlt_le_dec t 0.5) as [Lt|Lt], (Qlt_le_dec u 0.5) as [Lu|Lu].
  - rewrite (easeInOutCubic_low t Lt), (easeInOutCubic_low u Lu).
    pose proof (ease_low_bounds t H0 Lt) as [A _].
    pose proof (ease_low_bounds u (Qle_trans _ _ _ H0 Htu) Lu) as [_ B].
    pose proof (cube_le t u H0 Htu) as C.
    split; [exact A|]. split; lra.
  - rewrite (easeInOutCubic_low t Lt), (easeInOutCubic_high u Lu).
    pose proof (ease_low_bounds t H0 Lt) as [A A'].
    pose proof (ease_high_bounds u Lu H1) as [B B'].
    split; [exact A|]. split; lra.
  - lra.
  - rewrite (easeInOutCubic_high t Lt), (easeInOutCubic_high u Lu).
    pose proof (ease_high_bounds t Lt (Qle_trans _ _ _ Htu H1)) as [A A'].
    pose proof (ease_high_bounds u Lu H1) as [B B'].
    split; [lra|]. split; [|exact B'].
    unfold Js.pow3.
    assert (C : (-2 * u + 2) * (-2 * u + 2) * (-2 * u + 2)
                <= (-2 * t + 2) * (-2 * t + 2) * (-2 * t + 2))
      by (apply cube_le; lra).
    assert (E : forall y, y / 2 == y * (1 # 2)) by (intros y; field).
    rewrite !E. lra.
Qed.

(** ** Angles that agree *)

Lemma trunc_comp (p q : Q) : p == q -> Js.trunc p = Js.trunc q.
Proof.
  unfold Js.trunc, Qeq. intros H.
  rewrite <- (Z.quot_mul_cancel_r (Qnum p) (QDen p) (QDen q)) by lia.
  rewrite <- (Z.quot_mul_cancel_r (Qnum q) (QDen q) (QDen p)) by lia.
  rewrite H. f_equal. lia.
Qed.

Lemma rem_comp (x x' y : Q) : x == x' -> Js.rem x y == Js.rem x' y.
Proof.
  intros H. unfold Js.rem.
  assert (T : Js.trunc (x / y) = Js.trunc (x' / y))
    by (apply trunc_comp; rewrite H; reflexivity).
  rewrite T, H. reflexivity.
Qed.

Lemma shortestAngleDiff_same (a b : Q) : a == b -> _shortestAngleDiff a b == 0.
Proof.
  intros H. unfold _shortestAngleDiff.
  assert (R : Js.rem (b - a + Js.Math_PI) (Js.Math_PI * 2) == Js.Math_PI).
  { rewrite (rem_comp _ Js.Math_PI) by lra. vm_compute. reflexivity. }
  assert (L : (Js.rem (b - a + Js.Math_PI) (Js.Math_PI * 2) - Js.Math_PI
               <? - Js.Math_PI) = false).
  { apply ltb_ge. rewrite R. vm_compute. discriminate. }
  rewrite L, R. ring.
Qed.

(** ** The camera's own fields *)

Section CameraFields.

Context (three : ThreeMath).

Lemma smooth_fields forceImmediate tp tl c :
  let c' := smooth three forceImmediate tp tl c in
  mode c' = mode c /\ polar c' = polar c /\ azimuth c' = azimuth c /\
  cam_distance c' = cam_distance c /\ mapCenter c' = mapCenter c /\
  cinematicTimer c' = cinematicTimer c /\
  camera_position (camera c')
  = (if forceImmediate then tp
     else Vec.lerp (camera_position (camera c)) tp CAMERA_SMOOTHING) /\
  smoothedLookAt c'
  = (if forceImmediate then tl
     else Vec.lerp (smoothedLookAt c) tl CAMERA_SMOOTHING).
Proof. unfold smooth. destruct forceImmediate; cbn; repeat split. Qed.

Lemma GameCamera_update_fields cs target delta forceImmediate c :
  let c' := GameCamera_update three cs target delta forceImmediate c in
  mode c' = mode c /\ polar c' = polar c /\
  cam_distance c' = cam_distance c /\ mapCenter c' = mapCenter c /\
  azimuth c'
  = (match mode c with
     | CINEMATIC_FALL => azimuth c
     | THIRD_PERSON =>
         if mouseLookActive cs then azimuth c
         else lerpAngle (azimuth c) (rotation_y target + Js.Math_PI) 0.1
     end) /\
  cinematicTimer c'
  = (match mode c with
     | CINEMATIC_FALL => cinematicTimer c + delta
     | THIRD_PERSON => cinematicTimer c
     end).
Proof.
  cbv zeta. unfold GameCamera_update.
  destruct (mode c) eqn:M; cbv zeta.
  - match goal with
    | |- context [smooth three ?f ?tp ?tl ?k] =>
        destruct (smooth_fields f tp tl k) as (-> & -> & -> & -> & -> & -> & _)
    end.
    cbn. rewrite M. repeat split.
  - match goal with
    | |- context [smooth three ?f ?tp ?tl ?k] =>
        destruct (smooth_fields f tp tl k) as (-> & -> & -> & -> & -> & -> & _)
    end.
    destruct (mouseLookActive cs); cbn; rewrite M; repeat split.
Qed.

(** X14: what a camera update leaves alone.  It never changes the mode, the
    polar angle, the distance or the map centre; it changes the azimuth only
    in third person with mouse look off, and then by a tenth of the shortest
    difference to the angle behind the player; it advances the cinematic
    timer by [delta] in the cinematic fall and not at all in third person. *)
Theorem camera_update_frame cs target delta forceImmediate c :
  let c' := GameCamera_update three cs target delta forceImmediate c in
  mode c' = mode c /\ polar c' = polar c /\
  cam_distance c' = cam_distance c /\ mapCenter c' = mapCenter c /\
  azimuth c'
  = (match mode c with
     | CINEMATIC_FALL => azimuth c
     | THIRD_PERSON =>
         if mouseLookActive cs then azimuth c
         else lerpAngle (azimuth c) (rotation_y target + Js.Math_PI) 0.1
     end) /\
  cinematicTimer c'
  = (match mode c with
     | CINEMATIC_FALL => cinematicTimer c + delta
     | THIRD_PERSON => cinematicTimer c
     end).
Proof.
  cbv zeta. unfold GameCamera_update.
  destruct (mode c) eqn:M; cbv zeta.
  - match goal with
    | |- context [smooth three ?f ?tp ?tl ?k] =>
        destruct (smooth_fields f tp tl k) as (-> & -> & -> & -> & -> & -> & _)
    end.
    cbn. rewrite M. repeat split.
  - match goal with
    | |- context [smooth three ?f ?tp ?tl ?k] =>
        destruct (smooth_fields f tp tl k) as (-> & -> & -> & -> & -> & -> & _)
    end.
    destruct (mouseLookActive cs); cbn; rewrite M; repeat split.
Qed.

(** X15: in third person the camera is not put below the height 0.5: a forced
    update puts it at 0.5 or higher, and a smoothed update keeps it at 0.5
    or higher once it is there. *)
Theorem third_person_camera_floor cs target delta forceImmediate c :
  mode c = THIRD_PERSON ->
  forceImmediate = true \/ 0.5 <= vy (camera_position (camera c)) ->
  0.5 <= vy (camera_position
               (camera (GameCamera_update three cs target delta forceImmediate c))).
Proof.
  intros M H. unfold GameCamera_update. rewrite M. cbv zeta.
  match goal with
  | |- context [smooth three ?f ?tp ?tl ?k] =>
      destruct (smooth_fields f tp tl k) as (_ & _ & _ & _ & _ & _ & -> & _);
      set (goal_position := tp);
      assert (F : 0.5 <= vy goal_position)
  end.
  { unfold goal_position.
    match goal with
    | |- context [if ?b then _ else _] => destruct b eqn:B
    end; [discriminate | apply ltb_ge in B; exact B]. }
  destruct forceImmediate; [exact F|].
  destruct H as [H|H]; [discriminate|].
  assert (K : vy (camera_position (camera
                (if negb (mouseLookActive cs)
                 then set_azimuth (lerpAngle (azimuth c)
                                     (rotation_y target + Js.Math_PI) 0.1) c
                 else c))) = vy (camera_position (camera c)))
    by (destruct (negb (mouseLookActive cs)); reflexivity).
  unfold Vec.lerp. cbn [vy]. rewrite K. unfold CAMERA_SMOOTHING.
  set (y := vy (camera_position (camera c))) in *.
  set (g := vy goal_position) in *. lra.
Qed.

(** X16: the landing frame leaves no swing.  When the debounced signal
    switches the camera to third person, the azimuth at the end of that frame
    is the angle behind the player, yaw plus pi, whatever it was before. *)
Theorem landing_sets_azimuth_behind_player dt cs p target c :
  model p = Some target -> groundedDebounced p = true ->
  mode c = CINEMATIC_FALL ->
  let c' := camera_frame three dt cs p c in
  mode c' = THIRD_PERSON /\ azimuth c' == rotation_y target + Js.Math_PI.
Proof.
  intros E D M. cbv zeta. unfold camera_frame. rewrite E.
  change 0.2 with GROUNDED_BUFFER_TIME. fold (groundedDebounced p). rewrite D.
  destruct (GameCamera_update_fields cs target dt false (checkLanding target true c))
    as (Hm & _ & _ & _ & Ha & _).
  cbv zeta in Hm, Ha. rewrite Hm, Ha.
  unfold checkLanding, is_cinematic. rewrite M. cbn.
  split; [reflexivity|].
  destruct (mouseLookActive cs); [reflexivity|].
  unfold lerpAngle. rewrite shortestAngleDiff_same by reflexivity. ring.
Qed.

(** X17: mouse look steers only while it is active, and keeps the camera from
    flipping: a mouse movement with mouse look off changes nothing; with it
    on, the azimuth goes down by 0.002 per unit of horizontal movement, the
    polar angle ends between 0.6 and pi/2 - 0.1, and the player, the mode and
    the cinematic timer are untouched. *)
Theorem mouse_look_clamps_polar cs mx my w :
  let w' := onMouseMove cs mx my w in
  (mouseLookActive cs = false -> w' = w) /\
  (mouseLookActive cs = true ->
   azimuth (gameCamera w') = azimuth (gameCamera w) - mx * 0.002 /\
   0.6 <= polar (gameCamera w') /\
   polar (gameCamera w') <= Js.Math_PI / 2 - 0.1 /\
   player w' = player w /\ mode (gameCamera w') = mode (gameCamera w) /\
   cinematicTimer (gameCamera w') = cinematicTimer (gameCamera w)).
Proof.
  cbv zeta. unfold onMouseMove. split; intros ->; [reflexivity|].
  cbn. split; [reflexivity|].
  unfold MathUtils.clamp.
  assert (B : 0.6 <= Js.Math_PI / 2 - 0.1) by (vm_compute; discriminate).
  set (hi := Js.Math_PI / 2 - 0.1) in *.
  set (v := polar (gameCamera w) - my * 0.002).
  destruct (hi <? v) eqn:C1; ltb_hyps.
  - destruct (hi <? 0.6) eqn:C2; ltb_hyps; repeat split; lra.
  - destruct (v <? 0.6) eqn:C2; ltb_hyps; repeat split; lra.
Qed.

End CameraFields.

(** ** The controls follow the last input *)

Lemma set_control_control f key v c :
  control f (set_control key v c)
  = if same_field f (key_field key) then v else control f c.
Proof. destruct f as [[]|], key; reflexivity. Qed.

Lemma key_switch_control f v code c :
  control f (key_switch v code c)
  = match code_key code with
    | Some k => if same_field f (key_field k) then v else control f c
    | None => control f c
    end.
Proof.
  unfold key_switch, code_key.
  repeat match goal with
         | |- context [String.eqb code ?k] => destruct (String.eqb code k)
         end; cbn [orb]; try reflexivity; apply set_control_control.
Qed.

Lemma dispatch_control f c e : control f (dispatch c e) = latest f (control f c) e.
Proof.
  unfold latest. destruct e as [code|code|b|b|k|k]; cbn [dispatch addressed].
  - unfold boundKeyDown. rewrite key_switch_control.
    destruct (code_key code); reflexivity.
  - unfold boundKeyUp. rewrite key_switch_control.
    destruct (code_key code); reflexivity.
  - unfold boundMouseDown. destruct (b =? 0)%Z; [|reflexivity].
    destruct f as [[]|]; reflexivity.
  - unfold boundMouseUp. destruct (b =? 0)%Z; [|reflexivity].
    destruct f as [[]|]; reflexivity.
  - apply set_control_control.
  - apply set_control_control.
Qed.

(** X18: every field of [controlsState] follows the last input about it.
    After any sequence of key, mouse-button and on-screen-button events, a
    field holds what the last event about it wrote, pressed or released, and
    its old value if there was none; a letter and its arrow are one key, so
    releasing either releases the control while the other is still down. *)
Theorem controls_follow_last_input f es c :
  control f (fold_left dispatch es c) = fold_left (latest f) es (control f c).
Proof.
  revert c. induction es as [|e es IH]; intros c; cbn [fold_left];
    [reflexivity|].
  rewrite IH, dispatch_control. reflexivity.
Qed.

(** ** Taking off *)

Section TakeOff.

Context (three : ThreeMath) (mapCollider : MapCollider).

(** X19: a frame that finds ground with the jump key held launches the
    player: it ends with the jumping flag set, falling cleared, no time off
    the ground, and the velocity [JUMP_FORCE] less one frame of gravity,
    whatever the velocity was; but a frame longer than 8/15 of a second
    swallows the jump, leaving the velocity at 0. *)
Theorem jump_launches f p :
  loaded p = true -> grounded_at mapCollider p = true ->
  jump (frame_controls f) = true ->
  void_reset three mapCollider f p = false ->
  let q := step three mapCollider f p in
  jumping (state q) = true /\ falling (state q) = false /\
  timeSinceGrounded q = 0 /\
  verticalVelocity q
  = (if JUMP_FORCE + GRAVITY * frame_dt f <? 0 then 0
     else JUMP_FORCE + GRAVITY * frame_dt f).
Proof.
  intros L G J V q. destruct (loaded_model p L) as (m & E & M).
  unfold q. rewrite (step_simulate three mapCollider f p m E M V).
  unfold grounded_at in G. rewrite E in G.
  destruct (simulate_airborne_flags three (frame_dt f) (frame_controls f)
              mapCollider m p G) as [F Jf].
  rewrite F, Jf, J.
  split; [reflexivity|]. split; [reflexivity|].
  split.
  - rewrite (simulate_timeSinceGrounded three (frame_dt f) (frame_controls f)
               mapCollider m p). fold (sensed mapCollider m p). rewrite G.
    reflexivity.
  - rewrite (simulate_verticalVelocity three (frame_dt f) (frame_controls f)
               mapCollider m p).
    rewrite G, J. cbn [andb]. unfold integrated. cbv zeta. cbn [andb].
    destruct (JUMP_FORCE + GRAVITY * frame_dt f <? TERMINAL_VELOCITY) eqn:T.
    + apply ltb_lt in T.
      assert (N : (JUMP_FORCE + GRAVITY * frame_dt f <? 0) = true)
        by (apply ltb_lt; unfold TERMINAL_VELOCITY in T; lra).
      rewrite N. reflexivity.
    + reflexivity.
Qed.

End TakeOff.

(** ** The cinematic fall *)

Lemma easeInOutCubic_comp (t u : Q) : t == u -> easeInOutCubic t == easeInOutCubic u.
Proof.
  intros H. unfold easeInOutCubic, Js.pow3.
  rewrite (ltb_comp t 0.5 u 0.5 H (Qeq_refl _)).
  destruct (u <? 0.5); rewrite H; reflexivity.
Qed.

Lemma progress_done (t : Q) :
  FALL_TRANSITION_DURATION <= t ->
  easeInOutCubic (Js.Math_min (t / FALL_TRANSITION_DURATION) 1.0) == 1.
Proof.
  intros H. unfold Js.Math_min.
  destruct (1.0 <? t / FALL_TRANSITION_DURATION) eqn:E; [reflexivity|].
  apply ltb_ge in E. unfold FALL_TRANSITION_DURATION in *.
  assert (D : t / 2.0 == t * (1 # 2)) by field.
  rewrite (easeInOutCubic_comp _ 1); [reflexivity | lra].
Qed.

Section CinematicFall.

Context (three : ThreeMath).

(** X20: the end of the cinematic fall.  Once the cinematic timer has reached
    the transition time of 2 seconds, an update in cinematic mode aims at the
    map centre: a forced update puts the look-at point there, and a smoothed
    one moves it there by 3 percent of what is left. *)
Theorem cinematic_fall_ends_on_map_centre cs target delta forceImmediate c :
  mode c = CINEMATIC_FALL ->
  FALL_TRANSITION_DURATION <= cinematicTimer c + delta ->
  let c' := GameCamera_update three cs target delta forceImmediate c in
  same_point (smoothedLookAt c')
    (if forceImmediate then mapCenter c
     else Vec.lerp (smoothedLookAt c) (mapCenter c) CAMERA_SMOOTHING).
Proof.
  intros M T. cbv zeta. unfold GameCamera_update. rewrite M. cbv zeta.
  match goal with
  | |- context [smooth three ?f ?tp ?tl ?k] =>
      destruct (smooth_fields three f tp tl k) as (_ & _ & _ & _ & _ & _ & _ & ->)
  end.
  cbn [cinematicTimer mapCenter smoothedLookAt set_cinematicTimer].
  pose proof (progress_done _ T) as P.
  set (e := easeInOutCubic _) in *.
  unfold same_point.
  destruct forceImmediate; unfold Vec.lerpVectors, Vec.lerp; cbn [vx vy vz];
    rewrite P; repeat split; ring.
Qed.

(** X21: what the camera's [reset] leaves.  The mode is the cinematic fall,
    the timer is at 0, the azimuth is the angle behind the target, the
    look-at point is on the target, and the polar angle, the distance and the
    map centre are as before. *)
Theorem camera_reset_starts_the_fall cs target c :
  let c' := GameCamera_reset three cs target c in
  mode c' = CINEMATIC_FALL /\ cinematicTimer c' == 0 /\
  azimuth c' = rotation_y target + Js.Math_PI /\
  same_point (smoothedLookAt c') (position target) /\
  polar c' = polar c /\ cam_distance c' = cam_distance c /\
  mapCenter c' = mapCenter c.
Proof.
  cbv zeta. unfold GameCamera_reset. cbv zeta.
  match goal with
  | |- context [GameCamera_update three cs target 0 true ?k] =>
      destruct (GameCamera_update_fields three cs target 0 true k)
        as (Hm & Hp & Hd & Hc & Ha & Ht); cbv zeta in *;
      rewrite Hm, Hp, Hd, Hc, Ha, Ht
  end.
  cbn [mode polar cam_distance mapCenter azimuth cinematicTimer
       set_mode set_azimuth set_cinematicTimer set_smoothedLookAt].
  split; [reflexivity|]. split; [ring|]. split; [reflexivity|].
  split; [|auto].
  unfold GameCamera_update.
  cbn [mode set_mode set_azimuth set_cinematicTimer set_smoothedLookAt].
  cbv zeta.
  match goal with
  | |- context [smooth three ?f ?tp ?tl ?k] =>
      destruct (smooth_fields three f tp tl k) as (_ & _ & _ & _ & _ & _ & _ & ->)
  end.
  clear. unfold same_point, Vec.lerpVectors. cbn [vx vy vz].
  set (e := easeInOutCubic _).
  assert (E : e == 0) by (unfold e; vm_compute; reflexivity).
  cbn [mapCenter set_cinematicTimer].
  rewrite E. repeat split; ring.
Qed.

End CinematicFall.

(** ** The properties at work *)

Lemma grounded_signal_stays_off_in_the_air_witness :
  loaded (player Sample.world0) = true /\
  airborne Sample.three (Sample.level 0) Scene.hop (player Sample.world0) = true /\
  groundedDebounced (player Sample.world0) = false /\
  timeSinceGrounded (player Sample.world0)
  <= timeSinceGrounded (steps Sample.three (Sample.level 0) Scene.hop
                              (player Sample.world0)) /\
  groundedDebounced (steps Sample.three (Sample.level 0) Scene.hop
                           (player Sample.world0)) = false /\
  frame_dt (mkFrame 0.05 Sample.hands_off)
  <= timeSinceGrounded (steps Sample.three (Sample.level 0) Scene.hop
                              (player Sample.world0)).
Proof.
  assert (L : loaded (player Sample.world0) = true) by (vm_compute; reflexivity).
  assert (A : airborne Sample.three (Sample.level 0) Scene.hop (player Sample.world0)
              = true) by (vm_compute; reflexivity).
  assert (T : forward_in_time Scene.hop).
  { intros f [<-|[<-|[]]]; vm_compute; discriminate. }
  assert (D : groundedDebounced (player Sample.world0) = false)
    by (vm_compute; reflexivity).
  assert (P : 0 <= timeSinceGrounded (player Sample.world0))
    by (vm_compute; discriminate).
  split; [exact L|]. split; [exact A|]. split; [exact D|].
  pose proof (grounded_signal_stays_off_in_the_air Sample.three (Sample.level 0)
                Scene.hop (player Sample.world0) L A T) as W.
  cbv zeta in W. destruct W as (W1 & W2 & W3).
  split; [exact W1|]. split; [exact (W2 D)|].
  apply (W3 P). left. reflexivity.
Defined.

Lemma airborne_frame_witness :
  loaded Sample.runner = true /\
  grounded_at Scene.pit Sample.runner = false /\
  void_reset Sample.three Scene.pit (mkFrame 0.05 Sample.hands_off) Sample.runner
  = false /\
  has_clip "idle" Sample.runner /\
  sprinting (state (step Sample.three Scene.pit (mkFrame 0.05 Sample.hands_off)
                         Sample.runner))
  = sprinting (state Sample.runner) /\
  currentAnimation (step Sample.three Scene.pit (mkFrame 0.05 Sample.hands_off)
                         Sample.runner)
  = Some "idle"%string.
Proof.
  assert (L : loaded Sample.runner = true) by (vm_compute; reflexivity).
  assert (G : grounded_at Scene.pit Sample.runner = false)
    by (vm_compute; reflexivity).
  assert (V : void_reset Sample.three Scene.pit (mkFrame 0.05 Sample.hands_off)
                Sample.runner = false) by (vm_compute; reflexivity).
  assert (C : has_clip "idle" Sample.runner) by (vm_compute; exact I).
  split; [exact L|]. split; [exact G|]. split; [exact V|]. split; [exact C|].
  pose proof (airborne_frame Sample.three Scene.pit (mkFrame 0.05 Sample.hands_off)
                Sample.runner L G V) as W.
  cbv zeta in W. destruct W as (_ & W & _ & _ & _ & K).
  split; [exact W|]. rewrite (K C). vm_compute. reflexivity.
Defined.

Lemma jumping_blocks_falling_witness :
  loaded (step Sample.three (Sample.level 0) Sample.takeoff Sample.runner) = true /\
  jumping (state (step Sample.three (Sample.level 0) Sample.takeoff Sample.runner))
  = true /\
  airborne Sample.three (Sample.level 0) Sample.flight
    (step Sample.three (Sample.level 0) Sample.takeoff Sample.runner) = true /\
  jumping (state (steps Sample.three (Sample.level 0) Sample.flight
                    (step Sample.three (Sample.level 0) Sample.takeoff
                          Sample.runner))) = true.
Proof.
  assert (L : loaded (step Sample.three (Sample.level 0) Sample.takeoff Sample.runner)
              = true) by (vm_compute; reflexivity).
  assert (J : jumping (state (step Sample.three (Sample.level 0) Sample.takeoff
                                   Sample.runner)) = true)
    by (vm_compute; reflexivity).
  assert (A : airborne Sample.three (Sample.level 0) Sample.flight
                (step Sample.three (Sample.level 0) Sample.takeoff Sample.runner)
              = true) by (vm_compute; reflexivity).
  split; [exact L|]. split; [exact J|]. split; [exact A|].
  pose proof (jumping_blocks_falling Sample.three (Sample.level 0) Sample.flight
                (step Sample.three (Sample.level 0) Sample.takeoff Sample.runner)
                L J A) as W.
  cbv zeta in W. destruct W as [W _]. exact W.
Defined.

Lemma walking_off_sets_falling_witness :
  loaded Sample.runner = true /\ jumping (state Sample.runner) = false /\
  airborne Sample.three Scene.pit
    (mkFrame 0.05 Sample.hands_off :: [mkFrame 0.05 Sample.hands_off])
    Sample.runner = true /\
  jumping (state (steps Sample.three Scene.pit
                    (mkFrame 0.05 Sample.hands_off :: [mkFrame 0.05 Sample.hands_off])
                    Sample.runner)) = false /\
  falling (state (steps Sample.three Scene.pit
                    (mkFrame 0.05 Sample.hands_off :: [mkFrame 0.05 Sample.hands_off])
                    Sample.runner))
  = (falling (state Sample.runner)
     || (timeSinceGrounded
           (steps Sample.three Scene.pit
              (mkFrame 0.05 Sample.hands_off :: [mkFrame 0.05 Sample.hands_off])
              Sample.runner) >? GROUNDED_BUFFER_TIME))%bool.
Proof.
  assert (L : loaded Sample.runner = true) by (vm_compute; reflexivity).
  assert (J : jumping (state Sample.runner) = false) by (vm_compute; reflexivity).
  assert (A : airborne Sample.three Scene.pit
                (mkFrame 0.05 Sample.hands_off :: [mkFrame 0.05 Sample.hands_off])
                Sample.runner = true) by (vm_compute; reflexivity).
  assert (T : forward_in_time
                (mkFrame 0.05 Sample.hands_off :: [mkFrame 0.05 Sample.hands_off])).
  { intros f [<-|[<-|[]]]; vm_compute; discriminate. }
  split; [exact L|]. split; [exact J|]. split; [exact A|].
  pose proof (walking_off_sets_falling Sample.three Scene.pit
                (mkFrame 0.05 Sample.hands_off) [mkFrame 0.05 Sample.hands_off]
                Sample.runner L J A T) as W.
  cbv zeta in W. exact W.
Defined.

Lemma sprint_follows_ramp_timer_witness :
  loaded Scene.rested = true /\ sprinting (state Scene.rested) = false /\
  striding Sample.three (Sample.level 0)
    (mkFrame 0.5 Sample.hold_forward :: repeat (mkFrame 0.5 Sample.hold_forward) 2)
    Scene.rested = true /\
  sprinting (state (steps Sample.three (Sample.level 0)
                      (mkFrame 0.5 Sample.hold_forward
                       :: repeat (mkFrame 0.5 Sample.hold_forward) 2)
                      Scene.rested))
  = (walkToSprintTime (steps Sample.three (Sample.level 0)
                         (mkFrame 0.5 Sample.hold_forward
                          :: repeat (mkFrame 0.5 Sample.hold_forward) 2)
                         Scene.rested) >? 1.0) /\
  walkToSprintTime Scene.rested
  <= walkToSprintTime (steps Sample.three (Sample.level 0)
                         (mkFrame 0.5 Sample.hold_forward
                          :: repeat (mkFrame 0.5 Sample.hold_forward) 2)
                         Scene.rested).
Proof.
  assert (L : loaded Scene.rested = true) by (vm_compute; reflexivity).
  assert (S : sprinting (state Scene.rested) = false) by (vm_compute; reflexivity).
  assert (A : striding Sample.three (Sample.level 0)
                (mkFrame 0.5 Sample.hold_forward
                 :: repeat (mkFrame 0.5 Sample.hold_forward) 2)
                Scene.rested = true) by (vm_compute; reflexivity).
  assert (T : forward_in_time
                (mkFrame 0.5 Sample.hold_forward
                 :: repeat (mkFrame 0.5 Sample.hold_forward) 2)).
  { intros f [<-|[<-|[<-|[]]]]; vm_compute; discriminate. }
  split; [exact L|]. split; [exact S|]. split; [exact A|].
  pose proof (sprint_follows_ramp_timer Sample.three (Sample.level 0)
                (mkFrame 0.5 Sample.hold_forward)
                (repeat (mkFrame 0.5 Sample.hold_forward) 2)
                Scene.rested L S A) as W.
  cbv zeta in W. destruct W as [W1 W2].
  split; [exact W1 | exact (W2 T)].
Defined.

Lemma standing_still_witness :
  loaded Sample.runner = true /\
  grounded_at (Sample.level 0) Sample.runner = true /\
  void_reset Sample.three (Sample.level 0) (mkFrame 0.01 Sample.hands_off)
    Sample.runner = false /\
  has_clip "idle" Sample.runner /\
  state (step Sample.three (Sample.level 0) (mkFrame 0.01 Sample.hands_off)
              Sample.runner)
  = mkFlags true false false (jump (frame_controls (mkFrame 0.01 Sample.hands_off)))
            false /\
  currentAnimation (step Sample.three (Sample.level 0)
                         (mkFrame 0.01 Sample.hands_off) Sample.runner)
  = Some "idle"%string.
Proof.
  assert (L : loaded Sample.runner = true) by (vm_compute; reflexivity).
  assert (G : grounded_at (Sample.level 0) Sample.runner = true)
    by (vm_compute; reflexivity).
  assert (V : void_reset Sample.three (Sample.level 0)
                (mkFrame 0.01 Sample.hands_off) Sample.runner = false)
    by (vm_compute; reflexivity).
  assert (C : has_clip "idle" Sample.runner) by (vm_compute; exact I).
  split; [exact L|]. split; [exact G|]. split; [exact V|]. split; [exact C|].
  pose proof (standing_still Sample.three (Sample.level 0)
                (mkFrame 0.01 Sample.hands_off) Sample.runner L G eq_refl V) as W.
  cbv zeta in W. destruct W as (W & _ & _ & K).
  split; [exact W | exact (K C)].
Defined.

Lemma jump_clip_needs_reset_witness :
  currentAnimation Sample.runner <> Some "jump"%string /\
  undisturbed Sample.three (Sample.level 0) Scene.leap Sample.runner = true /\
  currentAnimation (steps Sample.three (Sample.level 0) Scene.leap Sample.runner)
  <> Some "jump"%string.
Proof.
  assert (C : forall k, In k ["idle"; "walk"; "sprint"]%string ->
                        has_clip k Sample.runner).
  { intros k [<-|[<-|[<-|[]]]]; vm_compute; exact I. }
  assert (N : currentAnimation Sample.runner <> Some "jump"%string)
    by (vm_compute; discriminate).
  assert (U : undisturbed Sample.three (Sample.level 0) Scene.leap Sample.runner
              = true) by (vm_compute; reflexivity).
  split; [exact N|]. split; [exact U|].
  apply (jump_clip_needs_reset Sample.three (Sample.level 0) Scene.leap Sample.runner).
  - apply C. cbn. auto.
  - apply C. cbn. auto.
  - apply C. cbn. auto.
  - exact N.
  - exact U.
Defined.

Lemma spawn_point_and_feet_offset_fixed_witness :
  loaded (player Sample.world0) = true /\
  model (fst (reset (steps Sample.three (Sample.level 0) Scene.hop
                           (player Sample.world0))))
  = Some (mkObject3D (spawnPoint (player Sample.world0)) 0 Js.Math_PI).
Proof.
  assert (L : loaded (player Sample.world0) = true) by (vm_compute; reflexivity).
  split; [exact L|].
  pose proof (spawn_point_and_feet_offset_fixed Sample.three (Sample.level 0)
                Scene.hop (player Sample.world0)) as W.
  cbv zeta in W. destruct W as (_ & _ & _ & _ & _ & W). exact (W L).
Defined.

Lemma one_clip_plays_witness :
  reachable Sample.three Sample.lander /\ one_clip_active Sample.lander.
Proof.
  split; [exact lander_reachable|].
  destruct (one_clip_plays Sample.three Sample.lander lander_reachable) as [W _].
  exact W.
Defined.

Lemma clip_key_cases_witness :
  bar_free "Armature" = true /\ bar_free "Walk" = true /\
  clip_key "Armature" = Str.toLowerCase "Armature" /\
  clip_key ("Armature" ++ String "|" "Walk")%string = Str.toLowerCase "Walk" /\
  clip_key ("Armature" ++ String "|" ("Walk" ++ String "|" "001"))%string
  = Str.toLowerCase "Walk".
Proof.
  split; [reflexivity|]. split; [reflexivity|].
  destruct (clip_key_cases "Armature" "Walk" "001" eq_refl eq_refl)
    as (W1 & W2 & _).
  split; [exact W1|]. apply W2. discriminate.
Defined.

Lemma backward_overrides_forward_witness :
  backward Scene.hold_both = true /\
  update Sample.three 0.1 (toggle_forward Scene.hold_both) (Sample.level 0)
         Sample.runner
  = update Sample.three 0.1 Scene.hold_both (Sample.level 0) Sample.runner /\
  input_dir Scene.hold_both = mkVector3 0 0 (-1).
Proof.
  split; [reflexivity|].
  exact (backward_overrides_forward Sample.three 0.1 Scene.hold_both
           (Sample.level 0) Sample.runner eq_refl).
Defined.

Lemma easeInOutCubic_eases_witness :
  0 <= 1 # 4 /\ 1 # 4 <= 3 # 4 /\ 3 # 4 <= 1 /\
  easeInOutCubic (1 # 4) <= easeInOutCubic (3 # 4).
Proof.
  assert (A : 0 <= 1 # 4) by (vm_compute; discriminate).
  assert (B : 1 # 4 <= 3 # 4) by (vm_compute; discriminate).
  assert (C : 3 # 4 <= 1) by (vm_compute; discriminate).
  split; [exact A|]. split; [exact B|]. split; [exact C|].
  destruct (easeInOutCubic_eases (1 # 4) (3 # 4) A B C) as (_ & _ & _ & _ & W & _).
  exact W.
Defined.

Lemma third_person_camera_floor_witness :
  mode Scene.behind = THIRD_PERSON /\
  0.5 <= vy (camera_position
               (camera (GameCamera_update Sample.three Sample.hands_off
                          Scene.origin 0.01 true Scene.behind))).
Proof.
  split; [reflexivity|].
  apply (third_person_camera_floor Sample.three Sample.hands_off Scene.origin 0.01
           true Scene.behind); [reflexivity | left; reflexivity].
Defined.

Lemma landing_sets_azimuth_behind_player_witness :
  model Sample.sprinter = Some (mkObject3D Vec.zero 0 Js.Math_PI) /\
  groundedDebounced Sample.sprinter = true /\
  mode (gameCamera Sample.world0) = CINEMATIC_FALL /\
  azimuth (camera_frame Sample.three 0.01 Sample.hands_off Sample.sprinter
             (gameCamera Sample.world0))
  == rotation_y (mkObject3D Vec.zero 0 Js.Math_PI) + Js.Math_PI.
Proof.
  assert (D : groundedDebounced Sample.sprinter = true) by (vm_compute; reflexivity).
  assert (M : mode (gameCamera Sample.world0) = CINEMATIC_FALL)
    by (vm_compute; reflexivity).
  split; [reflexivity|]. split; [exact D|]. split; [exact M|].
  pose proof (landing_sets_azimuth_behind_player Sample.three 0.01 Sample.hands_off
                Sample.sprinter (mkObject3D Vec.zero 0 Js.Math_PI)
                (gameCamera Sample.world0) eq_refl D M) as W.
  cbv zeta in W. destruct W as [_ W]. exact W.
Defined.

Lemma mouse_look_clamps_polar_witness :
  onMouseMove Sample.hands_off 3 4 Sample.world0 = Sample.world0 /\
  0.6 <= polar (gameCamera (onMouseMove Scene.mouse_look 3 4 Sample.world0)).
Proof.
  split.
  - destruct (mouse_look_clamps_polar Sample.hands_off 3 4 Sample.world0) as [W _].
    exact (W eq_refl).
  - destruct (mouse_look_clamps_polar Scene.mouse_look 3 4 Sample.world0) as [_ W].
    destruct (W eq_refl) as (_ & W' & _). exact W'.
Defined.

Lemma jump_launches_witness :
  loaded Sample.runner = true /\
  grounded_at (Sample.level 0) Sample.runner = true /\
  void_reset Sample.three (Sample.level 0) Sample.takeoff Sample.runner = false /\
  jumping (state (step Sample.three (Sample.level 0) Sample.takeoff Sample.runner))
  = true.
Proof.
  assert (L : loaded Sample.runner = true) by (vm_compute; reflexivity).
  assert (G : grounded_at (Sample.level 0) Sample.runner = true)
    by (vm_compute; reflexivity).
  assert (V : void_reset Sample.three (Sample.level 0) Sample.takeoff Sample.runner
              = false) by (vm_compute; reflexivity).
  split; [exact L|]. split; [exact G|]. split; [exact V|].
  pose proof (jump_launches Sample.three (Sample.level 0) Sample.takeoff
                Sample.runner L G eq_refl V) as W.
  cbv zeta in W. destruct W as [W _]. exact W.
Defined.

Lemma cinematic_fall_ends_on_map_centre_witness :
  mode (gameCamera Sample.world0) = CINEMATIC_FALL /\
  FALL_TRANSITION_DURATION <= cinematicTimer (gameCamera Sample.world0) + 2 /\
  same_point
    (smoothedLookAt (GameCamera_update Sample.three Sample.hands_off Scene.origin 2
                       true (gameCamera Sample.world0)))
    (mapCenter (gameCamera Sample.world0)).
Proof.
  assert (M : mode (gameCamera Sample.world0) = CINEMATIC_FALL)
    by (vm_compute; reflexivity).
  assert (T : FALL_TRANSITION_DURATION
              <= cinematicTimer (gameCamera Sample.world0) + 2)
    by (vm_compute; discriminate).
  split; [exact M|]. split; [exact T|].
  exact (cinematic_fall_ends_on_map_centre Sample.three Sample.hands_off
           Scene.origin 2 true (gameCamera Sample.world0) M T).
Defined.
